(** * jazzer_postprocessing: the streaming libFuzzer/Jazzer log processor

    A shallow embedding of
    [crs/assets/sinkpoints/BEEP-search/portable-tika2/jazzer_postprocessing.py]
    and the properties of its crash triage, its round counter and its
    timestamp handling.

    Conventions of the embedding:
    - a decoded line is a [string] whose characters are code points below 256;
      in that range [\d] is the ten ASCII digits and [\s] / [str.strip] use
      the white space of [str.isspace];
    - Python integers are [Z];
    - an exception is a value of [exn]; a computation that may raise returns
      a [result];
    - the locals of [parse_log_in_stream] are the record [state]; the
      statements of the loop body are functions on it;
    - the stream is the list of the lines read, each a [bytes] object, and
      [fuzz_data] is a dict; what the reads, the tee writes and the dump
      calls do is an input of [parse_log_in_stream_io]. *)

From Stdlib Require Import ZArith List Bool Ascii String Lia ListSet Sorted.
Import ListNotations.

Open Scope string_scope.
Open Scope list_scope.
Open Scope Z_scope.

(** ** Exceptions *)

Inductive exn : Type :=
| ValueError
| IndexError.

Inductive result (A : Type) : Type :=
| Ok (a : A)
| Raise (e : exn).

Arguments Ok {A} a.
Arguments Raise {A} e.

Definition rbind {A B : Type} (r : result A) (f : A -> result B) : result B :=
  match r with
  | Ok a => f a
  | Raise e => Raise e
  end.

Notation "x <- r ;; k" := (rbind r (fun x => k))
  (at level 61, r at next level, right associativity).

(** ** The Python built-ins the script uses *)

Module Py.

(** [str.isspace] on one character (code points below 256). *)
Definition isspace (c : ascii) : bool :=
  let n := nat_of_ascii c in
  ((9 <=? n) && (n <=? 13) || (28 <=? n) && (n <=? 32)
   || (n =? 133) || (n =? 160))%nat.

(** [\d] on one character. *)
Definition isdigit (c : ascii) : bool :=
  let n := nat_of_ascii c in ((48 <=? n) && (n <=? 57))%nat.

(** [[a-z0-9]] on one character. *)
Definition islower_or_digit (c : ascii) : bool :=
  let n := nat_of_ascii c in
  ((97 <=? n) && (n <=? 122) || (48 <=? n) && (n <=? 57))%nat.

Definition isnewline (c : ascii) : bool := Ascii.eqb c "010"%char.

(** [s.startswith(p)] *)
Fixpoint startswith (p s : string) : bool :=
  match p with
  | EmptyString => true
  | String a p' =>
      match s with
      | EmptyString => false
      | String b s' => Ascii.eqb a b && startswith p' s'
      end
  end.

(** [sub in s] on strings. *)
Fixpoint str_in (sub s : string) : bool :=
  if startswith sub s then true
  else match s with
       | EmptyString => false
       | String _ s' => str_in sub s'
       end.

(** [s.replace] of every blank by the empty string *)
Fixpoint remove_spaces (s : string) : string :=
  match s with
  | EmptyString => EmptyString
  | String c s' =>
      if Ascii.eqb c " "%char then remove_spaces s'
      else String c (remove_spaces s')
  end.

(** [s.split(sep)] for a one-character separator. *)
Fixpoint split (sep : ascii) (s : string) : list string :=
  match s with
  | EmptyString => [EmptyString]
  | String c s' =>
      if Ascii.eqb c sep then EmptyString :: split sep s'
      else match split sep s' with
           | f :: fs => String c f :: fs
           | [] => [String c EmptyString]
           end
  end.

Fixpoint lstrip (s : string) : string :=
  match s with
  | EmptyString => EmptyString
  | String c s' => if isspace c then lstrip s' else s
  end.

Fixpoint rstrip (s : string) : string :=
  match s with
  | EmptyString => EmptyString
  | String c s' =>
      match rstrip s' with
      | EmptyString => if isspace c then EmptyString else String c EmptyString
      | r => String c r
      end
  end.

(** [s.strip()] *)
Definition strip (s : string) : string := rstrip (lstrip s).

Definition digit_value (c : ascii) : Z := Z.of_nat (nat_of_ascii c) - 48.

Fixpoint digits_value (acc : Z) (s : string) : Z :=
  match s with
  | EmptyString => acc
  | String c s' => digits_value (10 * acc + digit_value c) s'
  end.

(** CPython's default [sys.int_max_str_digits]. *)
Definition int_max_str_digits : nat := 4300.

(** [int(s)] for a string of decimal digits, as every [(\d+)] group is:
    the value, or [ValueError] when the string has more digits than the
    interpreter converts. *)
Definition int (s : string) : result Z :=
  if (int_max_str_digits <? String.length s)%nat then Raise ValueError
  else Ok (digits_value 0 s).

(** [max(a, b)] *)
Definition max (a b : Z) : Z := Z.max a b.

End Py.

(** ** Regular expressions

    Each pattern of the script is written with the combinators below, left
    to right as in its source text.  A combinator takes the continuation
    that matches the rest of the pattern; greedy repetition tries the longer
    match first and falls back, as the backtracking matcher of [re] does. *)

Module Re.

Section Combinators.
Context {R : Type}.

Definition cont : Type := string -> option R.

(** a literal text *)
Fixpoint lit (p : string) (k : cont) (s : string) : option R :=
  match p with
  | EmptyString => k s
  | String a p' =>
      match s with
      | EmptyString => None
      | String b s' => if Ascii.eqb a b then lit p' k s' else None
      end
  end.

(** [.] : one character other than a newline *)
Definition any1 (k : cont) (s : string) : option R :=
  match s with
  | EmptyString => None
  | String c s' => if Py.isnewline c then None else k s'
  end.

(** [\s] *)
Definition space (k : cont) (s : string) : option R :=
  match s with
  | EmptyString => None
  | String c s' => if Py.isspace c then k s' else None
  end.

(** [.*] *)
Fixpoint dotstar (k : cont) (s : string) : option R :=
  match s with
  | EmptyString => k s
  | String c s' =>
      if Py.isnewline c then k s
      else match dotstar k s' with
           | Some r => Some r
           | None => k s
           end
  end.

(** a capturing [.*] : as [dotstar], handing the text it consumed
    (after [acc]) to the continuation *)
Fixpoint dotstar_cap (k : string -> cont) (acc : string) (s : string)
  : option R :=
  match s with
  | EmptyString => k acc s
  | String c s' =>
      if Py.isnewline c then k acc s
      else match dotstar_cap k (acc ++ String c EmptyString)%string s' with
           | Some r => Some r
           | None => k acc s
           end
  end.

(** zero or more characters of the class [C], greedy, capturing *)
Fixpoint class0 (C : ascii -> bool) (k : string -> cont) (acc : string)
  (s : string) : option R :=
  match s with
  | EmptyString => k acc s
  | String c s' =>
      if C c then
        match class0 C k (acc ++ String c EmptyString)%string s' with
        | Some r => Some r
        | None => k acc s
        end
      else k acc s
  end.

(** one or more characters of the class [C], greedy, capturing *)
Definition class1 (C : ascii -> bool) (k : string -> cont) (s : string)
  : option R :=
  match s with
  | EmptyString => None
  | String c s' =>
      if C c then class0 C k (String c EmptyString) s' else None
  end.

(** [(\d+)] *)
Definition digits1 (k : string -> cont) : cont := class1 Py.isdigit k.

End Combinators.

End Re.

(** ** Module constants *)

Definition SANITIZERS : list string :=
  [ "FuzzerSecurityIssueCritical: OS Command Injection";
    "FuzzerSecurityIssueCritical: Integer Overflow";
    "FuzzerSecurityIssueMedium: Server Side Request Forgery (SSRF)";
    "FuzzerSecurityIssueHigh: Remote Code Execution";
    "FuzzerSecurityIssueHigh: SQL Injection";
    "FuzzerSecurityIssueCritical: Remote JNDI Lookup";
    "FuzzerSecurityIssueCritical: LDAP Injection";
    "FuzzerSecurityIssueHigh: XPath Injection";
    "FuzzerSecurityIssueHigh: load arbitrary library";
    "FuzzerSecurityIssueLow: Regular Expression Injection";
    "FuzzerSecurityIssueCritical: Script Engine Injection";
    "FuzzerSecurityIssueCritical: File read/write hook path" ].

(** [^(\d+)\sOpenJDK 64-Bit Server VM warning: Option CriticalJNINatives was
    deprecated in version 16.0 and will likely be removed in a future
    release.]  The two dots of the pattern are wildcards. *)
Definition FUZZ_START_BODY {R : Type} (k : Re.cont) : @Re.cont R :=
  Re.lit "OpenJDK 64-Bit Server VM warning: Option CriticalJNINatives was deprecated in version 16"
    (Re.any1
       (Re.lit "0 and will likely be removed in a future release"
          (Re.any1 k))).

Definition FUZZ_START_LINE_PTRN (line : string) : option string :=
  Re.digits1 (fun g1 => Re.space (FUZZ_START_BODY (fun _ => Some g1))) line.

(** [#(\d+).*cov: (\d+) ft: (\d+)] *)
Definition COV_BODY {R : Type} (k : string -> string -> string -> option R)
  : @Re.cont R :=
  Re.lit "#"
    (Re.digits1 (fun g1 =>
       Re.dotstar
         (Re.lit "cov: "
            (Re.digits1 (fun g2 =>
               Re.lit " ft: "
                 (Re.digits1 (fun g3 _ => k g1 g2 g3))))))).

Definition OLD_LIBFUZZER_COV_LINE_PTRN (line : string)
  : option (string * string * string) :=
  COV_BODY (fun g1 g2 g3 => Some (g1, g2, g3)) line.

Definition LIBFUZZER_COV_LINE_PTRN (line : string)
  : option (string * string * string * string) :=
  Re.digits1
    (fun g1 => Re.space (COV_BODY (fun g2 g3 g4 => Some (g1, g2, g3, g4))))
    line.

(** the group [== Java Exception:] followed by [.*], captured whole *)
Definition CRASH_BODY {R : Type} (k : string -> option R) : @Re.cont R :=
  Re.lit "== Java Exception:"
    (Re.dotstar_cap (fun g _ => k ("== Java Exception:" ++ g)%string) EmptyString).

Definition OLD_LIBFUZZER_CRASH_LINE_PTRN (line : string) : option string :=
  CRASH_BODY (fun g1 => Some g1) line.

Definition LIBFUZZER_CRASH_LINE_PTRN (line : string)
  : option (string * string) :=
  Re.digits1 (fun g1 => Re.space (CRASH_BODY (fun g2 => Some (g1, g2)))) line.

(** [artifact_prefix=.*; Test unit written to .*/artifacts/(crash-[a-z0-9]+)] *)
Definition ARTIFACT_BODY {R : Type} (k : string -> option R) : @Re.cont R :=
  Re.lit "artifact_prefix="
    (Re.dotstar
       (Re.lit "; Test unit written to "
          (Re.dotstar
             (Re.lit "/artifacts/"
                (Re.lit "crash-"
                   (Re.class1 Py.islower_or_digit
                      (fun g _ => k ("crash-" ++ g)%string))))))).

Definition OLD_CRASH_ARTIFACT_LINE_PTRN (line : string) : option string :=
  ARTIFACT_BODY (fun g1 => Some g1) line.

Definition CRASH_ARTIFACT_LINE_PTRN (line : string)
  : option (string * string) :=
  Re.digits1 (fun g1 => Re.space (ARTIFACT_BODY (fun g2 => Some (g1, g2))))
    line.

Definition JAZZER_EXIT_LOG : string := "@@@@@ exit code of Jazzer".

Definition SINKPOINT : string := "SINKPOINT".

Definition UNKNOWN_SANITIZER : string := "UNKNOWN SANITIZER".

(** ** Classification *)

(** [sink_mode] is the value of the environment variable JAZZER_SINK_MODE,
    the empty string when it is unset. *)
Definition is_of_jazzer_sink (sink_mode : string) (crash : string) : bool :=
  negb (String.eqb sink_mode EmptyString) && Py.str_in "BEEP BEEP, sink point" crash.

Definition is_known_sanitizer (sanitizer : string) : bool :=
  existsb (String.eqb sanitizer) SANITIZERS.

(** The three [lambda]s of [is_interesting_crash]; the first indexes the
    result of [split] and raises [IndexError] when there is no field 1. *)
Definition checkers : list (string -> result bool) :=
  [ (fun c => match nth_error (Py.split ":"%char c) 1 with
              | Some field => Ok (Py.str_in "code_intelligence" field)
              | None => Raise IndexError
              end);
    (fun c => Ok (negb (Py.str_in "Stack overflow (use " c)));
    (fun c => Ok (negb (Py.str_in "Out of memory" c))) ].

Fixpoint run_checkers (cs : list (string -> result bool)) (crash : string)
  : result bool :=
  match cs with
  | [] => Ok true
  | checker :: cs' =>
      b <- checker crash ;;
      if negb b then Ok false else run_checkers cs' crash
  end.

Definition is_interesting_crash (crash : string) : result bool :=
  run_checkers checkers crash.

(** The [for sanitizer in SANITIZERS] loop of [crash_2_sanitizer]; [None]
    when the loop ends without a [return]. *)
Fixpoint scan_sanitizers (l : list string) (crash : string) : option string :=
  match l with
  | [] => None
  | sanitizer :: l' =>
      if Py.str_in sanitizer crash then Some sanitizer
      else if Py.str_in (Py.remove_spaces sanitizer) crash then Some sanitizer
      else scan_sanitizers l' crash
  end.

Definition crash_2_sanitizer (sink_mode : string) (crash : string)
  : result (option string) :=
  if is_of_jazzer_sink sink_mode crash then Ok (Some SINKPOINT)
  else
    interesting <- is_interesting_crash crash ;;
    if negb interesting then Ok None
    else match scan_sanitizers SANITIZERS crash with
         | Some sanitizer => Ok (Some sanitizer)
         | None => Ok (Some UNKNOWN_SANITIZER)
         end.

(** ** Line parsers *)

Definition elapsed (timestamp : Z) (initial_timestamp : option Z) : option Z :=
  match initial_timestamp with
  | Some t0 => Some (timestamp - t0)
  | None => None
  end.

Definition _parse_cov_line (line : string) (initial_timestamp : option Z)
  : result (option (Z * option Z * Z * Z)) :=
  match LIBFUZZER_COV_LINE_PTRN line with
  | Some (g1, g2, g3, g4) =>
      timestamp <- Py.int g1 ;;
      roundno <- Py.int g2 ;;
      cov <- Py.int g3 ;;
      ft <- Py.int g4 ;;
      Ok (Some (roundno, elapsed timestamp initial_timestamp, cov, ft))
  | None =>
      match OLD_LIBFUZZER_COV_LINE_PTRN line with
      | Some (g1, g2, g3) =>
          roundno <- Py.int g1 ;;
          cov <- Py.int g2 ;;
          ft <- Py.int g3 ;;
          Ok (Some (roundno, None, cov, ft))
      | None => Ok None
      end
  end.

Definition _parse_crash_line (line : string) (initial_timestamp : option Z)
  : result (option (option Z * string)) :=
  match LIBFUZZER_CRASH_LINE_PTRN line with
  | Some (g1, crash) =>
      timestamp <- Py.int g1 ;;
      Ok (Some (elapsed timestamp initial_timestamp, crash))
  | None =>
      match OLD_LIBFUZZER_CRASH_LINE_PTRN line with
      | Some crash => Ok (Some (None, crash))
      | None => Ok None
      end
  end.

Definition _parse_artifact_line (line : string) (initial_timestamp : option Z)
  : result (option (option Z * string)) :=
  match CRASH_ARTIFACT_LINE_PTRN line with
  | Some (g1, artifact) =>
      timestamp <- Py.int g1 ;;
      Ok (Some (elapsed timestamp initial_timestamp, artifact))
  | None =>
      match OLD_CRASH_ARTIFACT_LINE_PTRN line with
      | Some artifact => Ok (Some (None, artifact))
      | None => Ok None
      end
  end.

(** ** The state of [parse_log_in_stream] *)

(** [(crash_time, crash, sanitizer)] *)
Definition pending_crash : Type := (option Z * string * string)%type.

(** [(crash_time, sanitizer, crash, artifact)] *)
Definition triaged_crash : Type := (option Z * string * string * string)%type.

(** [(roundno, elapsed_time, cov, ft)] *)
Definition fuzz_status : Type := (Z * option Z * Z * Z)%type.

Definition triaged_class (t : triaged_crash) : string :=
  match t with (_, sanitizer, _, _) => sanitizer end.

(** The five integers [sync_result] copies into the [fuzz_data] dict. *)
Record scalars : Type := mkScalars {
  s_ttl_round : Z;
  s_last_cov : Z;
  s_last_ft : Z;
  s_max_cov : Z;
  s_max_ft : Z
}.

(** The ten keys of the [fuzz_data] dict, as [dump_fuzz_data] serialises
    them. *)
Record summary : Type := mkSummary {
  d_cov_over_time : list (option Z * Z);
  d_ft_over_time : list (option Z * Z);
  d_log_crash_over_time : list (option Z * string);
  d_artifact_over_time : list (option Z * string);
  d_log_triage_crash_over_time : list triaged_crash;
  d_scalars : scalars
}.

(** The local variables of [parse_log_in_stream], and the two objects
    outside it that it acts on:
    - [fuzz_data], the dict of the caller: [None] while [sync_result] has
      not run, afterwards its five list keys are the local list objects
      themselves (they alias, so a later append shows in the dict) and its
      integer keys hold the values copied by the last [sync_result];
    - [dumps], the snapshots written by the calls of [dump_fuzz_data], in
      order. *)
Record state : Type := mkState {
  cov_over_time : list (option Z * Z);
  ft_over_time : list (option Z * Z);
  log_crash_over_time : list (option Z * string);
  artifact_over_time : list (option Z * string);
  log_triage_crash_over_time : list triaged_crash;
  pending_crashes : list pending_crash;
  seen_sanitizers : set string;
  ttl_round : Z;
  last_cov : Z;
  last_ft : Z;
  max_cov : Z;
  max_ft : Z;
  need_dump : bool;
  initial_timestamp : option Z;
  ttl_roundno_base : Z;
  all_fuzz_statuses : list (list fuzz_status);
  fuzz_statuses : list fuzz_status;
  fuzz_data : option scalars;
  dumps : list summary
}.

Definition set_cov_over_time (v : list (option Z * Z)) (st : state) : state :=
  mkState v (ft_over_time st) (log_crash_over_time st) (artifact_over_time st)
    (log_triage_crash_over_time st) (pending_crashes st) (seen_sanitizers st) (ttl_round st)
    (last_cov st) (last_ft st) (max_cov st) (max_ft st)
    (need_dump st) (initial_timestamp st) (ttl_roundno_base st) (all_fuzz_statuses st)
    (fuzz_statuses st) (fuzz_data st) (dumps st).

Definition set_ft_over_time (v : list (option Z * Z)) (st : state) : state :=
  mkState (cov_over_time st) v (log_crash_over_time st) (artifact_over_time st)
    (log_triage_crash_over_time st) (pending_crashes st) (seen_sanitizers st) (ttl_round st)
    (last_cov st) (last_ft st) (max_cov st) (max_ft st)
    (need_dump st) (initial_timestamp st) (ttl_roundno_base st) (all_fuzz_statuses st)
    (fuzz_statuses st) (fuzz_data st) (dumps st).

Definition set_log_crash_over_time (v : list (option Z * string)) (st : state) : state :=
  mkState (cov_over_time st) (ft_over_time st) v (artifact_over_time st)
    (log_triage_crash_over_time st) (pending_crashes st) (seen_sanitizers st) (ttl_round st)
    (last_cov st) (last_ft st) (max_cov st) (max_ft st)
    (need_dump st) (initial_timestamp st) (ttl_roundno_base st) (all_fuzz_statuses st)
    (fuzz_statuses st) (fuzz_data st) (dumps st).

Definition set_artifact_over_time (v : list (option Z * string)) (st : state) : state :=
  mkState (cov_over_time st) (ft_over_time st) (log_crash_over_time st) v
    (log_triage_crash_over_time st) (pending_crashes st) (seen_sanitizers st) (ttl_round st)
    (last_cov st) (last_ft st) (max_cov st) (max_ft st)
    (need_dump st) (initial_timestamp st) (ttl_roundno_base st) (all_fuzz_statuses st)
    (fuzz_statuses st) (fuzz_data st) (dumps st).

Definition set_log_triage_crash_over_time (v : list triaged_crash) (st : state) : state :=
  mkState (cov_over_time st) (ft_over_time st) (log_crash_over_time st) (artifact_over_time st)
    v (pending_crashes st) (seen_sanitizers st) (ttl_round st)
    (last_cov st) (last_ft st) (max_cov st) (max_ft st)
    (need_dump st) (initial_timestamp st) (ttl_roundno_base st) (all_fuzz_statuses st)
    (fuzz_statuses st) (fuzz_data st) (dumps st).

Definition set_pending_crashes (v : list pending_crash) (st : state) : state :=
  mkState (cov_over_time st) (ft_over_time st) (log_crash_over_time st) (artifact_over_time st)
    (log_triage_crash_over_time st) v (seen_sanitizers st) (ttl_round st)
    (last_cov st) (last_ft st) (max_cov st) (max_ft st)
    (need_dump st) (initial_timestamp st) (ttl_roundno_base st) (all_fuzz_statuses st)
    (fuzz_statuses st) (fuzz_data st) (dumps st).

Definition set_seen_sanitizers (v : set string) (st : state) : state :=
  mkState (cov_over_time st) (ft_over_time st) (log_crash_over_time st) (artifact_over_time st)
    (log_triage_crash_over_time st) (pending_crashes st) v (ttl_round st)
    (last_cov st) (last_ft st) (max_cov st) (max_ft st)
    (need_dump st) (initial_timestamp st) (ttl_roundno_base st) (all_fuzz_statuses st)
    (fuzz_statuses st) (fuzz_data st) (dumps st).

Definition set_ttl_round (v : Z) (st : state) : state :=
  mkState (cov_over_time st) (ft_over_time st) (log_crash_over_time st) (artifact_over_time st)
    (log_triage_crash_over_time st) (pending_crashes st) (seen_sanitizers st) v
    (last_cov st) (last_ft st) (max_cov st) (max_ft st)
    (need_dump st) (initial_timestamp st) (ttl_roundno_base st) (all_fuzz_statuses st)
    (fuzz_statuses st) (fuzz_data st) (dumps st).

Definition set_last_cov (v : Z) (st : state) : state :=
  mkState (cov_over_time st) (ft_over_time st) (log_crash_over_time st) (artifact_over_time st)
    (log_triage_crash_over_time st) (pending_crashes st) (seen_sanitizers st) (ttl_round st)
    v (last_ft st) (max_cov st) (max_ft st)
    (need_dump st) (initial_timestamp st) (ttl_roundno_base st) (all_fuzz_statuses st)
    (fuzz_statuses st) (fuzz_data st) (dumps st).

Definition set_last_ft (v : Z) (st : state) : state :=
  mkState (cov_over_time st) (ft_over_time st) (log_crash_over_time st) (artifact_over_time st)
    (log_triage_crash_over_time st) (pending_crashes st) (seen_sanitizers st) (ttl_round st)
    (last_cov st) v (max_cov st) (max_ft st)
    (need_dump st) (initial_timestamp st) (ttl_roundno_base st) (all_fuzz_statuses st)
    (fuzz_statuses st) (fuzz_data st) (dumps st).

Definition set_max_cov (v : Z) (st : state) : state :=
  mkState (cov_over_time st) (ft_over_time st) (log_crash_over_time st) (artifact_over_time st)
    (log_triage_crash_over_time st) (pending_crashes st) (seen_sanitizers st) (ttl_round st)
    (last_cov st) (last_ft st) v (max_ft st)
    (need_dump st) (initial_timestamp st) (ttl_roundno_base st) (all_fuzz_statuses st)
    (fuzz_statuses st) (fuzz_data st) (dumps st).

Definition set_max_ft (v : Z) (st : state) : state :=
  mkState (cov_over_time st) (ft_over_time st) (log_crash_over_time st) (artifact_over_time st)
    (log_triage_crash_over_time st) (pending_crashes st) (seen_sanitizers st) (ttl_round st)
    (last_cov st) (last_ft st) (max_cov st) v
    (need_dump st) (initial_timestamp st) (ttl_roundno_base st) (all_fuzz_statuses st)
    (fuzz_statuses st) (fuzz_data st) (dumps st).

Definition set_need_dump (v : bool) (st : state) : state :=
  mkState (cov_over_time st) (ft_over_time st) (log_crash_over_time st) (artifact_over_time st)
    (log_triage_crash_over_time st) (pending_crashes st) (seen_sanitizers st) (ttl_round st)
    (last_cov st) (last_ft st) (max_cov st) (max_ft st)
    v (initial_timestamp st) (ttl_roundno_base st) (all_fuzz_statuses st)
    (fuzz_statuses st) (fuzz_data st) (dumps st).

Definition set_initial_timestamp (v : option Z) (st : state) : state :=
  mkState (cov_over_time st) (ft_over_time st) (log_crash_over_time st) (artifact_over_time st)
    (log_triage_crash_over_time st) (pending_crashes st) (seen_sanitizers st) (ttl_round st)
    (last_cov st) (last_ft st) (max_cov st) (max_ft st)
    (need_dump st) v (ttl_roundno_base st) (all_fuzz_statuses st)
    (fuzz_statuses st) (fuzz_data st) (dumps st).

Definition set_ttl_roundno_base (v : Z) (st : state) : state :=
  mkState (cov_over_time st) (ft_over_time st) (log_crash_over_time st) (artifact_over_time st)
    (log_triage_crash_over_time st) (pending_crashes st) (seen_sanitizers st) (ttl_round st)
    (last_cov st) (last_ft st) (max_cov st) (max_ft st)
    (need_dump st) (initial_timestamp st) v (all_fuzz_statuses st)
    (fuzz_statuses st) (fuzz_data st) (dumps st).

Definition set_all_fuzz_statuses (v : list (list fuzz_status)) (st : state) : state :=
  mkState (cov_over_time st) (ft_over_time st) (log_crash_over_time st) (artifact_over_time st)
    (log_triage_crash_over_time st) (pending_crashes st) (seen_sanitizers st) (ttl_round st)
    (last_cov st) (last_ft st) (max_cov st) (max_ft st)
    (need_dump st) (initial_timestamp st) (ttl_roundno_base st) v
    (fuzz_statuses st) (fuzz_data st) (dumps st).

Definition set_fuzz_statuses (v : list fuzz_status) (st : state) : state :=
  mkState (cov_over_time st) (ft_over_time st) (log_crash_over_time st) (artifact_over_time st)
    (log_triage_crash_over_time st) (pending_crashes st) (seen_sanitizers st) (ttl_round st)
    (last_cov st) (last_ft st) (max_cov st) (max_ft st)
    (need_dump st) (initial_timestamp st) (ttl_roundno_base st) (all_fuzz_statuses st)
    v (fuzz_data st) (dumps st).

Definition set_fuzz_data (v : option scalars) (st : state) : state :=
  mkState (cov_over_time st) (ft_over_time st) (log_crash_over_time st) (artifact_over_time st)
    (log_triage_crash_over_time st) (pending_crashes st) (seen_sanitizers st) (ttl_round st)
    (last_cov st) (last_ft st) (max_cov st) (max_ft st)
    (need_dump st) (initial_timestamp st) (ttl_roundno_base st) (all_fuzz_statuses st)
    (fuzz_statuses st) v (dumps st).

Definition set_dumps (v : list summary) (st : state) : state :=
  mkState (cov_over_time st) (ft_over_time st) (log_crash_over_time st) (artifact_over_time st)
    (log_triage_crash_over_time st) (pending_crashes st) (seen_sanitizers st) (ttl_round st)
    (last_cov st) (last_ft st) (max_cov st) (max_ft st)
    (need_dump st) (initial_timestamp st) (ttl_roundno_base st) (all_fuzz_statuses st)
    (fuzz_statuses st) (fuzz_data st) v.

Definition initial_state : state :=
  mkState [] [] [] [] [] [] (empty_set string) 0 0 0 0 0 false None 0 [] []
    None [].

(** What a reader of the [fuzz_data] dict sees: nothing before the first
    [sync_result]; afterwards the lists as they are now and the integers of
    the last [sync_result]. *)
Definition fuzz_data_view (st : state) : option summary :=
  match fuzz_data st with
  | None => None
  | Some sc =>
      Some (mkSummary (cov_over_time st) (ft_over_time st)
              (log_crash_over_time st) (artifact_over_time st)
              (log_triage_crash_over_time st) sc)
  end.

(** The outcome of a statement: it completes, or it raises and leaves the
    state as it was at that point. *)
Inductive outcome : Type :=
| Done (st : state)
| Raised (e : exn) (st : state).

Definition and_then (o : outcome) (f : state -> outcome) : outcome :=
  match o with
  | Done st => f st
  | Raised e st => Raised e st
  end.

Notation "st <~ o ;; k" := (and_then o (fun st => k))
  (at level 61, o at next level, right associativity).

(** ** The loop body, statement by statement *)

(** 1. fuzzer start line *)
Definition step_start (st : state) (line : string) : outcome :=
  match initial_timestamp st with
  | None =>
      match FUZZ_START_LINE_PTRN line with
      | Some g1 =>
          match Py.int g1 with
          | Ok t => Done (set_need_dump true (set_initial_timestamp (Some t) st))
          | Raise e => Raised e st
          end
      | None => Done st
      end
  | Some _ => Done st
  end.

(** 2. cov line *)
Definition step_cov (st : state) (line : string) : outcome :=
  match _parse_cov_line line (initial_timestamp st) with
  | Raise e => Raised e st
  | Ok None => Done st
  | Ok (Some (roundno, elapsed_time, cov, ft)) =>
      let st := set_max_cov (Py.max (max_cov st) cov) (set_last_cov cov st) in
      let st := set_max_ft (Py.max (max_ft st) ft) (set_last_ft ft st) in
      let st := set_cov_over_time (cov_over_time st ++ [(elapsed_time, cov)]) st in
      let st := set_ft_over_time (ft_over_time st ++ [(elapsed_time, ft)]) st in
      let st := set_ttl_round (ttl_roundno_base st + roundno) st in
      Done (set_fuzz_statuses
              (fuzz_statuses st ++ [(roundno, elapsed_time, cov, ft)]) st)
  end.

(** [sanitizer not in seen_sanitizers or sanitizer == "SINKPOINT"] *)
Definition not_seen_or_sinkpoint (st : state) (sanitizer : string) : bool :=
  negb (set_mem string_dec sanitizer (seen_sanitizers st))
  || String.eqb sanitizer SINKPOINT.

(** 3. crash line *)
Definition step_crash (sink_mode : string) (st : state) (line : string)
  : outcome :=
  match _parse_crash_line line (initial_timestamp st) with
  | Raise e => Raised e st
  | Ok None => Done st
  | Ok (Some (elapsed_time, crash)) =>
      let st :=
        set_log_crash_over_time
          (log_crash_over_time st ++ [(elapsed_time, crash)]) st in
      match crash_2_sanitizer sink_mode crash with
      | Raise e => Raised e st
      | Ok None => Done st
      | Ok (Some sanitizer) =>
          if not_seen_or_sinkpoint st sanitizer then
            Done (set_pending_crashes
                    (pending_crashes st ++ [(elapsed_time, crash, sanitizer)])
                    st)
          else Done st
      end
  end.

(** The test of the [while] body: is the pending crash eligible for an
    artifact written at [elapsed_time]? *)
Definition eligible (elapsed_time crash_time : option Z) : bool :=
  match elapsed_time, crash_time with
  | None, _ => true
  | _, None => true
  | Some a, Some c => c <=? a
  end.

(** [l.pop(i)] *)
Definition pop {A : Type} (i : nat) (l : list A) : list A :=
  firstn i l ++ skipn (S i) l.

(** The [while i < len(pending_crashes)] loop; every iteration either pops
    an entry or advances [i], so [fuel = len(pending_crashes)] iterations
    are enough (lemma [check_pending_scan]). *)
Fixpoint check_pending (fuel : nat) (i : nat) (elapsed_time : option Z)
  (artifact : string) (st : state) : state :=
  match fuel with
  | O => st
  | S fuel' =>
      if (i <? List.length (pending_crashes st))%nat then
        match nth_error (pending_crashes st) i with
        | Some (crash_time, crash, sanitizer) =>
            if eligible elapsed_time crash_time then
              let st :=
                if not_seen_or_sinkpoint st sanitizer then
                  set_need_dump true
                    (set_seen_sanitizers
                       (set_add string_dec sanitizer (seen_sanitizers st))
                       (set_log_triage_crash_over_time
                          (log_triage_crash_over_time st
                           ++ [(crash_time, sanitizer, crash, artifact)]) st))
                else st in
              check_pending fuel' i elapsed_time artifact
                (set_pending_crashes (pop i (pending_crashes st)) st)
            else check_pending fuel' (S i) elapsed_time artifact st
        | None => st
        end
      else st
  end.

(** 4. artifact line *)
Definition step_artifact (st : state) (line : string) : outcome :=
  match _parse_artifact_line line (initial_timestamp st) with
  | Raise e => Raised e st
  | Ok None => Done st
  | Ok (Some (elapsed_time, artifact)) =>
      let st :=
        set_artifact_over_time
          (artifact_over_time st ++ [(elapsed_time, artifact)]) st in
      Done (check_pending (List.length (pending_crashes st)) 0 elapsed_time
              artifact st)
  end.

(** 5. exit line *)
Definition step_exit (st : state) (line : string) : state :=
  if Py.str_in JAZZER_EXIT_LOG line then
    let st := set_ttl_roundno_base (ttl_round st) st in
    if (0 <? List.length (fuzz_statuses st))%nat then
      set_fuzz_statuses []
        (set_all_fuzz_statuses (all_fuzz_statuses st ++ [fuzz_statuses st]) st)
    else st
  else st.

(** [sync_result(fuzz_data)] *)
Definition sync_result (st : state) : state :=
  set_fuzz_data
    (Some (mkScalars (ttl_round st) (last_cov st) (last_ft st) (max_cov st)
             (max_ft st))) st.

(** [dump_fuzz_data()], the callback of the script, when it returns: it
    serialises the [fuzz_data] dict.  The call can also raise;
    [step_dump_io] below has both cases. *)
Definition dump_fuzz_data (st : state) : state :=
  match fuzz_data_view st with
  | Some d => set_dumps (dumps st ++ [d]) st
  | None => st
  end.

(** [if need_dump: dump_fuzz_data(); need_dump = False], when the call
    returns. *)
Definition step_dump (st : state) : state :=
  if need_dump st then set_need_dump false (dump_fuzz_data st) else st.

(** The statements 1 to 5 of the loop body, on the stripped line. *)
Definition extract_and_triage (sink_mode : string) (st : state)
  (line : string) : outcome :=
  st <~ step_start st line ;;
  st <~ step_cov st line ;;
  st <~ step_crash sink_mode st line ;;
  st <~ step_artifact st line ;;
  Done (step_exit st line).

(** One iteration of [for line in file_obj], on the decoded line, in a
    world where the tee write and the dump call return.  The decoding
    itself cannot fail ([errors="ignore"]).  [loop_body_io] below is the
    iteration with its two writes and their errors. *)
Definition loop_body (sink_mode : string) (st : state) (raw : string)
  : outcome :=
  let line := Py.strip raw in
  st <~ extract_and_triage sink_mode st line ;;
  Done (step_dump (sync_result st)).

(** [for line in file_obj: ...]: an exception leaves the loop. *)
Fixpoint for_lines (sink_mode : string) (st : state) (file_obj : list string)
  : outcome :=
  match file_obj with
  | [] => Done st
  | raw :: rest =>
      match loop_body sink_mode st raw with
      | Done st' => for_lines sink_mode st' rest
      | Raised e st' => Raised e st'
      end
  end.

(** The statement after the loop. *)
Definition after_loop (st : state) : state :=
  if (0 <? List.length (fuzz_statuses st))%nat then
    set_all_fuzz_statuses (all_fuzz_statuses st ++ [fuzz_statuses st]) st
  else st.

(** What a call of [parse_log_in_stream] leaves: the final state, and the
    exception its [except Exception] clause printed, if any. *)
Record run : Type := mkRun {
  final : state;
  logged : option exn
}.

(** [try: ... for line in file_obj: ... except Exception as e: print(...)],
    started on a fresh [fuzz_data] dict. *)
Definition parse_log_in_stream (sink_mode : string) (file_obj : list string)
  : run :=
  match for_lines sink_mode initial_state file_obj with
  | Done st => mkRun (after_loop st) None
  | Raised e st => mkRun st (Some e)
  end.

(** ** The loop with its reads and writes

    The loop acts on the world three times: the [for] statement reads the
    next line; the iteration makes the tee write
    [sys.stdout.buffer.write(line)], skipped under [no_tee], and, when
    [need_dump] is up, the call [dump_fuzz_data()].  All three stand inside
    the [try] of [parse_log_in_stream] and all three can raise: the read and
    the write an [OSError] such as [BrokenPipeError]; the call an [OSError]
    of [open] or of its write, or a [NameError] when the module was
    imported, [dump_fuzz_data] being defined under [__main__] only.  What
    the world answers is part of the input: a line comes with the
    exceptions, if any, that its two writes raise, and the stream with the
    exception, if any, that the read after its last line raises, each named
    by its class.  [loop_body], [for_lines] and [parse_log_in_stream] above
    are the case of a world where reads, writes and dump calls return
    (lemma [parse_log_in_stream_io_quiet]). *)
Record io_line : Type := mkLine {
  raw_line : string;
  tee_raises : option string;
  dump_raises : option string
}.

(** A line whose writes return. *)
Definition quiet (raw : string) : io_line := mkLine raw None None.

(** What the [except Exception] clause catches, by the statement that
    raised it. *)
Inductive error : Type :=
| ReadLine (name : string)
| TeeWrite (name : string)
| Processing (e : exn)
| DumpCall (name : string).

Inductive outcome_io : Type :=
| Completed (st : state)
| Failed (e : error) (st : state).

(** [if need_dump: dump_fuzz_data(); need_dump = False]: the flag is
    lowered after the call has returned; a call that raises completes no
    dump and leaves the flag up. *)
Definition step_dump_io (raises : option string) (st : state) : outcome_io :=
  if need_dump st then
    match raises with
    | Some name => Failed (DumpCall name) st
    | None => Completed (set_need_dump false (dump_fuzz_data st))
    end
  else Completed st.

(** One iteration of [for line in file_obj]: the tee write, the statements
    1 to 5 on the decoded and stripped line, [sync_result], the dump. *)
Definition loop_body_io (sink_mode : string) (st : state) (l : io_line)
  : outcome_io :=
  match tee_raises l with
  | Some name => Failed (TeeWrite name) st
  | None =>
      match extract_and_triage sink_mode st (Py.strip (raw_line l)) with
      | Raised e st' => Failed (Processing e) st'
      | Done st' => step_dump_io (dump_raises l) (sync_result st')
      end
  end.

Fixpoint for_lines_io (sink_mode : string) (st : state)
  (file_obj : list io_line) : outcome_io :=
  match file_obj with
  | [] => Completed st
  | l :: rest =>
      match loop_body_io sink_mode st l with
      | Completed st' => for_lines_io sink_mode st' rest
      | Failed e st' => Failed e st'
      end
  end.

Record run_io : Type := mkRunIO {
  final_io : state;
  logged_io : option error
}.

(** [try: ... for line in file_obj: ... except Exception as e: print(...)]
    on the lines [file_obj]; [read_raises] is the exception, if any, that
    the read after the last of them raises. *)
Definition parse_log_in_stream_io (sink_mode : string)
  (file_obj : list io_line) (read_raises : option string) : run_io :=
  match for_lines_io sink_mode initial_state file_obj with
  | Completed st =>
      match read_raises with
      | Some name => mkRunIO st (Some (ReadLine name))
      | None => mkRunIO (after_loop st) None
      end
  | Failed e st => mkRunIO st (Some e)
  end.

Definition lift_outcome (o : outcome) : outcome_io :=
  match o with
  | Done st => Completed st
  | Raised e st => Failed (Processing e) st
  end.


(** A line whose dump call, when it is reached, raises [OSError]. *)
Definition failing_dump_line (raw : string) : io_line :=
  mkLine raw None (Some "OSError").

(** ** Definitions used to state the properties *)

Definition outcome_state (o : outcome) : state :=
  match o with
  | Done st => st
  | Raised _ st => st
  end.

Definition crash_time_of (p : pending_crash) : option Z :=
  match p with (crash_time, _, _) => crash_time end.

Definition to_triaged (artifact : string) (p : pending_crash) : triaged_crash :=
  match p with
  | (crash_time, crash, sanitizer) => (crash_time, sanitizer, crash, artifact)
  end.

(** The [if sanitizer not in seen_sanitizers or ...] block of the [while]
    body, for one eligible pending crash. *)
Definition triage_one (artifact : string) (st : state) (p : pending_crash)
  : state :=
  match p with
  | (crash_time, crash, sanitizer) =>
      if not_seen_or_sinkpoint st sanitizer then
        set_need_dump true
          (set_seen_sanitizers
             (set_add string_dec sanitizer (seen_sanitizers st))
             (set_log_triage_crash_over_time
                (log_triage_crash_over_time st
                 ++ [(crash_time, sanitizer, crash, artifact)]) st))
      else st
  end.

(** The effect of the [while] loop on everything but the queue: the eligible
    entries of [rest], in order, go through [triage_one]. *)
Fixpoint scan_pending (elapsed_time : option Z) (artifact : string)
  (rest : list pending_crash) (st : state) : state :=
  match rest with
  | [] => st
  | p :: rest' =>
      if eligible elapsed_time (crash_time_of p)
      then scan_pending elapsed_time artifact rest' (triage_one artifact st p)
      else scan_pending elapsed_time artifact rest' st
  end.

Definition ineligible (elapsed_time : option Z) (p : pending_crash) : bool :=
  negb (eligible elapsed_time (crash_time_of p)).

(** The number of entries of a triage list with class [c]. *)
Definition count_class (c : string) (l : list triaged_crash) : nat :=
  List.length (filter (fun t => String.eqb (triaged_class t) c) l).

(** The longest prefix of digits of a string, and what follows it. *)
Fixpoint span_digits (s : string) : string * string :=
  match s with
  | EmptyString => (EmptyString, EmptyString)
  | String c s' =>
      if Py.isdigit c then
        let (d, r) := span_digits s' in (String c d, r)
      else (EmptyString, s)
  end.

(** The timestamp prefix of a line in the current format: one or more
    digits and one white-space character; the digits and the rest of the
    line. *)
Definition timestamp_prefix (s : string) : option (string * string) :=
  match span_digits s with
  | (EmptyString, _) => None
  | (d, String c r) => if Py.isspace c then Some (d, r) else None
  | (_, EmptyString) => None
  end.

Definition head (s : string) : option ascii :=
  match s with
  | EmptyString => None
  | String c _ => Some c
  end.

(** The first character of a line after its timestamp prefix, if it has
    one: it tells the event kinds apart. *)
Definition shape (s : string) : option ascii :=
  match timestamp_prefix s with
  | Some (_, r) => head r
  | None => head s
  end.

Fixpoint all_digits (s : string) : bool :=
  match s with
  | EmptyString => true
  | String c s' => Py.isdigit c && all_digits s'
  end.

(** A timestamp as the current format writes it: one or more digits, no
    more than [int] converts. *)
Definition valid_timestamp (ts : string) : Prop :=
  ts <> EmptyString
  /\ all_digits ts = true
  /\ (String.length ts <= Py.int_max_str_digits)%nat.

Definition timestamp_value (ts : string) : Z := Py.digits_value 0 ts.

(** A line in the legacy format: stripped, it has no timestamp prefix. *)
Definition legacy_line (raw : string) : Prop :=
  timestamp_prefix (Py.strip raw) = None.

(** The line in the current format that corresponds to a legacy line: the
    timestamp and a blank before the text of the line. *)
Definition with_timestamp (ts raw : string) : string :=
  (ts ++ String " " (Py.strip raw))%string.

(** A stream given as its legacy lines, each with the timestamp the current
    format would put before it. *)
Definition stamped_stream : Type := list (string * string).

Definition legacy_stream (ls : stamped_stream) : list string := map snd ls.

Definition timestamped_stream (ls : stamped_stream) : list string :=
  map (fun p => with_timestamp (fst p) (snd p)) ls.

Definition pending_text (p : pending_crash) : string * string :=
  match p with (_, crash, sanitizer) => (crash, sanitizer) end.

Definition triaged_text (t : triaged_crash) : string * string * string :=
  match t with (_, sanitizer, crash, artifact) => (sanitizer, crash, artifact) end.

Definition triaged_time (t : triaged_crash) : option Z :=
  match t with (crash_time, _, _, _) => crash_time end.

(** Everything the summary holds but the elapsed times. *)
Record non_time_fields : Type := mkNonTime {
  nt_cov : list Z;
  nt_ft : list Z;
  nt_crashes : list string;
  nt_artifacts : list string;
  nt_triaged : list (string * string * string);
  nt_scalars : scalars;
  nt_synced : option scalars
}.

Definition non_time (st : state) : non_time_fields :=
  mkNonTime (map snd (cov_over_time st)) (map snd (ft_over_time st))
    (map snd (log_crash_over_time st)) (map snd (artifact_over_time st))
    (map triaged_text (log_triage_crash_over_time st))
    (mkScalars (ttl_round st) (last_cov st) (last_ft st) (max_cov st)
       (max_ft st))
    (fuzz_data st).

(** Every elapsed time the summary holds. *)
Definition times_of (st : state) : list (option Z) :=
  map fst (cov_over_time st) ++ map fst (ft_over_time st)
  ++ map fst (log_crash_over_time st) ++ map fst (artifact_over_time st)
  ++ map triaged_time (log_triage_crash_over_time st).

(** The eligibility condition in the words of the specification. *)
Definition eligible_for (artifact_time crash_time : option Z) : Prop :=
  artifact_time = None \/ crash_time = None \/
  exists a c, artifact_time = Some a /\ crash_time = Some c /\ a >= c.

(** Classification in the words of the specification: a first pass looks
    for a catalog label verbatim in the crash text; only when there is none,
    a second pass looks for a label, its blanks removed, in a copy of the
    crash text with its blanks removed. *)
Definition two_pass_classification (crash : string) : string :=
  match find (fun label => Py.str_in label crash) SANITIZERS with
  | Some label => label
  | None =>
      match find (fun label =>
                    Py.str_in (Py.remove_spaces label)
                      (Py.remove_spaces crash)) SANITIZERS with
      | Some label => label
      | None => UNKNOWN_SANITIZER
      end
  end.

(** The test the loop of [crash_2_sanitizer] applies to one label. *)
Definition label_matches (crash label : string) : bool :=
  Py.str_in label crash || Py.str_in (Py.remove_spaces label) crash.






(** The invariant of the loop: a class other than SINKPOINT occurs at most
    once in the triage list, and when it occurs it is in [seen_sanitizers]. *)
Definition dedup_inv (st : state) : Prop :=
  forall c, c <> SINKPOINT ->
    (count_class c (log_triage_crash_over_time st) <= 1)%nat
    /\ ((1 <= count_class c (log_triage_crash_over_time st))%nat ->
        set_mem string_dec c (seen_sanitizers st) = true).

(** The value of [ttl_round] after each line of a stream, as long as no
    line raises. *)
Fixpoint ttl_round_trace (sink_mode : string) (st : state)
  (file_obj : list string) : list Z :=
  match file_obj with
  | [] => []
  | raw :: rest =>
      match loop_body sink_mode st raw with
      | Done st' => ttl_round st' :: ttl_round_trace sink_mode st' rest
      | Raised _ _ => []
      end
  end.

(** A coverage line (in either format) that reports the round number [k]
    and does not carry the exit marker. *)
Definition cov_line_of_round (raw : string) (k : nat) : Prop :=
  Py.str_in JAZZER_EXIT_LOG (Py.strip raw) = false
  /\ forall t, exists e cov ft,
       _parse_cov_line (Py.strip raw) t = Ok (Some (Z.of_nat k, e, cov, ft)).

(** The lines report the round numbers [k+1], [k+2], ... *)
Fixpoint rounds_from (k : nat) (lines : list string) : Prop :=
  match lines with
  | [] => True
  | raw :: rest => cov_line_of_round raw (S k) /\ rounds_from (S k) rest
  end.

(** An engine run reporting the local round numbers 1..n. *)
Definition engine_run (lines : list string) (n : nat) : Prop :=
  List.length lines = n /\ rounds_from 0 lines.

(** A line that carries the exit marker and no other event. *)
Definition exit_marker_line (raw : string) : Prop :=
  Py.str_in JAZZER_EXIT_LOG (Py.strip raw) = true
  /\ FUZZ_START_LINE_PTRN (Py.strip raw) = None
  /\ forall t,
       _parse_cov_line (Py.strip raw) t = Ok None
       /\ _parse_crash_line (Py.strip raw) t = Ok None
       /\ _parse_artifact_line (Py.strip raw) t = Ok None.

(** The integer keys of [fuzz_data] hold the current values of the
    locals. *)
Definition synced (st : state) : Prop :=
  fuzz_data st
  = Some (mkScalars (ttl_round st) (last_cov st) (last_ft st) (max_cov st)
            (max_ft st)).

(** In a run on timestamped lines, every pending crash was seen no later
    than [now]: with the baseline [t0], the crash time [c] stands for the
    timestamp [t0 + c]. *)
Definition pending_not_after (now : Z) (st : state) : Prop :=
  forall p c,
    In p (pending_crashes st) -> crash_time_of p = Some c ->
    exists t0, initial_timestamp st = Some t0 /\ t0 + c <= now.

Definition unknown_time {A : Type} (x : option Z * A) : Prop := fst x = None.

(** The relation between the state [l] of the run on the legacy lines and
    the state [t] of the run on the same lines with timestamps. *)
Record same_but_time (now : Z) (l t : state) : Prop := mkSame {
  same_fields : non_time l = non_time t;
  same_pending :
    map pending_text (pending_crashes l) = map pending_text (pending_crashes t);
  same_seen : seen_sanitizers l = seen_sanitizers t;
  same_base : ttl_roundno_base l = ttl_roundno_base t;
  legacy_no_baseline : initial_timestamp l = None;
  legacy_cov : Forall unknown_time (cov_over_time l);
  legacy_ft : Forall unknown_time (ft_over_time l);
  legacy_crashes : Forall unknown_time (log_crash_over_time l);
  legacy_artifacts : Forall unknown_time (artifact_over_time l);
  legacy_triaged :
    Forall (fun x => triaged_time x = None) (log_triage_crash_over_time l);
  legacy_pending :
    Forall (fun p => crash_time_of p = None) (pending_crashes l);
  stamped_pending : pending_not_after now t
}.

Definition same_outcome (now : Z) (ol ot : outcome) : Prop :=
  match ol, ot with
  | Done l, Done t => same_but_time now l t
  | Raised e _, Raised e' _ => e = e'
  | _, _ => False
  end.

(** The timestamps of a stamped stream are well formed and do not
    decrease, starting from [now]; its lines are in the legacy format. *)
Fixpoint stamps_from (now : Z) (ls : stamped_stream) : Prop :=
  match ls with
  | [] => True
  | (ts, raw) :: rest =>
      valid_timestamp ts /\ legacy_line raw /\ now <= timestamp_value ts
      /\ stamps_from (timestamp_value ts) rest
  end.

(** The summary the locals stand for. *)
Definition summary_of (st : state) : summary :=
  mkSummary (cov_over_time st) (ft_over_time st) (log_crash_over_time st)
    (artifact_over_time st) (log_triage_crash_over_time st)
    (mkScalars (ttl_round st) (last_cov st) (last_ft st) (max_cov st)
       (max_ft st)).

(** The triage list of the last dump written, empty when there is none. *)
Definition last_dump_triage (ds : list summary) : list triaged_crash :=
  match rev ds with
  | [] => []
  | d :: _ => d_log_triage_crash_over_time d
  end.

(** Every character of a string is in the class [C]. *)
Fixpoint all_in (C : ascii -> bool) (s : string) : bool :=
  match s with
  | EmptyString => true
  | String c s' => C c && all_in C s'
  end.

(** The classes [crash_2_sanitizer] can return. *)
Definition class_in_range (sink_mode : string) (c : string) : Prop :=
  (c = SINKPOINT /\ sink_mode <> EmptyString)
  \/ c = UNKNOWN_SANITIZER
  \/ In c SANITIZERS.

(** [l1] is a prefix of [l2]. *)
Definition prefix_of {A : Type} (l1 l2 : list A) : Prop :=
  exists more, l2 = l1 ++ more.

(** Every class recorded in the queue or in the triage list is the
    classification of the crash text recorded with it. *)
Definition classified (sink_mode : string) (st : state) : Prop :=
  Forall (fun p : pending_crash =>
            match p with
            | (_, crash, sanitizer) =>
                crash_2_sanitizer sink_mode crash = Ok (Some sanitizer)
            end) (pending_crashes st)
  /\ Forall (fun t : triaged_crash =>
               match t with
               | (_, sanitizer, crash, _) =>
                   crash_2_sanitizer sink_mode crash = Ok (Some sanitizer)
               end) (log_triage_crash_over_time st).

(** The lists of [later] extend the lists of [earlier]. *)
Definition extends (earlier later : state) : Prop :=
  prefix_of (cov_over_time earlier) (cov_over_time later)
  /\ prefix_of (ft_over_time earlier) (ft_over_time later)
  /\ prefix_of (log_crash_over_time earlier) (log_crash_over_time later)
  /\ prefix_of (artifact_over_time earlier) (artifact_over_time later)
  /\ prefix_of (log_triage_crash_over_time earlier)
       (log_triage_crash_over_time later)
  /\ prefix_of (dumps earlier) (dumps later).

(** The running values agree with the coverage series. *)
Definition running_values (st : state) : Prop :=
  max_cov st = fold_left Z.max (map snd (cov_over_time st)) 0
  /\ max_ft st = fold_left Z.max (map snd (ft_over_time st)) 0
  /\ last_cov st = last (map snd (cov_over_time st)) 0
  /\ last_ft st = last (map snd (ft_over_time st)) 0
  /\ map fst (cov_over_time st) = map fst (ft_over_time st)
  /\ last_cov st <= max_cov st
  /\ last_ft st <= max_ft st.

(** Every queued or triaged crash was read from a crash line, and every
    triaged crash carries the name of an artifact that was read. *)
Definition provenance (st : state) : Prop :=
  (forall crash_time crash sanitizer,
      In (crash_time, crash, sanitizer) (pending_crashes st) ->
      In (crash_time, crash) (log_crash_over_time st))
  /\ (forall crash_time sanitizer crash artifact,
         In (crash_time, sanitizer, crash, artifact)
           (log_triage_crash_over_time st) ->
         In (crash_time, crash) (log_crash_over_time st)
         /\ exists e, In (e, artifact) (artifact_over_time st)).

(** Within a line: a change of the triage list since the last dump has set
    the needs-dump flag. *)
Definition dump_pending (st : state) : Prop :=
  need_dump st = true
  \/ log_triage_crash_over_time st = last_dump_triage (dumps st).

(** Between two lines: the flag is down and the last dump holds the triage
    list. *)
Definition dumped (st : state) : Prop :=
  need_dump st = false
  /\ log_triage_crash_over_time st = last_dump_triage (dumps st).

Definition flag (b : bool) : nat := if b then 1%nat else 0%nat.

Definition baseline_set (st : state) : bool :=
  match initial_timestamp st with
  | Some _ => true
  | None => false
  end.

(** The dumps written, and the one still due, are paid for by the baseline
    and by the triaged crashes. *)
Definition dumps_paid (st : state) : Prop :=
  (List.length (dumps st) + flag (need_dump st)
   <= flag (baseline_set st)
      + List.length (log_triage_crash_over_time st))%nat.

(** [seen_sanitizers] holds the classes of the triaged crashes. *)
Definition seen_are_triaged (st : state) : Prop :=
  forall c,
    set_In c (seen_sanitizers st)
    <-> In c (map triaged_class (log_triage_crash_over_time st)).

(** An artifact name as the artifact pattern captures it: [crash-] and one
    or more lower-case letters or digits. *)
Definition artifact_name_ok (a : string) : Prop :=
  exists g,
    a = ("crash-" ++ g)%string /\ g <> EmptyString
    /\ all_in Py.islower_or_digit g = true.

(** The counters and the values of the series are not negative, and the
    round base does not exceed the round counter. *)
Definition counters_ok (st : state) : Prop :=
  0 <= ttl_roundno_base st <= ttl_round st
  /\ Forall (fun x : option Z * Z => 0 <= snd x) (cov_over_time st)
  /\ Forall (fun x : option Z * Z => 0 <= snd x) (ft_over_time st)
  /\ 0 <= last_cov st /\ 0 <= last_ft st.

Definition not_newline (c : ascii) : bool := negb (Py.isnewline c).

(** Where an error came from: the line whose iteration raised it. *)
Definition raised_in (e : error) (l : io_line) : Prop :=
  match e with
  | ReadLine _ => False
  | TeeWrite name => tee_raises l = Some name
  | Processing x =>
      x = ValueError
      /\ (Py.int_max_str_digits < String.length (raw_line l))%nat
  | DumpCall name => dump_raises l = Some name
  end.

(** Between two lines the flag is down and the last dump holds the triage
    list; after a dump call that raised the flag is up. *)
Definition dumped_or_failed (o : outcome_io) : Prop :=
  match o with
  | Completed st => dumped st
  | Failed (DumpCall _) st => need_dump st = true
  | Failed _ st => dumped st
  end.

Definition pending_class (p : pending_crash) : string :=
  match p with (_, _, sanitizer) => sanitizer end.

(** The crashes an artifact records, of the crashes [l] it is matched
    with, in arrival order: a crash is recorded when its class is SINKPOINT,
    or is neither in [seen] nor the class of a crash recorded before it. *)
Fixpoint recorded (seen : set string) (l : list pending_crash)
  : list pending_crash :=
  match l with
  | [] => []
  | p :: l' =>
      if negb (set_mem string_dec (pending_class p) seen)
         || String.eqb (pending_class p) SINKPOINT
      then p :: recorded (set_add string_dec (pending_class p) seen) l'
      else recorded seen l'
  end.

(** The crashes of the queue an artifact written at [elapsed_time] is
    matched with. *)
Definition matched (elapsed_time : option Z) (l : list pending_crash)
  : list pending_crash :=
  filter (fun p => eligible elapsed_time (crash_time_of p)) l.

(** The first character of [s] is in the class [C]. *)
Definition starts_with (C : ascii -> bool) (s : string) : bool :=
  match s with
  | String c _ => C c
  | EmptyString => false
  end.

(** [s] begins with a match of the end of the coverage pattern, [cov: ],
    digits, [ ft: ], digits. *)
Definition cov_ft_here (s : string) : Prop :=
  exists g2 g3 rest,
    s = ("cov: " ++ g2 ++ " ft: " ++ g3 ++ rest)%string
    /\ (all_in Py.isdigit g2 = true /\ g2 <> EmptyString)
    /\ (all_in Py.isdigit g3 = true /\ g3 <> EmptyString).

(** The layout of a text the coverage pattern matches, with the groups the
    matcher takes: [#] and the whole digit run [g1] after it; a text [mid]
    without a newline; the last place, within the reach of [mid], where the
    end of the pattern matches, with its digit run [g2] and the whole digit
    run [g3]; the rest of the text. *)
Definition cov_layout (body g1 mid g2 g3 rest : string) : Prop :=
  body = ("#" ++ g1 ++ mid ++ "cov: " ++ g2 ++ " ft: " ++ g3 ++ rest)%string
  /\ (all_in Py.isdigit g1 = true /\ g1 <> EmptyString)
  /\ (all_in Py.isdigit g2 = true /\ g2 <> EmptyString)
  /\ (all_in Py.isdigit g3 = true /\ g3 <> EmptyString)
  /\ starts_with Py.isdigit mid = false
  /\ all_in not_newline mid = true
  /\ starts_with Py.isdigit rest = false
  /\ (forall more tail,
         ("cov: " ++ g2 ++ " ft: " ++ g3 ++ rest)%string
         = (more ++ tail)%string ->
         more <> EmptyString -> all_in not_newline more = true ->
         ~ cov_ft_here tail).

(** The end of the coverage pattern, after [.*]. *)
Definition COV_TAIL {R : Type} (k : string -> string -> R) : @Re.cont R :=
  Re.lit "cov: "
    (Re.digits1 (fun g2 =>
       Re.lit " ft: " (Re.digits1 (fun g3 _ => Some (k g2 g3))))).

(** ** Example inputs *)

Definition scenario : list string :=
  [ "1000 OpenJDK 64-Bit Server VM warning: Option CriticalJNINatives was deprecated in version 16.0 and will likely be removed in a future release.";
    "1010 #5 NEW cov: 100 ft: 50";
    "1015 == Java Exception: com.code_intelligence.jazzer.api.FuzzerSecurityIssueHigh: SQL Injection";
    "1020 artifact_prefix='/out/artifacts/'; Test unit written to /out/artifacts/crash-abc123" ].

Definition sql_crash_line : string :=
  "== Java Exception: com.code_intelligence.jazzer.api.FuzzerSecurityIssueHigh: SQL Injection".

Definition sample_artifact_line : string :=
  "artifact_prefix='/out/artifacts/'; Test unit written to /out/artifacts/crash-abc123".

Definition start_line_1000 : string :=
  "1000 OpenJDK 64-Bit Server VM warning: Option CriticalJNINatives was deprecated in version 16.0 and will likely be removed in a future release.".

Definition start_line_2000 : string :=
  "2000 OpenJDK 64-Bit Server VM warning: Option CriticalJNINatives was deprecated in version 16.0 and will likely be removed in a future release.".



(** The state after a run-start line at 1000, a crash line at 1020 and a
    crash line at 1005. *)
Definition two_pending : state :=
  outcome_state
    (for_lines EmptyString initial_state
       [ start_line_1000;
         ("1020 " ++ sql_crash_line)%string;
         "1005 == Java Exception: com.code_intelligence.jazzer.api.FuzzerSecurityIssueCritical: LDAP Injection" ]).

Definition late_artifact_line : string :=
  ("1010 " ++ sample_artifact_line)%string.

Definition after_first_start : state :=
  outcome_state (for_lines EmptyString initial_state [start_line_1000]).

(** A coverage line whose timestamp has 4301 digits. *)
Definition overlong_cov_line : string :=
  (string_of_list_ascii (repeat "1"%char 4301) ++ " #1 NEW cov: 1 ft: 1")%string.

Definition plain_cov_line : string := "#7 NEW cov: 3 ft: 4".

Definition banner_text : string :=
  "OpenJDK 64-Bit Server VM warning: Option CriticalJNINatives was deprecated in version 16.0 and will likely be removed in a future release.".

(** A run-start line, then a crash line stamped later than the artifact
    line that follows it. *)
Definition out_of_order : stamped_stream :=
  [ ("1000", banner_text);
    ("1020", sql_crash_line);
    ("1010", sample_artifact_line) ].

Definition in_order : stamped_stream :=
  [ ("1000", banner_text);
    ("1010", "#5 NEW cov: 100 ft: 50");
    ("1015", sql_crash_line);
    ("1020", sample_artifact_line) ].


Definition first_run : list string :=
  [ "#1 INITED cov: 10 ft: 20"; "17 #2 NEW cov: 12 ft: 25" ].

Definition second_run : list string :=
  [ "#1 INITED cov: 10 ft: 20"; "#2 NEW cov: 11 ft: 21";
    "#3 REDUCE cov: 11 ft: 22" ].

Definition sample_exit_line : string := "@@@@@ exit code of Jazzer: 0".

Definition crash_two_labels : string :=
  "== Java Exception: com.code_intelligence.jazzer.api.FuzzerSecurityIssueHigh: SQL Injection after FuzzerSecurityIssueCritical:OSCommandInjection".

Definition crash_wide_blank : string :=
  "== Java Exception: com.code_intelligence.jazzer.api.FuzzerSecurityIssueHigh:  SQL Injection".

Definition out_of_memory_line : string :=
  "== Java Exception: com.code_intelligence.jazzer.api.FuzzerSecurityIssueLow: Out of memory (use '-Xmx' to limit)".



Definition ldap_crash_text : string :=
  "== Java Exception: com.code_intelligence.jazzer.api.FuzzerSecurityIssueCritical: LDAP Injection".

(** * Properties *)

(** ** The extractors and the loop on sample lines *)

Example cov_new :
  _parse_cov_line "1010 #5 NEW cov: 100 ft: 50 corp: 3/7b" (Some 1000)
  = Ok (Some (5, Some 10, 100, 50)).
Proof. reflexivity. Qed.

Example cov_old :
  _parse_cov_line "#12	REDUCE cov: 7 ft: 9 cov: 10 ft: 11 x" (Some 1000)
  = Ok (Some (12, None, 10, 11)).
Proof. reflexivity. Qed.

Example crash_new :
  _parse_crash_line "1015 == Java Exception: com.code_intelligence.jazzer.api.FuzzerSecurityIssueHigh: SQL Injection" (Some 1000)
  = Ok (Some (Some 15, "== Java Exception: com.code_intelligence.jazzer.api.FuzzerSecurityIssueHigh: SQL Injection")).
Proof. reflexivity. Qed.

Example artifact_new :
  _parse_artifact_line "1020 artifact_prefix='/out/artifacts/'; Test unit written to /out/artifacts/crash-abc123" (Some 1000)
  = Ok (Some (Some 20, "crash-abc123")).
Proof. reflexivity. Qed.

Example classify_sql :
  crash_2_sanitizer EmptyString "== Java Exception: com.code_intelligence.jazzer.api.FuzzerSecurityIssueHigh: SQL Injection"
  = Ok (Some "FuzzerSecurityIssueHigh: SQL Injection").
Proof. reflexivity. Qed.

Example scenario_summary :
  fuzz_data_view (final (parse_log_in_stream EmptyString scenario))
  = Some (mkSummary [(Some 10, 100)] [(Some 10, 50)]
            [(Some 15, "== Java Exception: com.code_intelligence.jazzer.api.FuzzerSecurityIssueHigh: SQL Injection")]
            [(Some 20, "crash-abc123")]
            [(Some 15, "FuzzerSecurityIssueHigh: SQL Injection",
              "== Java Exception: com.code_intelligence.jazzer.api.FuzzerSecurityIssueHigh: SQL Injection",
              "crash-abc123")]
            (mkScalars 5 100 50 100 50)).
Proof. vm_compute. reflexivity. Qed.

Example strip_sample : Py.strip "  ab c 	" = "ab c".
Proof. reflexivity. Qed.

Example split_sample : Py.split ":"%char "a:b:" = ["a"; "b"; EmptyString].
Proof. reflexivity. Qed.

(** A crash line with the stack-overflow text is recorded as a crash line
    and neither classified nor queued. *)
Example stack_overflow_ignored :
  crash_2_sanitizer EmptyString
    "== Java Exception: com.code_intelligence.jazzer.api.FuzzerSecurityIssueLow: Stack overflow (use '-Xss' to limit)"
  = Ok None.
Proof. reflexivity. Qed.

(** The same crash twice before two artifacts: the first artifact triages
    the first crash and discards the second. *)
Example repeated_crash_triaged_once :
  log_triage_crash_over_time
    (final (parse_log_in_stream EmptyString
              [sql_crash_line; sql_crash_line; sample_artifact_line;
               sample_artifact_line]))
  = [(None, "FuzzerSecurityIssueHigh: SQL Injection", sql_crash_line,
      "crash-abc123")].
Proof. vm_compute. reflexivity. Qed.

(** An artifact stamped between two pending crashes takes the earlier one
    and leaves the later one in the queue. *)
Example late_artifact_sample :
  step_artifact two_pending late_artifact_line
  = Done
      (set_pending_crashes
         [(Some 20, sql_crash_line, "FuzzerSecurityIssueHigh: SQL Injection")]
         (set_need_dump true
            (set_seen_sanitizers ["FuzzerSecurityIssueCritical: LDAP Injection"]
               (set_log_triage_crash_over_time
                  [(Some 5, "FuzzerSecurityIssueCritical: LDAP Injection",
                    "== Java Exception: com.code_intelligence.jazzer.api.FuzzerSecurityIssueCritical: LDAP Injection",
                    "crash-abc123")]
                  (set_artifact_over_time [(Some 10, "crash-abc123")]
                     two_pending))))).
Proof. vm_compute. reflexivity. Qed.

(** ** The queue scan *)

Lemma scan_pending_set_pending :
  forall e a rest st X,
    scan_pending e a rest (set_pending_crashes X st)
    = set_pending_crashes X (scan_pending e a rest st).
Proof.
  induction rest as [|[[ct cr] sa] rest IH]; intros st X; simpl.
  - reflexivity.
  - destruct (eligible e ct).
    + unfold not_seen_or_sinkpoint; simpl.
      destruct (negb (set_mem string_dec sa (seen_sanitizers st))
                || String.eqb sa SINKPOINT); [|apply IH].
      exact (IH (set_need_dump true
                   (set_seen_sanitizers
                      (set_add string_dec sa (seen_sanitizers st))
                      (set_log_triage_crash_over_time
                         (log_triage_crash_over_time st ++ [(ct, sa, cr, a)])
                         st))) X).
    + apply IH.
Qed.

Lemma set_pending_same :
  forall st, set_pending_crashes (pending_crashes st) st = st.
Proof. destruct st; reflexivity. Qed.

Lemma nth_error_middle :
  forall (A : Type) (kept : list A) p rest,
    nth_error (kept ++ p :: rest) (List.length kept) = Some p.
Proof.
  induction kept; simpl; intros; [reflexivity | apply IHkept].
Qed.

Lemma pop_middle :
  forall (A : Type) (kept : list A) p rest,
    pop (List.length kept) (kept ++ p :: rest) = kept ++ rest.
Proof.
  unfold pop. induction kept; simpl; intros.
  - reflexivity.
  - f_equal. apply IHkept.
Qed.

Lemma triage_one_pending :
  forall a st p, pending_crashes (triage_one a st p) = pending_crashes st.
Proof.
  intros a st [[ct cr] sa]. unfold triage_one.
  destruct (not_seen_or_sinkpoint st sa); reflexivity.
Qed.

Lemma check_pending_pop :
  forall fuel e a st kept p rest,
    pending_crashes st = kept ++ p :: rest ->
    eligible e (crash_time_of p) = true ->
    check_pending (S fuel) (List.length kept) e a st
    = check_pending fuel (List.length kept) e a
        (set_pending_crashes (kept ++ rest) (triage_one a st p)).
Proof.
  intros fuel e a st kept [[ct cr] sa] rest Hp He. simpl in He.
  assert (Hlt : (List.length kept <? List.length (pending_crashes st))%nat = true)
    by (apply Nat.ltb_lt; rewrite Hp, length_app; simpl; lia).
  assert (Hnth : nth_error (pending_crashes st) (List.length kept)
                 = Some (ct, cr, sa))
    by (rewrite Hp; apply nth_error_middle).
  cbn [check_pending]. rewrite Hlt, Hnth, He.
  change (if not_seen_or_sinkpoint st sa
          then set_need_dump true
                 (set_seen_sanitizers
                    (set_add string_dec sa (seen_sanitizers st))
                    (set_log_triage_crash_over_time
                       (log_triage_crash_over_time st ++ [(ct, sa, cr, a)])
                       st))
          else st) with (triage_one a st (ct, cr, sa)).
  rewrite triage_one_pending, Hp, pop_middle. reflexivity.
Qed.

Lemma check_pending_skip :
  forall fuel e a st kept p rest,
    pending_crashes st = kept ++ p :: rest ->
    eligible e (crash_time_of p) = false ->
    check_pending (S fuel) (List.length kept) e a st
    = check_pending fuel (S (List.length kept)) e a st.
Proof.
  intros fuel e a st kept [[ct cr] sa] rest Hp He. simpl in He.
  assert (Hlt : (List.length kept <? List.length (pending_crashes st))%nat = true)
    by (apply Nat.ltb_lt; rewrite Hp, length_app; simpl; lia).
  assert (Hnth : nth_error (pending_crashes st) (List.length kept)
                 = Some (ct, cr, sa))
    by (rewrite Hp; apply nth_error_middle).
  cbn [check_pending]. rewrite Hlt, Hnth, He. reflexivity.
Qed.

Lemma check_pending_end :
  forall fuel e a st,
    check_pending fuel (List.length (pending_crashes st)) e a st = st.
Proof.
  intros [|fuel] e a st; cbn [check_pending]; [reflexivity|].
  rewrite Nat.ltb_irrefl. reflexivity.
Qed.

(** The [while] loop with enough fuel: it keeps the ineligible entries, in
    order, and triages the eligible ones. *)
Lemma check_pending_scan :
  forall e a rest kept st fuel,
    pending_crashes st = kept ++ rest ->
    (List.length rest <= fuel)%nat ->
    check_pending fuel (List.length kept) e a st
    = set_pending_crashes (kept ++ filter (ineligible e) rest)
        (scan_pending e a rest st).
Proof.
  induction rest as [|p rest IH]; intros kept st fuel Hp Hf.
  - simpl. rewrite app_nil_r in *. rewrite <- Hp, set_pending_same.
    apply check_pending_end.
  - destruct fuel as [|fuel]; [simpl in Hf; lia|].
    simpl in Hf. simpl scan_pending. simpl filter. unfold ineligible at 1.
    destruct (eligible e (crash_time_of p)) eqn:He; simpl negb; cbv iota.
    + rewrite (check_pending_pop _ _ _ _ _ _ _ Hp He).
      rewrite (IH kept); [ | reflexivity | lia].
      rewrite scan_pending_set_pending. reflexivity.
    + rewrite (check_pending_skip _ _ _ _ _ _ _ Hp He).
      replace (S (List.length kept)) with (List.length (kept ++ [p]))
        by (rewrite length_app; simpl; lia).
      rewrite (IH (kept ++ [p])).
      * rewrite <- app_assoc. reflexivity.
      * rewrite Hp, <- app_assoc. reflexivity.
      * lia.
Qed.

Lemma check_pending_all :
  forall e a st,
    check_pending (List.length (pending_crashes st)) 0 e a st
    = set_pending_crashes (filter (ineligible e) (pending_crashes st))
        (scan_pending e a (pending_crashes st) st).
Proof.
  intros e a st.
  exact (check_pending_scan e a (pending_crashes st) [] st _ eq_refl (le_n _)).
Qed.

Lemma eligible_iff :
  forall a c, eligible a c = true <-> eligible_for a c.
Proof.
  intros [a|] [c|]; unfold eligible_for; simpl; split; intros H;
    try reflexivity; auto.
  - right; right. exists a, c. apply Z.leb_le in H. repeat split; lia.
  - destruct H as [H|[H|(x & y & Hx & Hy & Hge)]]; try discriminate.
    inversion Hx; inversion Hy; subst. apply Z.leb_le. lia.
Qed.

Lemma scan_pending_emitted :
  forall e a rest st,
    exists emitted,
      log_triage_crash_over_time (scan_pending e a rest st)
      = log_triage_crash_over_time st ++ map (to_triaged a) emitted
      /\ forall p, In p emitted ->
                  In p rest /\ eligible e (crash_time_of p) = true.
Proof.
  induction rest as [|p rest IH]; intros st; simpl.
  - exists []. simpl. rewrite app_nil_r. split; [reflexivity | intros p []].
  - destruct (eligible e (crash_time_of p)) eqn:He.
    + destruct (IH (triage_one a st p)) as (em & Heq & Hin).
      destruct p as [[ct cr] sa]. unfold triage_one in *.
      destruct (not_seen_or_sinkpoint st sa).
      * exists ((ct, cr, sa) :: em). split.
        -- rewrite Heq. simpl. rewrite <- app_assoc. reflexivity.
        -- intros q [Hq|Hq]; [subst q; auto | destruct (Hin q Hq); auto].
      * exists em. split; [exact Heq|].
        intros q Hq. destruct (Hin q Hq); auto.
    + destruct (IH st) as (em & Heq & Hin). exists em. split; [exact Heq|].
      intros q Hq. destruct (Hin q Hq); auto.
Qed.

Lemma scan_pending_recorded :
  forall e a rest st,
    log_triage_crash_over_time (scan_pending e a rest st)
    = log_triage_crash_over_time st
      ++ map (to_triaged a) (recorded (seen_sanitizers st) (matched e rest)).
Proof.
  induction rest as [|[[ct cr] sa] rest IH]; intros st;
    cbn [scan_pending matched filter crash_time_of].
  - cbn. rewrite app_nil_r. reflexivity.
  - fold (matched e rest).
    destruct (eligible e ct) eqn:He; [|apply IH].
    cbn [recorded pending_class triage_one]. rewrite IH.
    unfold not_seen_or_sinkpoint.
    destruct (negb (set_mem string_dec sa (seen_sanitizers st))
              || String.eqb sa SINKPOINT); [|reflexivity].
    cbn. rewrite <- app_assoc. reflexivity.
Qed.

Lemma recorded_covers :
  forall l seen p,
    In p l ->
    (pending_class p = SINKPOINT -> In p (recorded seen l))
    /\ (~ set_In (pending_class p) seen ->
        exists q, In q (recorded seen l)
                  /\ pending_class q = pending_class p).
Proof.
  induction l as [|h l IH]; intros seen p Hin; [destruct Hin|].
  cbn [recorded].
  destruct (negb (set_mem string_dec (pending_class h) seen)
            || String.eqb (pending_class h) SINKPOINT) eqn:G.
  - destruct Hin as [->|Hin].
    + split; [intros _; left; reflexivity|].
      intros _. exists p. split; [left; reflexivity | reflexivity].
    + destruct (IH (set_add string_dec (pending_class h) seen) p Hin)
        as (I1 & I2).
      split; [intros Hs; right; apply I1; exact Hs|].
      intros Hn. destruct (string_dec (pending_class h) (pending_class p))
        as [Heq|Hne].
      * exists h. split; [left; reflexivity | exact Heq].
      * destruct I2 as (q & Hq & Hc).
        { intros Hx. apply set_add_elim in Hx. destruct Hx as [Hx|Hx];
            [apply Hne; symmetry; exact Hx | apply Hn; exact Hx]. }
        exists q. split; [right; exact Hq | exact Hc].
  - apply orb_false_iff in G. destruct G as (G1 & G2).
    apply negb_false_iff in G1. apply (set_mem_correct1 string_dec) in G1.
    apply String.eqb_neq in G2.
    destruct Hin as [->|Hin].
    + split; [intros Hs; contradiction | intros Hn; contradiction].
    + exact (IH seen p Hin).
Qed.

(** C3. When an artifact line is processed, the crashes of the pending
    queue that are eligible for the artifact (one of the two elapsed times
    unknown, or the artifact's not smaller than the crash's) are matched
    with it, in arrival order, and leave the queue; the others stay, in
    order, for a later artifact.  The matched crashes that pass the class
    guard at their turn are the entries the artifact adds to the triage
    list: every matched SINKPOINT crash, and the first matched crash of
    every class not seen before. *)
Theorem artifact_removes_exactly_eligible :
  forall st line elapsed_time artifact,
    _parse_artifact_line line (initial_timestamp st)
    = Ok (Some (elapsed_time, artifact)) ->
    exists st',
      step_artifact st line = Done st'
      /\ pending_crashes st'
         = filter (ineligible elapsed_time) (pending_crashes st)
      /\ (forall p, In p (pending_crashes st) ->
            (In p (pending_crashes st')
             <-> ~ eligible_for elapsed_time (crash_time_of p)))
      /\ log_triage_crash_over_time st'
         = log_triage_crash_over_time st
           ++ map (to_triaged artifact)
                (recorded (seen_sanitizers st)
                   (matched elapsed_time (pending_crashes st)))
      /\ (forall p, In p (pending_crashes st) ->
            eligible_for elapsed_time (crash_time_of p) ->
            (pending_class p = SINKPOINT ->
             In (to_triaged artifact p) (log_triage_crash_over_time st'))
            /\ (~ set_In (pending_class p) (seen_sanitizers st) ->
                exists q,
                  In q (pending_crashes st)
                  /\ eligible_for elapsed_time (crash_time_of q)
                  /\ pending_class q = pending_class p
                  /\ In (to_triaged artifact q)
                       (log_triage_crash_over_time st'))).
Proof.
  intros st line e a Hparse. unfold step_artifact. rewrite Hparse.
  set (st1 := set_artifact_over_time (artifact_over_time st ++ [(e, a)]) st).
  eexists. split; [reflexivity|].
  rewrite check_pending_all.
  change (pending_crashes st1) with (pending_crashes st).
  split; [reflexivity|]. split; [|split].
  - intros p Hp. simpl pending_crashes. rewrite filter_In. unfold ineligible.
    rewrite <- eligible_iff. split.
    + intros [_ H]. destruct (eligible e (crash_time_of p)); [discriminate|].
      discriminate.
    + intros H. split; [exact Hp|].
      destruct (eligible e (crash_time_of p)); [exfalso; auto | reflexivity].
  - cbn [log_triage_crash_over_time set_pending_crashes].
    rewrite scan_pending_recorded. reflexivity.
  - intros p Hp He. apply eligible_iff in He.
    assert (Hm : In p (matched e (pending_crashes st)))
      by (apply filter_In; split; assumption).
    destruct (recorded_covers _ (seen_sanitizers st) p Hm) as (R1 & R2).
    cbn [log_triage_crash_over_time set_pending_crashes].
    rewrite scan_pending_recorded.
    change (seen_sanitizers st1) with (seen_sanitizers st).
    split.
    + intros Hs. apply in_or_app. right. apply in_map. apply R1. exact Hs.
    + intros Hn. destruct (R2 Hn) as (q & Hq & Hc).
      assert (Hq' : In q (matched e (pending_crashes st))).
      { clear - Hq. revert Hq. generalize (seen_sanitizers st).
        induction (matched e (pending_crashes st)) as [|h l IH];
          intros seen Hq; [destruct Hq|].
        cbn [recorded] in Hq.
        destruct (negb (set_mem string_dec (pending_class h) seen)
                  || String.eqb (pending_class h) SINKPOINT).
        - destruct Hq as [->|Hq]; [left; reflexivity|].
          right. exact (IH _ Hq).
        - right. exact (IH _ Hq). }
      apply filter_In in Hq'. destruct Hq' as (Hq1 & Hq2).
      exists q. split; [exact Hq1|]. split; [apply eligible_iff; exact Hq2|].
      split; [exact Hc|].
      apply in_or_app. right. apply in_map. exact Hq.
Qed.

(** ** What each statement leaves alone *)

Ltac break_match :=
  match goal with
  | |- context [match ?x with _ => _ end] =>
      lazymatch x with
      | context [match _ with _ => _ end] => fail
      | _ => destruct x eqn:?
      end
  end.

Ltac frame := intros; unfold outcome_state; repeat break_match;
  repeat split; reflexivity.

Lemma step_start_frame :
  forall st line,
    let st' := outcome_state (step_start st line) in
    log_triage_crash_over_time st' = log_triage_crash_over_time st
    /\ seen_sanitizers st' = seen_sanitizers st
    /\ pending_crashes st' = pending_crashes st
    /\ ttl_round st' = ttl_round st
    /\ ttl_roundno_base st' = ttl_roundno_base st.
Proof. unfold step_start. frame. Qed.

Lemma step_cov_frame :
  forall st line,
    let st' := outcome_state (step_cov st line) in
    log_triage_crash_over_time st' = log_triage_crash_over_time st
    /\ seen_sanitizers st' = seen_sanitizers st
    /\ pending_crashes st' = pending_crashes st
    /\ initial_timestamp st' = initial_timestamp st
    /\ need_dump st' = need_dump st.
Proof. unfold step_cov. frame. Qed.

Lemma step_crash_frame :
  forall sink_mode st line,
    let st' := outcome_state (step_crash sink_mode st line) in
    log_triage_crash_over_time st' = log_triage_crash_over_time st
    /\ seen_sanitizers st' = seen_sanitizers st
    /\ initial_timestamp st' = initial_timestamp st
    /\ need_dump st' = need_dump st
    /\ ttl_round st' = ttl_round st
    /\ ttl_roundno_base st' = ttl_roundno_base st.
Proof. unfold step_crash. frame. Qed.

Lemma step_exit_frame :
  forall st line,
    let st' := step_exit st line in
    log_triage_crash_over_time st' = log_triage_crash_over_time st
    /\ seen_sanitizers st' = seen_sanitizers st
    /\ pending_crashes st' = pending_crashes st
    /\ initial_timestamp st' = initial_timestamp st
    /\ need_dump st' = need_dump st
    /\ ttl_round st' = ttl_round st.
Proof. unfold step_exit. intros. repeat break_match; repeat split; reflexivity. Qed.

Lemma sync_dump_frame :
  forall st,
    let st' := step_dump (sync_result st) in
    log_triage_crash_over_time st' = log_triage_crash_over_time st
    /\ seen_sanitizers st' = seen_sanitizers st
    /\ pending_crashes st' = pending_crashes st
    /\ initial_timestamp st' = initial_timestamp st
    /\ ttl_round st' = ttl_round st
    /\ ttl_roundno_base st' = ttl_roundno_base st
    /\ cov_over_time st' = cov_over_time st
    /\ ft_over_time st' = ft_over_time st
    /\ log_crash_over_time st' = log_crash_over_time st
    /\ artifact_over_time st' = artifact_over_time st
    /\ last_cov st' = last_cov st /\ last_ft st' = last_ft st
    /\ max_cov st' = max_cov st /\ max_ft st' = max_ft st
    /\ need_dump st' = false.
Proof.
  intros st. unfold step_dump, dump_fuzz_data, fuzz_data_view, sync_result.
  simpl. destruct (need_dump st) eqn:Hd; simpl; repeat split; try reflexivity.
  exact Hd.
Qed.

Lemma after_loop_frame :
  forall st,
    let st' := after_loop st in
    log_triage_crash_over_time st' = log_triage_crash_over_time st
    /\ seen_sanitizers st' = seen_sanitizers st
    /\ pending_crashes st' = pending_crashes st
    /\ ttl_round st' = ttl_round st
    /\ fuzz_data st' = fuzz_data st
    /\ ttl_roundno_base st' = ttl_roundno_base st.
Proof. unfold after_loop. intros. repeat break_match; repeat split; reflexivity. Qed.

(** ** At most one triaged crash per class *)

Lemma dedup_inv_ext :
  forall st st',
    log_triage_crash_over_time st' = log_triage_crash_over_time st ->
    seen_sanitizers st' = seen_sanitizers st ->
    dedup_inv st -> dedup_inv st'.
Proof.
  unfold dedup_inv. intros st st' Ht Hs H c Hc. rewrite Ht, Hs. auto.
Qed.

Lemma count_class_app :
  forall c l1 l2,
    count_class c (l1 ++ l2) = (count_class c l1 + count_class c l2)%nat.
Proof.
  intros. unfold count_class. rewrite filter_app, length_app. reflexivity.
Qed.

Lemma set_mem_add_same :
  forall (x : string) s, set_mem string_dec x (set_add string_dec x s) = true.
Proof.
  intros. apply set_mem_correct2. apply set_add_intro2. reflexivity.
Qed.

Lemma set_mem_add_mono :
  forall (x y : string) s,
    set_mem string_dec x s = true ->
    set_mem string_dec x (set_add string_dec y s) = true.
Proof.
  intros. apply set_mem_correct2. apply set_add_intro1.
  apply (set_mem_correct1 string_dec). assumption.
Qed.

Lemma triage_one_dedup :
  forall a st p, dedup_inv st -> dedup_inv (triage_one a st p).
Proof.
  intros a st [[ct cr] sa] H. unfold triage_one.
  destruct (not_seen_or_sinkpoint st sa) eqn:Hg; [|exact H].
  intros c Hc. simpl. rewrite count_class_app.
  destruct (H c Hc) as [H1 H2].
  unfold count_class at 2 4. simpl. destruct (String.eqb sa c) eqn:Heq; simpl.
  - apply String.eqb_eq in Heq. subst sa.
    unfold not_seen_or_sinkpoint in Hg.
    apply orb_true_iff in Hg. destruct Hg as [Hg|Hg].
    + apply negb_true_iff in Hg.
      assert (count_class c (log_triage_crash_over_time st) = 0)%nat.
      { destruct (count_class c (log_triage_crash_over_time st)) eqn:E;
          [reflexivity|]. rewrite H2 in Hg by lia. discriminate. }
      split; [lia|]. intros _. apply set_mem_add_same.
    + apply String.eqb_eq in Hg. contradiction.
  - split; [lia|]. intros Hge. apply set_mem_add_mono. apply H2. lia.
Qed.

Lemma scan_pending_dedup :
  forall e a rest st, dedup_inv st -> dedup_inv (scan_pending e a rest st).
Proof.
  induction rest as [|p rest IH]; intros st H; simpl; [exact H|].
  destruct (eligible e (crash_time_of p)); apply IH; [|exact H].
  apply triage_one_dedup; exact H.
Qed.

Lemma step_artifact_dedup :
  forall st line,
    dedup_inv st -> dedup_inv (outcome_state (step_artifact st line)).
Proof.
  intros st line H. unfold step_artifact.
  destruct (_parse_artifact_line line (initial_timestamp st))
    as [[[e a]|]|err]; cbn [outcome_state]; try exact H.
  rewrite check_pending_all.
  apply (dedup_inv_ext (scan_pending e a (pending_crashes st)
           (set_artifact_over_time (artifact_over_time st ++ [(e, a)]) st)));
    try reflexivity.
  apply scan_pending_dedup. exact H.
Qed.

Lemma extract_and_triage_dedup :
  forall sink_mode st line,
    dedup_inv st ->
    dedup_inv (outcome_state (extract_and_triage sink_mode st line)).
Proof.
  intros sink_mode st line H. unfold extract_and_triage.
  pose proof (step_start_frame st line) as F1.
  destruct (step_start st line) as [st1|e1 st1]; simpl in *;
    assert (H1 : dedup_inv st1)
      by (apply (dedup_inv_ext st); intuition congruence); [|exact H1].
  pose proof (step_cov_frame st1 line) as F2.
  destruct (step_cov st1 line) as [st2|e2 st2]; simpl in *;
    assert (H2 : dedup_inv st2)
      by (apply (dedup_inv_ext st1); intuition congruence); [|exact H2].
  pose proof (step_crash_frame sink_mode st2 line) as F3.
  destruct (step_crash sink_mode st2 line) as [st3|e3 st3]; simpl in *;
    assert (H3 : dedup_inv st3)
      by (apply (dedup_inv_ext st2); intuition congruence); [|exact H3].
  pose proof (step_artifact_dedup st3 line H3) as H4.
  destruct (step_artifact st3 line) as [st4|e4 st4]; simpl in *; [|exact H4].
  pose proof (step_exit_frame st4 line) as F5. simpl in F5.
  apply (dedup_inv_ext st4); intuition congruence.
Qed.

Lemma loop_body_dedup :
  forall sink_mode st raw,
    dedup_inv st -> dedup_inv (outcome_state (loop_body sink_mode st raw)).
Proof.
  intros sink_mode st raw H. unfold loop_body.
  pose proof (extract_and_triage_dedup sink_mode st (Py.strip raw) H) as H1.
  destruct (extract_and_triage sink_mode st (Py.strip raw)) as [st1|e st1];
    simpl in *; [|exact H1].
  pose proof (sync_dump_frame st1) as F. simpl in F.
  apply (dedup_inv_ext st1); intuition congruence.
Qed.

Lemma for_lines_dedup :
  forall sink_mode file_obj st,
    dedup_inv st -> dedup_inv (outcome_state (for_lines sink_mode st file_obj)).
Proof.
  induction file_obj as [|raw rest IH]; intros st H; simpl; [exact H|].
  pose proof (loop_body_dedup sink_mode st raw H) as H1.
  destruct (loop_body sink_mode st raw) as [st1|e st1]; simpl in *;
    [apply IH; exact H1 | exact H1].
Qed.

Lemma initial_dedup : dedup_inv initial_state.
Proof.
  intros c Hc. simpl. unfold count_class. simpl. split; [lia|]. intros; lia.
Qed.

(** C1. For every sanitizer class other than SINKPOINT and every input
    stream, the final [log_triage_crash_over_time] has at most one entry of
    that class. *)
Theorem at_most_one_triaged_per_class :
  forall sink_mode file_obj c,
    c <> SINKPOINT ->
    (count_class c
       (log_triage_crash_over_time
          (final (parse_log_in_stream sink_mode file_obj))) <= 1)%nat.
Proof.
  intros sink_mode file_obj c Hc. unfold parse_log_in_stream.
  pose proof (for_lines_dedup sink_mode file_obj initial_state initial_dedup)
    as H.
  destruct (for_lines sink_mode initial_state file_obj) as [st|e st];
    simpl in *.
  - pose proof (after_loop_frame st) as F. simpl in F.
    destruct F as (Ft & _). rewrite Ft. apply (H c Hc).
  - apply (H c Hc).
Qed.

(** ** The patterns *)

Lemma digit_not_space : forall c, Py.isdigit c = true -> Py.isspace c = false.
Proof.
  intros c. destruct c as [[] [] [] [] [] [] [] []]; vm_compute;
    intros H; (reflexivity || discriminate H).
Qed.

Lemma string_app_assoc :
  forall a b c : string, ((a ++ b) ++ c = a ++ (b ++ c))%string.
Proof.
  induction a; simpl; intros; [reflexivity | f_equal; apply IHa].
Qed.

Lemma string_app_nil_r : forall a : string, (a ++ EmptyString)%string = a.
Proof. induction a; simpl; [reflexivity | f_equal; assumption]. Qed.

(** After a greedy run of digits the white-space test leaves one split
    only: the run is the longest one. *)
Lemma class0_digits_space :
  forall (R : Type) (K : string -> @Re.cont R) s acc,
    Re.class0 Py.isdigit (fun g => Re.space (K g)) acc s
    = let (d, r) := span_digits s in Re.space (K (acc ++ d)%string) r.
Proof.
  induction s as [|c s IH]; intros acc; simpl.
  - reflexivity.
  - destruct (Py.isdigit c) eqn:Hc.
    + rewrite IH. destruct (span_digits s) as [d r].
      rewrite string_app_assoc. simpl.
      destruct (Re.space (K (acc ++ String c d)%string) r); [reflexivity|].
      rewrite (digit_not_space c Hc). reflexivity.
    + simpl. rewrite string_app_nil_r. reflexivity.
Qed.

Lemma digits1_space :
  forall (R : Type) (K : string -> @Re.cont R) s,
    Re.digits1 (fun g => Re.space (K g)) s
    = match timestamp_prefix s with
      | Some (d, r) => K d r
      | None => None
      end.
Proof.
  intros R K s. unfold Re.digits1, Re.class1, timestamp_prefix.
  destruct s as [|c s]; simpl; [reflexivity|].
  destruct (Py.isdigit c) eqn:Hc; [|reflexivity].
  rewrite class0_digits_space. destruct (span_digits s) as [d r]. simpl.
  destruct r as [|c' r]; simpl; [reflexivity|].
  destruct (Py.isspace c'); reflexivity.
Qed.

Lemma timestamp_prefix_head :
  forall s d r,
    timestamp_prefix s = Some (d, r) ->
    exists c s', s = String c s' /\ Py.isdigit c = true.
Proof.
  intros [|c s] d r; unfold timestamp_prefix; simpl; [discriminate|].
  destruct (Py.isdigit c) eqn:Hc; [|discriminate]. eauto.
Qed.

Lemma lit_head :
  forall (R : Type) a p (k : @Re.cont R) s x,
    Re.lit (String a p) k s = Some x -> head s = Some a.
Proof.
  intros R a p k [|b s] x; simpl; [discriminate|].
  destruct (Ascii.eqb a b) eqn:E; [|discriminate].
  apply Ascii.eqb_eq in E. subst. reflexivity.
Qed.

Lemma head_not_digit_no_prefix :
  forall s a, head s = Some a -> Py.isdigit a = false ->
              timestamp_prefix s = None.
Proof.
  intros [|c s] a H Ha; [discriminate|]. simpl in H. inversion H; subst.
  unfold timestamp_prefix. simpl. rewrite Ha. reflexivity.
Qed.

(** A pattern with a timestamp prefix, on a line whose shape is not the
    first character of its body, fails; so does the pattern without. *)
Lemma with_prefix_shape :
  forall (R : Type) a p (k : string -> @Re.cont R) s x,
    Re.digits1 (fun g => Re.space (Re.lit (String a p) (k g))) s = Some x ->
    shape s = Some a.
Proof.
  intros R a p k s x H. rewrite digits1_space in H. unfold shape.
  destruct (timestamp_prefix s) as [[d r]|]; [|discriminate].
  eapply lit_head; exact H.
Qed.

Lemma without_prefix_shape :
  forall (R : Type) a p (k : @Re.cont R) s x,
    Py.isdigit a = false ->
    Re.lit (String a p) k s = Some x ->
    shape s = Some a.
Proof.
  intros R a p k s x Ha H. apply lit_head in H. unfold shape.
  rewrite (head_not_digit_no_prefix s a H Ha). exact H.
Qed.

Lemma start_shape :
  forall s x, FUZZ_START_LINE_PTRN s = Some x -> shape s = Some "O"%char.
Proof. intros s x H. eapply with_prefix_shape; exact H. Qed.

Lemma cov_shape :
  forall s x, LIBFUZZER_COV_LINE_PTRN s = Some x -> shape s = Some "#"%char.
Proof. intros s x H. eapply with_prefix_shape; exact H. Qed.

Lemma old_cov_shape :
  forall s x, OLD_LIBFUZZER_COV_LINE_PTRN s = Some x -> shape s = Some "#"%char.
Proof. intros s x H. eapply without_prefix_shape; [reflexivity | exact H]. Qed.

Lemma crash_shape :
  forall s x, LIBFUZZER_CRASH_LINE_PTRN s = Some x -> shape s = Some "="%char.
Proof. intros s x H. eapply with_prefix_shape; exact H. Qed.

Lemma old_crash_shape :
  forall s x,
    OLD_LIBFUZZER_CRASH_LINE_PTRN s = Some x -> shape s = Some "="%char.
Proof. intros s x H. eapply without_prefix_shape; [reflexivity | exact H]. Qed.

Lemma artifact_shape :
  forall s x, CRASH_ARTIFACT_LINE_PTRN s = Some x -> shape s = Some "a"%char.
Proof. intros s x H. eapply with_prefix_shape; exact H. Qed.

Lemma old_artifact_shape :
  forall s x,
    OLD_CRASH_ARTIFACT_LINE_PTRN s = Some x -> shape s = Some "a"%char.
Proof. intros s x H. eapply without_prefix_shape; [reflexivity | exact H]. Qed.

Lemma not_start_shape :
  forall s, shape s <> Some "O"%char -> FUZZ_START_LINE_PTRN s = None.
Proof.
  intros s H. destruct (FUZZ_START_LINE_PTRN s) eqn:E; [|reflexivity].
  elim H. eapply start_shape; exact E.
Qed.

Lemma not_cov_shape :
  forall s t, shape s <> Some "#"%char -> _parse_cov_line s t = Ok None.
Proof.
  intros s t H. unfold _parse_cov_line.
  destruct (LIBFUZZER_COV_LINE_PTRN s) eqn:E1;
    [elim H; eapply cov_shape; exact E1|].
  destruct (OLD_LIBFUZZER_COV_LINE_PTRN s) eqn:E2;
    [elim H; eapply old_cov_shape; exact E2|].
  reflexivity.
Qed.

Lemma not_crash_shape :
  forall s t, shape s <> Some "="%char -> _parse_crash_line s t = Ok None.
Proof.
  intros s t H. unfold _parse_crash_line.
  destruct (LIBFUZZER_CRASH_LINE_PTRN s) eqn:E1;
    [elim H; eapply crash_shape; exact E1|].
  destruct (OLD_LIBFUZZER_CRASH_LINE_PTRN s) eqn:E2;
    [elim H; eapply old_crash_shape; exact E2|].
  reflexivity.
Qed.

Lemma not_artifact_shape :
  forall s t, shape s <> Some "a"%char -> _parse_artifact_line s t = Ok None.
Proof.
  intros s t H. unfold _parse_artifact_line.
  destruct (CRASH_ARTIFACT_LINE_PTRN s) eqn:E1;
    [elim H; eapply artifact_shape; exact E1|].
  destruct (OLD_CRASH_ARTIFACT_LINE_PTRN s) eqn:E2;
    [elim H; eapply old_artifact_shape; exact E2|].
  reflexivity.
Qed.

Lemma shape_dec :
  forall s a, {shape s = Some a} + {shape s <> Some a}.
Proof. intros s a. decide equality. apply Ascii.ascii_dec. Qed.

Lemma cov_is_shape :
  forall s t, _parse_cov_line s t <> Ok None -> shape s = Some "#"%char.
Proof.
  intros s t H.
  destruct (shape_dec s "#"%char) as [E|E]; [exact E|].
  elim H. apply not_cov_shape; exact E.
Qed.

Lemma crash_is_shape :
  forall s t, _parse_crash_line s t <> Ok None -> shape s = Some "="%char.
Proof.
  intros s t H.
  destruct (shape_dec s "="%char) as [E|E]; [exact E|].
  elim H. apply not_crash_shape; exact E.
Qed.

Lemma artifact_is_shape :
  forall s t, _parse_artifact_line s t <> Ok None -> shape s = Some "a"%char.
Proof.
  intros s t H.
  destruct (shape_dec s "a"%char) as [E|E]; [exact E|].
  elim H. apply not_artifact_shape; exact E.
Qed.

(** ** The crash extractor and the classifier *)

Lemma lit_inv :
  forall (R : Type) p (k : @Re.cont R) s x,
    Re.lit p k s = Some x ->
    exists s', s = (p ++ s')%string /\ k s' = Some x.
Proof.
  induction p as [|a p IH]; intros k s x H; simpl in *.
  - exists s. auto.
  - destruct s as [|b s]; [discriminate|].
    destruct (Ascii.eqb a b) eqn:E; [|discriminate].
    apply Ascii.eqb_eq in E. subst b.
    destruct (IH k s x H) as (s' & -> & Hk). exists s'. auto.
Qed.

Lemma dotstar_cap_inv :
  forall (R : Type) (k : string -> @Re.cont R) s acc x,
    Re.dotstar_cap k acc s = Some x ->
    exists g r, k (acc ++ g)%string r = Some x.
Proof.
  induction s as [|c s IH]; intros acc x H; simpl in H.
  - exists EmptyString, EmptyString. rewrite string_app_nil_r. exact H.
  - destruct (Py.isnewline c).
    + exists EmptyString, (String c s). rewrite string_app_nil_r. exact H.
    + destruct (Re.dotstar_cap k (acc ++ String c EmptyString)%string s) eqn:E.
      * inversion H; subst. destruct (IH _ _ E) as (g & r & Hk).
        exists (String c g), r. rewrite string_app_assoc in Hk. exact Hk.
      * exists EmptyString, (String c s). rewrite string_app_nil_r. exact H.
Qed.

Lemma crash_body_inv :
  forall (R : Type) (k : string -> option R) s x,
    CRASH_BODY k s = Some x ->
    exists g, k ("== Java Exception:" ++ g)%string = Some x.
Proof.
  intros R k s x H. unfold CRASH_BODY in H.
  apply lit_inv in H. destruct H as (s' & _ & H).
  apply dotstar_cap_inv in H. destruct H as (g & r & H).
  exists g. exact H.
Qed.

Lemma parse_crash_line_text :
  forall line t e crash,
    _parse_crash_line line t = Ok (Some (e, crash)) ->
    exists g, crash = ("== Java Exception:" ++ g)%string.
Proof.
  intros line t e crash H. unfold _parse_crash_line in H.
  destruct (LIBFUZZER_CRASH_LINE_PTRN line) as [[g1 c]|] eqn:E1.
  - unfold LIBFUZZER_CRASH_LINE_PTRN in E1. rewrite digits1_space in E1.
    destruct (timestamp_prefix line) as [[d r]|]; [|discriminate].
    apply crash_body_inv in E1. destruct E1 as (g & E1).
    inversion E1; subst. destruct (Py.int g1); simpl in H; [|discriminate].
    inversion H; subst. exists g. reflexivity.
  - destruct (OLD_LIBFUZZER_CRASH_LINE_PTRN line) as [c|] eqn:E2;
      [|discriminate].
    apply crash_body_inv in E2. destruct E2 as (g & E2).
    inversion E2; subst. inversion H; subst. exists g. reflexivity.
Qed.

Lemma split_nonempty : forall sep s, Py.split sep s <> [].
Proof.
  intros sep [|c s]; simpl; [discriminate|].
  destruct (Ascii.eqb c sep); [discriminate|].
  destruct (Py.split sep s); discriminate.
Qed.

Lemma str_in_app_r :
  forall sub a b, Py.str_in sub b = true -> Py.str_in sub (a ++ b)%string = true.
Proof.
  induction a as [|c a IH]; intros b H; simpl; [exact H|].
  destruct (Py.startswith sub (String c (a ++ b))); [reflexivity|].
  apply IH; exact H.
Qed.

Lemma banner_has_field_1 :
  forall g,
    exists field,
      nth_error (Py.split ":"%char ("== Java Exception:" ++ g)%string) 1
      = Some field.
Proof.
  intros g. simpl. destruct (Py.split ":"%char g) as [|f fs] eqn:E.
  - elim (split_nonempty _ _ E).
  - exists f. reflexivity.
Qed.

Lemma banner_text_classifies :
  forall sink_mode g,
    (exists b, is_interesting_crash ("== Java Exception:" ++ g)%string = Ok b)
    /\ (exists r,
          crash_2_sanitizer sink_mode ("== Java Exception:" ++ g)%string = Ok r).
Proof.
  intros sink_mode g.
  destruct (banner_has_field_1 g) as (field & Hf).
  assert (Hi : exists b,
             is_interesting_crash ("== Java Exception:" ++ g)%string = Ok b).
  { unfold is_interesting_crash, checkers, run_checkers.
    rewrite Hf. unfold rbind.
    destruct (negb (Py.str_in "code_intelligence" field)); [eauto|].
    destruct (negb (negb (Py.str_in "Stack overflow (use "
                            ("== Java Exception:" ++ g)%string))); eauto.
    destruct (negb (negb (Py.str_in "Out of memory"
                            ("== Java Exception:" ++ g)%string))); eauto. }
  split; [exact Hi|].
  unfold crash_2_sanitizer.
  destruct (is_of_jazzer_sink sink_mode _); [eauto|].
  destruct Hi as (b & Hb). rewrite Hb. cbn [rbind].
  repeat break_match; eauto.
Qed.

(** C10. A crash text produced by the crash extractor begins with the
    banner [== Java Exception:], so it contains a colon, the second
    colon-delimited field exists, [is_interesting_crash] returns without an
    [IndexError], and [crash_2_sanitizer] returns a classification. *)
Theorem extracted_crash_classifies :
  forall sink_mode line initial_timestamp elapsed_time crash,
    _parse_crash_line line initial_timestamp = Ok (Some (elapsed_time, crash)) ->
    Py.startswith "== Java Exception:" crash = true
    /\ Py.str_in ":" crash = true
    /\ (exists field, nth_error (Py.split ":"%char crash) 1 = Some field)
    /\ (exists b, is_interesting_crash crash = Ok b)
    /\ (exists r, crash_2_sanitizer sink_mode crash = Ok r).
Proof.
  intros sink_mode line t e crash H.
  destruct (parse_crash_line_text _ _ _ _ H) as (g & ->).
  split; [|split; [|split; [|split]]].
  - reflexivity.
  - change ("== Java Exception:" ++ g)%string
      with ("== Java Exception" ++ String ":" g)%string.
    apply str_in_app_r. reflexivity.
  - apply banner_has_field_1.
  - apply (banner_text_classifies sink_mode g).
  - apply (banner_text_classifies sink_mode g).
Qed.

(** ** Classification *)

(** C4, as stated, fails.  On [crash_two_labels] a label is present
    verbatim (SQL Injection), yet the code returns an earlier label that
    matches only with its blanks removed; on [crash_wide_blank] a copy of
    the text without blanks contains a label without blanks, yet the code
    returns the sentinel, because it searches the text as it is. *)
Lemma two_pass_classification_fails :
  (is_of_jazzer_sink EmptyString crash_two_labels = false
   /\ is_interesting_crash crash_two_labels = Ok true
   /\ two_pass_classification crash_two_labels
      = "FuzzerSecurityIssueHigh: SQL Injection"
   /\ crash_2_sanitizer EmptyString crash_two_labels
      = Ok (Some "FuzzerSecurityIssueCritical: OS Command Injection"))
  /\ (is_of_jazzer_sink EmptyString crash_wide_blank = false
      /\ is_interesting_crash crash_wide_blank = Ok true
      /\ two_pass_classification crash_wide_blank
         = "FuzzerSecurityIssueHigh: SQL Injection"
      /\ crash_2_sanitizer EmptyString crash_wide_blank
         = Ok (Some "UNKNOWN SANITIZER")).
Proof. vm_compute. repeat split. Qed.

Lemma scan_sanitizers_some :
  forall crash l r,
    scan_sanitizers l crash = Some r ->
    exists pre post,
      l = pre ++ r :: post
      /\ label_matches crash r = true
      /\ forall x, In x pre -> label_matches crash x = false.
Proof.
  induction l as [|x l IH]; intros r H; simpl in H; [discriminate|].
  destruct (Py.str_in x crash) eqn:E1.
  - inversion H; subst. exists [], l. unfold label_matches. rewrite E1.
    repeat split. intros y [].
  - destruct (Py.str_in (Py.remove_spaces x) crash) eqn:E2.
    + inversion H; subst. exists [], l. unfold label_matches.
      rewrite E1, E2. repeat split. intros y [].
    + destruct (IH r H) as (pre & post & -> & Hm & Hpre).
      exists (x :: pre), post. repeat split; [exact Hm|].
      intros y [<-|Hy]; [|auto]. unfold label_matches. rewrite E1, E2.
      reflexivity.
Qed.

Lemma scan_sanitizers_none :
  forall crash l,
    scan_sanitizers l crash = None ->
    forall x, In x l -> label_matches crash x = false.
Proof.
  induction l as [|y l IH]; intros H x Hx; simpl in *; [contradiction|].
  destruct (Py.str_in y crash) eqn:E1; [discriminate|].
  destruct (Py.str_in (Py.remove_spaces y) crash) eqn:E2; [discriminate|].
  destruct Hx as [<-|Hx]; [|auto].
  unfold label_matches. rewrite E1, E2. reflexivity.
Qed.

(** C4, amended.  For a crash text that is interesting and not a sink hit,
    the classifier scans the catalog once, in order, and returns the first
    label that is in the crash text either verbatim or with the label's
    blanks removed (the crash text is searched as it is); when no label
    matches in either way it returns UNKNOWN SANITIZER. *)
Theorem classification_first_matching_label :
  forall sink_mode crash,
    is_of_jazzer_sink sink_mode crash = false ->
    is_interesting_crash crash = Ok true ->
    exists r,
      crash_2_sanitizer sink_mode crash = Ok (Some r)
      /\ ((exists pre post,
             SANITIZERS = pre ++ r :: post
             /\ label_matches crash r = true
             /\ forall x, In x pre -> label_matches crash x = false)
          \/ (r = UNKNOWN_SANITIZER
              /\ forall x, In x SANITIZERS -> label_matches crash x = false)).
Proof.
  intros sink_mode crash Hs Hi. unfold crash_2_sanitizer.
  rewrite Hs, Hi. cbn [rbind negb].
  destruct (scan_sanitizers SANITIZERS crash) as [r|] eqn:E.
  - exists r. split; [reflexivity|]. left.
    apply scan_sanitizers_some; exact E.
  - exists UNKNOWN_SANITIZER. split; [reflexivity|]. right.
    split; [reflexivity|]. apply scan_sanitizers_none; exact E.
Qed.

(** ** One event kind per line *)

Lemma step_start_other :
  forall st line, shape line <> Some "O"%char -> step_start st line = Done st.
Proof.
  intros st line H. unfold step_start. rewrite (not_start_shape line H).
  destruct (initial_timestamp st); reflexivity.
Qed.

Lemma step_cov_other :
  forall st line, shape line <> Some "#"%char -> step_cov st line = Done st.
Proof.
  intros st line H. unfold step_cov. rewrite (not_cov_shape line _ H).
  reflexivity.
Qed.

Lemma step_crash_other :
  forall sink_mode st line,
    shape line <> Some "="%char -> step_crash sink_mode st line = Done st.
Proof.
  intros sink_mode st line H. unfold step_crash.
  rewrite (not_crash_shape line _ H). reflexivity.
Qed.

Lemma step_artifact_other :
  forall st line,
    shape line <> Some "a"%char -> step_artifact st line = Done st.
Proof.
  intros st line H. unfold step_artifact.
  rewrite (not_artifact_shape line _ H). reflexivity.
Qed.

Ltac other_shape H := rewrite H; intro Hneq; inversion Hneq.

Lemma extract_start_line :
  forall sink_mode st line,
    shape line = Some "O"%char ->
    extract_and_triage sink_mode st line
    = (st1 <~ step_start st line ;; Done (step_exit st1 line)).
Proof.
  intros sink_mode st line H. unfold extract_and_triage.
  destruct (step_start st line) as [st1|e st1]; cbn [and_then]; [|reflexivity].
  rewrite step_cov_other by (other_shape H). cbn [and_then].
  rewrite step_crash_other by (other_shape H). cbn [and_then].
  rewrite step_artifact_other by (other_shape H). reflexivity.
Qed.

Lemma extract_cov_line :
  forall sink_mode st line,
    shape line = Some "#"%char ->
    extract_and_triage sink_mode st line
    = (st1 <~ step_cov st line ;; Done (step_exit st1 line)).
Proof.
  intros sink_mode st line H. unfold extract_and_triage.
  rewrite step_start_other by (other_shape H). cbn [and_then].
  destruct (step_cov st line) as [st1|e st1]; cbn [and_then]; [|reflexivity].
  rewrite step_crash_other by (other_shape H). cbn [and_then].
  rewrite step_artifact_other by (other_shape H). reflexivity.
Qed.

Lemma extract_crash_line :
  forall sink_mode st line,
    shape line = Some "="%char ->
    extract_and_triage sink_mode st line
    = (st1 <~ step_crash sink_mode st line ;; Done (step_exit st1 line)).
Proof.
  intros sink_mode st line H. unfold extract_and_triage.
  rewrite step_start_other by (other_shape H). cbn [and_then].
  rewrite step_cov_other by (other_shape H). cbn [and_then].
  destruct (step_crash sink_mode st line) as [st1|e st1]; cbn [and_then];
    [|reflexivity].
  rewrite step_artifact_other by (other_shape H). reflexivity.
Qed.

Lemma extract_artifact_line :
  forall sink_mode st line,
    shape line = Some "a"%char ->
    extract_and_triage sink_mode st line
    = (st1 <~ step_artifact st line ;; Done (step_exit st1 line)).
Proof.
  intros sink_mode st line H. unfold extract_and_triage.
  rewrite step_start_other by (other_shape H). cbn [and_then].
  rewrite step_cov_other by (other_shape H). cbn [and_then].
  rewrite step_crash_other by (other_shape H). cbn [and_then].
  reflexivity.
Qed.

Lemma extract_other_line :
  forall sink_mode st line,
    shape line <> Some "O"%char -> shape line <> Some "#"%char ->
    shape line <> Some "="%char -> shape line <> Some "a"%char ->
    extract_and_triage sink_mode st line = Done (step_exit st line).
Proof.
  intros sink_mode st line H1 H2 H3 H4. unfold extract_and_triage.
  rewrite step_start_other by assumption. cbn [and_then].
  rewrite step_cov_other by assumption. cbn [and_then].
  rewrite step_crash_other by assumption. cbn [and_then].
  rewrite step_artifact_other by assumption. reflexivity.
Qed.

(** ** Crash lines and the queue *)

(** C5, as stated, fails: after a SQL Injection crash has been triaged, a
    second crash line of the same class, whose classification is not
    [None], is not appended to the queue. *)
Lemma seen_class_is_not_queued :
  let st := outcome_state
              (for_lines EmptyString initial_state
                 [sql_crash_line; sample_artifact_line]) in
  _parse_crash_line sql_crash_line (initial_timestamp st)
  = Ok (Some (None, sql_crash_line))
  /\ crash_2_sanitizer EmptyString sql_crash_line
     = Ok (Some "FuzzerSecurityIssueHigh: SQL Injection")
  /\ pending_crashes st = []
  /\ pending_crashes
       (outcome_state (step_crash EmptyString st sql_crash_line)) = [].
Proof. vm_compute. repeat split. Qed.

(** C5, amended.  A crash report whose classification is not [None] is
    recorded in [log_crash_over_time]; it is appended to the pending queue
    when its class is SINKPOINT or is not yet in [seen_sanitizers], and it
    is not queued when its class, other than SINKPOINT, has been triaged
    before: the dedup test runs at crash time as well as at artifact time. *)
Theorem crash_queued_unless_seen :
  forall sink_mode st line elapsed_time crash sanitizer,
    _parse_crash_line line (initial_timestamp st)
    = Ok (Some (elapsed_time, crash)) ->
    crash_2_sanitizer sink_mode crash = Ok (Some sanitizer) ->
    exists st',
      step_crash sink_mode st line = Done st'
      /\ log_crash_over_time st'
         = log_crash_over_time st ++ [(elapsed_time, crash)]
      /\ (sanitizer = SINKPOINT \/ ~ set_In sanitizer (seen_sanitizers st) ->
          pending_crashes st'
          = pending_crashes st ++ [(elapsed_time, crash, sanitizer)])
      /\ (sanitizer <> SINKPOINT /\ set_In sanitizer (seen_sanitizers st) ->
          pending_crashes st' = pending_crashes st).
Proof.
  intros sink_mode st line e crash sa Hp Hc. unfold step_crash.
  rewrite Hp, Hc. unfold not_seen_or_sinkpoint. cbn [seen_sanitizers].
  change (seen_sanitizers
            (set_log_crash_over_time (log_crash_over_time st ++ [(e, crash)]) st))
    with (seen_sanitizers st).
  destruct (set_mem string_dec sa (seen_sanitizers st)) eqn:Hm;
    destruct (String.eqb sa SINKPOINT) eqn:Hs; cbn [negb orb];
    eexists; (split; [reflexivity|]); (split; [reflexivity|]); split;
    try (intros _; reflexivity).
  - intros [Hn _]. apply String.eqb_eq in Hs. contradiction.
  - intros [He|Hn].
    + apply String.eqb_neq in Hs. contradiction.
    + elim Hn. apply (set_mem_correct1 string_dec). exact Hm.
  - intros [_ Hin]. apply (set_mem_complete1 string_dec) in Hm. contradiction.
  - intros [_ Hin]. apply (set_mem_complete1 string_dec) in Hm. contradiction.
Qed.

(** ** Run-start lines *)

(** C9, as stated, fails: the second run-start banner of a stream is not
    matched; it leaves the needs-dump flag unset and triggers no dump. *)
Lemma second_start_line_sets_no_flag :
  let st := outcome_state
              (for_lines EmptyString initial_state [start_line_1000]) in
  FUZZ_START_LINE_PTRN start_line_2000 = Some "2000"
  /\ initial_timestamp st = Some 1000
  /\ need_dump st = false
  /\ List.length (dumps st) = 1%nat
  /\ need_dump
       (outcome_state (extract_and_triage EmptyString st start_line_2000))
     = false
  /\ List.length
       (dumps (outcome_state (loop_body EmptyString st start_line_2000)))
     = 1%nat.
Proof. vm_compute. repeat split. Qed.

Lemma step_exit_dumps :
  forall st line,
    dumps (step_exit st line) = dumps st
    /\ fuzz_data (step_exit st line) = fuzz_data st.
Proof.
  intros. unfold step_exit. repeat break_match; split; reflexivity.
Qed.

(** C9, amended.  The run-start banner is looked for only while the
    baseline is unset: the first banner sets the baseline to its timestamp
    and the needs-dump flag, and a dump follows at the end of that line.  A
    banner seen once the baseline is set is not matched: the baseline and
    the needs-dump flag stay as they are and the line causes no dump. *)
Theorem start_line_counts_once :
  (forall sink_mode st raw g t,
      initial_timestamp st = None ->
      FUZZ_START_LINE_PTRN (Py.strip raw) = Some g ->
      Py.int g = Ok t ->
      exists st1 st' d,
        extract_and_triage sink_mode st (Py.strip raw) = Done st1
        /\ need_dump st1 = true
        /\ loop_body sink_mode st raw = Done st'
        /\ initial_timestamp st' = Some t
        /\ dumps st' = dumps st ++ [d])
  /\ (forall sink_mode st raw g t,
         initial_timestamp st = Some t ->
         FUZZ_START_LINE_PTRN (Py.strip raw) = Some g ->
         exists st1 st',
           extract_and_triage sink_mode st (Py.strip raw) = Done st1
           /\ need_dump st1 = need_dump st
           /\ loop_body sink_mode st raw = Done st'
           /\ initial_timestamp st' = Some t
           /\ (need_dump st = false -> dumps st' = dumps st)).
Proof.
  split.
  - intros sink_mode st raw g t Hi Hm Hint.
    assert (Hs : shape (Py.strip raw) = Some "O"%char)
      by (eapply start_shape; exact Hm).
    unfold loop_body. rewrite (extract_start_line _ _ _ Hs).
    unfold step_start. rewrite Hi, Hm, Hint. cbn [and_then].
    set (st0 := set_need_dump true (set_initial_timestamp (Some t) st)).
    pose proof (step_exit_frame st0 (Py.strip raw)) as F. simpl in F.
    destruct F as (_ & _ & _ & Fi & Fd & _).
    pose proof (step_exit_dumps st0 (Py.strip raw)) as [Fdu Ffd].
    set (st1 := step_exit st0 (Py.strip raw)) in *.
    exists st1, (step_dump (sync_result st1)).
    unfold step_dump, dump_fuzz_data, fuzz_data_view, sync_result.
    cbn. rewrite Fd. cbn.
    eexists. repeat split; try reflexivity.
    + rewrite Fi. reflexivity.
    + rewrite Fdu. reflexivity.
  - intros sink_mode st raw g t Hi Hm.
    assert (Hs : shape (Py.strip raw) = Some "O"%char)
      by (eapply start_shape; exact Hm).
    unfold loop_body. rewrite (extract_start_line _ _ _ Hs).
    unfold step_start. rewrite Hi. cbn [and_then].
    pose proof (step_exit_frame st (Py.strip raw)) as F. simpl in F.
    destruct F as (_ & _ & _ & Fi & Fd & _).
    pose proof (step_exit_dumps st (Py.strip raw)) as [Fdu Ffd].
    set (st1 := step_exit st (Py.strip raw)) in *.
    exists st1, (step_dump (sync_result st1)).
    split; [reflexivity|]. split; [exact Fd|]. split; [reflexivity|].
    unfold step_dump, dump_fuzz_data, fuzz_data_view, sync_result. cbn.
    rewrite Fd. destruct (need_dump st); cbn; rewrite Fi, Hi.
    + split; [reflexivity | discriminate].
    + split; [reflexivity|]. intros _. exact Fdu.
Qed.

(** ** The synced summary *)

Lemma loop_body_synced :
  forall sink_mode st raw st',
    loop_body sink_mode st raw = Done st' -> synced st'.
Proof.
  intros sink_mode st raw st' H. unfold loop_body in H.
  destruct (extract_and_triage sink_mode st (Py.strip raw)) as [st1|e st1];
    cbn [and_then] in H; [|discriminate].
  inversion H; subst. unfold synced, step_dump, dump_fuzz_data, fuzz_data_view,
    sync_result.
  cbn. destruct (need_dump st1); reflexivity.
Qed.

Lemma for_lines_synced :
  forall sink_mode rest raw st st',
    for_lines sink_mode st (raw :: rest) = Done st' -> synced st'.
Proof.
  induction rest as [|raw' rest IH]; intros raw st st' H; simpl in H.
  - destruct (loop_body sink_mode st raw) eqn:E; [|discriminate].
    inversion H; subst. eapply loop_body_synced; exact E.
  - destruct (loop_body sink_mode st raw) eqn:E; [|discriminate].
    eapply IH. simpl. exact H.
Qed.

(** ** The round counter *)

Lemma loop_body_cov_round :
  forall sink_mode st raw k,
    cov_line_of_round raw k ->
    exists st',
      loop_body sink_mode st raw = Done st'
      /\ ttl_round st' = ttl_roundno_base st + Z.of_nat k
      /\ ttl_roundno_base st' = ttl_roundno_base st.
Proof.
  intros sink_mode st raw k [Hx Hc].
  destruct (Hc (initial_timestamp st)) as (e & cov & ft & Hparse).
  assert (Hs : shape (Py.strip raw) = Some "#"%char)
    by (apply (cov_is_shape _ (initial_timestamp st)); rewrite Hparse;
        discriminate).
  unfold loop_body. rewrite (extract_cov_line _ _ _ Hs).
  unfold step_cov. rewrite Hparse. cbn [and_then].
  unfold step_exit. rewrite Hx.
  match goal with
  | |- context [sync_result ?s] =>
      pose proof (sync_dump_frame s) as G; cbv zeta in G;
      destruct G as (_ & _ & _ & _ & Gr & Gb & _);
      exists (step_dump (sync_result s))
  end.
  split; [reflexivity|]. rewrite Gr, Gb. split; reflexivity.
Qed.

Lemma loop_body_exit_marker :
  forall sink_mode st raw,
    exit_marker_line raw ->
    exists st',
      loop_body sink_mode st raw = Done st'
      /\ ttl_round st' = ttl_round st
      /\ ttl_roundno_base st' = ttl_round st.
Proof.
  intros sink_mode st raw (Hx & Hs & Hp).
  destruct (Hp (initial_timestamp st)) as (H1 & H2 & H3).
  unfold loop_body, extract_and_triage, step_start, step_cov, step_crash,
    step_artifact.
  rewrite Hs.
  replace (match initial_timestamp st with
           | Some _ => Done st
           | None => Done st
           end) with (Done st) by (destruct (initial_timestamp st); reflexivity).
  cbn [and_then]. rewrite H1. cbn [and_then]. rewrite H2. cbn [and_then].
  rewrite H3. cbn [and_then].
  match goal with
  | |- context [sync_result ?s] =>
      pose proof (sync_dump_frame s) as G; cbv zeta in G;
      destruct G as (_ & _ & _ & _ & Gr & Gb & _);
      exists (step_dump (sync_result s))
  end.
  split; [reflexivity|]. rewrite Gr, Gb. unfold step_exit. rewrite Hx.
  repeat break_match; split; reflexivity.
Qed.

Lemma for_lines_app :
  forall sink_mode l1 l2 st st1,
    for_lines sink_mode st l1 = Done st1 ->
    for_lines sink_mode st (l1 ++ l2) = for_lines sink_mode st1 l2.
Proof.
  induction l1 as [|raw l1 IH]; intros l2 st st1 H; simpl in *.
  - inversion H; reflexivity.
  - destruct (loop_body sink_mode st raw); [apply IH; exact H | discriminate].
Qed.

Lemma ttl_round_trace_app :
  forall sink_mode l1 l2 st st1,
    for_lines sink_mode st l1 = Done st1 ->
    ttl_round_trace sink_mode st (l1 ++ l2)
    = ttl_round_trace sink_mode st l1 ++ ttl_round_trace sink_mode st1 l2.
Proof.
  induction l1 as [|raw l1 IH]; intros l2 st st1 H; simpl in *.
  - inversion H; reflexivity.
  - destruct (loop_body sink_mode st raw); [|discriminate].
    simpl. f_equal. apply IH; exact H.
Qed.

Lemma for_lines_run :
  forall sink_mode lines st k,
    rounds_from k lines ->
    ttl_round st = ttl_roundno_base st + Z.of_nat k ->
    exists st',
      for_lines sink_mode st lines = Done st'
      /\ ttl_roundno_base st' = ttl_roundno_base st
      /\ ttl_round st'
         = ttl_roundno_base st + Z.of_nat (k + List.length lines)
      /\ ttl_round_trace sink_mode st lines
         = map (fun j => ttl_roundno_base st + Z.of_nat j)
             (seq (S k) (List.length lines)).
Proof.
  induction lines as [|raw lines IH]; intros st k Hr Ht.
  - exists st. simpl. rewrite Nat.add_0_r. auto.
  - destruct Hr as [Hc Hr].
    destruct (loop_body_cov_round sink_mode st raw (S k) Hc)
      as (st1 & E1 & Ht1 & Hb1).
    destruct (IH st1 (S k) Hr) as (st2 & E2 & Hb2 & Ht2 & Htr).
    + rewrite Ht1, Hb1. reflexivity.
    + exists st2. simpl. rewrite E1, E2. split; [reflexivity|].
      split; [congruence|]. split.
      * rewrite Ht2, Hb1. f_equal. lia.
      * rewrite Ht1, Htr, Hb1. reflexivity.
Qed.

Lemma sorted_rounds :
  forall b n a,
    StronglySorted Z.le (map (fun j => b + Z.of_nat j) (seq a n)).
Proof.
  induction n as [|n IH]; intros a; simpl; constructor.
  - apply IH.
  - apply Forall_forall. intros x Hx. apply in_map_iff in Hx.
    destruct Hx as (j & <- & Hj). apply in_seq in Hj. lia.
Qed.

Lemma sorted_app :
  forall l1 l2 : list Z,
    StronglySorted Z.le l1 -> StronglySorted Z.le l2 ->
    (forall x y, In x l1 -> In y l2 -> x <= y) ->
    StronglySorted Z.le (l1 ++ l2).
Proof.
  induction l1 as [|x l1 IH]; intros l2 H1 H2 H; simpl; [exact H2|].
  inversion H1 as [|? ? Hs Hf]; subst. constructor.
  - apply IH; auto. intros; apply H; simpl; auto.
  - apply Forall_forall. intros y Hy. apply in_app_or in Hy.
    destruct Hy as [Hy|Hy].
    + rewrite Forall_forall in Hf. apply Hf; exact Hy.
    + apply H; simpl; auto.
Qed.

(** C6. A stream made of an engine run with the local rounds 1..N1, a line
    with the exit marker, and an engine run with the local rounds 1..N2 is
    processed without error; the successive values of [ttl_round] are
    1..N1, then N1 at the marker, then N1+1..N1+N2: they never decrease and
    the last one, also the synced one, is N1 + N2.  At an exit marker the
    round base becomes the global round count reached so far. *)
Theorem round_counter_across_runs :
  forall sink_mode run1 run2 exit_line n1 n2,
    engine_run run1 n1 ->
    engine_run run2 n2 ->
    exit_marker_line exit_line ->
    let stream := run1 ++ exit_line :: run2 in
    let trace := ttl_round_trace sink_mode initial_state stream in
    let r := parse_log_in_stream sink_mode stream in
    trace = map Z.of_nat (seq 1 n1) ++ [Z.of_nat n1]
            ++ map (fun j => Z.of_nat n1 + Z.of_nat j) (seq 1 n2)
    /\ StronglySorted Z.le trace
    /\ logged r = None
    /\ ttl_round (final r) = Z.of_nat n1 + Z.of_nat n2
    /\ option_map s_ttl_round (fuzz_data (final r))
       = Some (Z.of_nat n1 + Z.of_nat n2)
    /\ ttl_roundno_base (final r) = Z.of_nat n1
    /\ (forall st line,
          Py.str_in JAZZER_EXIT_LOG line = true ->
          ttl_roundno_base (step_exit st line) = ttl_round st).
Proof.
  intros sink_mode run1 run2 x n1 n2 [L1 R1] [L2 R2] Hx stream trace r.
  destruct (for_lines_run sink_mode run1 initial_state 0 R1 eq_refl)
    as (st1 & E1 & Hb1 & Ht1 & Htr1).
  destruct (loop_body_exit_marker sink_mode st1 x Hx) as (st2 & E2 & Ht2 & Hb2).
  destruct (for_lines_run sink_mode run2 st2 0 R2) as (st3 & E3 & Hb3 & Ht3 & Htr3);
    [rewrite Ht2, Hb2; lia|].
  rewrite L1 in *. rewrite L2 in *. simpl in Hb1, Ht1, Htr1.
  assert (Hbase2 : ttl_roundno_base st2 = Z.of_nat n1) by congruence.
  rewrite Hbase2 in *. simpl in Ht3.
  assert (Efor : for_lines sink_mode initial_state stream = Done st3).
  { unfold stream. rewrite (for_lines_app _ _ _ _ _ E1). simpl.
    rewrite E2. exact E3. }
  assert (Etr : trace = map Z.of_nat (seq 1 n1) ++ [Z.of_nat n1]
                        ++ map (fun j => Z.of_nat n1 + Z.of_nat j) (seq 1 n2)).
  { unfold trace, stream. rewrite (ttl_round_trace_app _ _ _ _ _ E1).
    simpl. rewrite E2, Htr1, Htr3, Ht2, Ht1. reflexivity. }
  split; [exact Etr|]. split.
  { rewrite Etr. apply sorted_app.
    - change (map Z.of_nat (seq 1 n1))
        with (map (fun j => 0 + Z.of_nat j) (seq 1 n1)).
      apply sorted_rounds.
    - simpl. constructor; [apply sorted_rounds|].
      apply Forall_forall. intros y Hy. apply in_map_iff in Hy.
      destruct Hy as (j & <- & Hj). lia.
    - intros a b Ha Hb. apply in_map_iff in Ha. destruct Ha as (j & <- & Hj).
      apply in_seq in Hj. simpl in Hb. destruct Hb as [<-|Hb]; [lia|].
      apply in_map_iff in Hb. destruct Hb as (j' & <- & Hj'). lia. }
  unfold r, parse_log_in_stream. rewrite Efor. cbn [logged final].
  pose proof (after_loop_frame st3) as F. cbv zeta in F.
  destruct F as (_ & _ & _ & Fr & Ffd & Fb).
  split; [reflexivity|]. split; [rewrite Fr, Ht3; lia|]. split.
  { rewrite Ffd.
    assert (Hsy : synced st3).
    { unfold stream in Efor. destruct run1 as [|raw1 run1].
      - eapply for_lines_synced. simpl app in Efor. exact Efor.
      - eapply for_lines_synced. simpl app in Efor. exact Efor. }
    rewrite Hsy. simpl. f_equal. rewrite Ht3. lia. }
  split; [rewrite Fb; congruence|].
  intros st line Hl. unfold step_exit. rewrite Hl.
  repeat break_match; reflexivity.
Qed.

(** ** Errors *)

Lemma step_start_raised :
  forall st line e st', step_start st line = Raised e st' -> st' = st.
Proof.
  intros st line e st'. unfold step_start.
  repeat break_match; intros H; inversion H; reflexivity.
Qed.

Lemma step_cov_raised :
  forall st line e st', step_cov st line = Raised e st' -> st' = st.
Proof.
  intros st line e st'. unfold step_cov.
  repeat break_match; intros H; inversion H; reflexivity.
Qed.

Lemma step_artifact_raised :
  forall st line e st', step_artifact st line = Raised e st' -> st' = st.
Proof.
  intros st line e st'. unfold step_artifact.
  repeat break_match; intros H; inversion H; reflexivity.
Qed.

Lemma step_crash_raised :
  forall sink_mode st line e st',
    step_crash sink_mode st line = Raised e st' -> st' = st.
Proof.
  intros sink_mode st line e st'. unfold step_crash.
  destruct (_parse_crash_line line (initial_timestamp st))
    as [[[el crash]|]|err] eqn:Hp; intros H; try (inversion H; reflexivity).
  destruct (parse_crash_line_text _ _ _ _ Hp) as (g & ->).
  destruct (banner_text_classifies sink_mode g) as (_ & r & Hr).
  rewrite Hr in H. destruct r as [sa|]; [|discriminate].
  destruct (not_seen_or_sinkpoint _ sa); discriminate.
Qed.

(** A line that raises leaves the state as it found it. *)
Lemma loop_body_raised :
  forall sink_mode st raw e st',
    loop_body sink_mode st raw = Raised e st' -> st' = st.
Proof.
  intros sink_mode st raw e st' H. unfold loop_body in H.
  set (line := Py.strip raw) in *.
  destruct (extract_and_triage sink_mode st line) as [st1|e1 st1] eqn:E;
    cbn [and_then] in H; [discriminate|].
  inversion H; subst e1 st1. clear H.
  destruct (shape_dec line "O"%char) as [HO|HO].
  { rewrite (extract_start_line _ _ _ HO) in E.
    destruct (step_start st line) eqn:E1; cbn [and_then] in E; [discriminate|].
    inversion E; subst. eapply step_start_raised; exact E1. }
  destruct (shape_dec line "#"%char) as [HC|HC].
  { rewrite (extract_cov_line _ _ _ HC) in E.
    destruct (step_cov st line) eqn:E1; cbn [and_then] in E; [discriminate|].
    inversion E; subst. eapply step_cov_raised; exact E1. }
  destruct (shape_dec line "="%char) as [HE|HE].
  { rewrite (extract_crash_line _ _ _ HE) in E.
    destruct (step_crash sink_mode st line) eqn:E1; cbn [and_then] in E;
      [discriminate|].
    inversion E; subst. eapply step_crash_raised; exact E1. }
  destruct (shape_dec line "a"%char) as [HA|HA].
  { rewrite (extract_artifact_line _ _ _ HA) in E.
    destruct (step_artifact st line) eqn:E1; cbn [and_then] in E;
      [discriminate|].
    inversion E; subst. eapply step_artifact_raised; exact E1. }
  rewrite (extract_other_line _ _ _ HO HC HE HA) in E. discriminate.
Qed.


(** ** Lines with and without a timestamp *)

Lemma digit_head_not_special :
  forall c, Py.isdigit c = true ->
            c <> "@"%char /\ c <> "#"%char /\ c <> "="%char
            /\ c <> "a"%char /\ c <> "O"%char.
Proof.
  intros c. destruct c as [[] [] [] [] [] [] [] []]; vm_compute; intros H;
    try discriminate H; repeat split; discriminate.
Qed.

Lemma rstrip_app :
  forall a b,
    Py.rstrip b <> EmptyString ->
    Py.rstrip (a ++ b) = (a ++ Py.rstrip b)%string.
Proof.
  induction a as [|c a IH]; intros b H; simpl; [reflexivity|].
  rewrite (IH b H). destruct (a ++ Py.rstrip b)%string eqn:E; [|reflexivity].
  destruct a; simpl in E; [contradiction | discriminate].
Qed.

Lemma rstrip_idem : forall s, Py.rstrip (Py.rstrip s) = Py.rstrip s.
Proof.
  induction s as [|c s IH]; simpl; [reflexivity|].
  destruct (Py.rstrip s) as [|c' r] eqn:E.
  - destruct (Py.isspace c) eqn:Hc; simpl; [reflexivity|].
    rewrite Hc. reflexivity.
  - simpl. simpl in IH. rewrite IH. reflexivity.
Qed.

Lemma rstrip_digits_blank :
  forall ts,
    ts <> EmptyString -> all_digits ts = true ->
    Py.rstrip (ts ++ " ") = ts.
Proof.
  induction ts as [|c ts IH]; intros Hne H; [contradiction|].
  simpl in *. apply andb_true_iff in H. destruct H as [Hc Hts].
  destruct ts as [|c' ts].
  - simpl. rewrite (digit_not_space c Hc). reflexivity.
  - rewrite IH by (discriminate || assumption). reflexivity.
Qed.

Lemma lstrip_digits :
  forall ts s,
    ts <> EmptyString -> all_digits ts = true ->
    Py.lstrip (ts ++ s) = (ts ++ s)%string.
Proof.
  intros [|c ts] s Hne H; [contradiction|]. simpl in *.
  apply andb_true_iff in H. destruct H as [Hc _].
  rewrite (digit_not_space c Hc). reflexivity.
Qed.

(** The stripped form of a line with a timestamp: the timestamp alone when
    the legacy line is blank, else the timestamp, a blank and the stripped
    legacy line. *)
Lemma strip_with_timestamp :
  forall ts raw,
    ts <> EmptyString -> all_digits ts = true ->
    Py.strip (with_timestamp ts raw)
    = match Py.strip raw with
      | EmptyString => ts
      | s => (ts ++ String " " s)%string
      end.
Proof.
  intros ts raw Hne Hd. unfold with_timestamp, Py.strip at 1.
  rewrite (lstrip_digits ts _ Hne Hd).
  destruct (Py.strip raw) as [|c s] eqn:E.
  - apply (rstrip_digits_blank ts Hne Hd).
  - change (ts ++ String " " (String c s))%string
      with (ts ++ (String " " (String c s)))%string.
    assert (Hr : Py.rstrip (String c s) = String c s)
      by (rewrite <- E; unfold Py.strip; apply rstrip_idem).
    rewrite rstrip_app.
    + simpl Py.rstrip at 1. simpl in Hr. rewrite Hr. reflexivity.
    + simpl. simpl in Hr. rewrite Hr. discriminate.
Qed.

Lemma span_digits_timestamp :
  forall ts c s,
    all_digits ts = true -> Py.isdigit c = false ->
    span_digits (ts ++ String c s) = (ts, String c s).
Proof.
  induction ts as [|d ts IH]; intros c s H Hc; simpl in *.
  - rewrite Hc. reflexivity.
  - apply andb_true_iff in H. destruct H as [Hd Hts].
    rewrite Hd, (IH c s Hts Hc). reflexivity.
Qed.

Lemma timestamp_prefix_with :
  forall ts s,
    ts <> EmptyString -> all_digits ts = true ->
    timestamp_prefix (ts ++ String " " s) = Some (ts, s).
Proof.
  intros ts s Hne H. unfold timestamp_prefix.
  rewrite (span_digits_timestamp ts " " s H eq_refl).
  destruct ts; [contradiction | reflexivity].
Qed.

Lemma span_digits_all :
  forall ts, all_digits ts = true -> span_digits ts = (ts, EmptyString).
Proof.
  induction ts as [|d ts IH]; intros H; simpl in *; [reflexivity|].
  apply andb_true_iff in H. destruct H as [Hd Hts].
  rewrite Hd, (IH Hts). reflexivity.
Qed.

Lemma timestamp_prefix_digits :
  forall ts, all_digits ts = true -> timestamp_prefix ts = None.
Proof.
  intros ts H. unfold timestamp_prefix. rewrite (span_digits_all ts H).
  destruct ts; reflexivity.
Qed.

Section Naturality.

Context {A B : Type} (f : A -> B).

Lemma lit_map :
  forall p (k1 : @Re.cont B) (k2 : @Re.cont A),
    (forall s, k1 s = option_map f (k2 s)) ->
    forall s, Re.lit p k1 s = option_map f (Re.lit p k2 s).
Proof.
  induction p as [|a p IH]; intros k1 k2 H s; simpl; [apply H|].
  destruct s as [|b s]; [reflexivity|].
  destruct (Ascii.eqb a b); [apply IH; exact H | reflexivity].
Qed.

Lemma dotstar_map :
  forall (k1 : @Re.cont B) (k2 : @Re.cont A),
    (forall s, k1 s = option_map f (k2 s)) ->
    forall s, Re.dotstar k1 s = option_map f (Re.dotstar k2 s).
Proof.
  intros k1 k2 H. induction s as [|c s IH]; simpl; [apply H|].
  destruct (Py.isnewline c); [apply H|].
  rewrite IH. destruct (Re.dotstar k2 s); [reflexivity | apply H].
Qed.

Lemma dotstar_cap_map :
  forall (k1 : string -> @Re.cont B) (k2 : string -> @Re.cont A),
    (forall g s, k1 g s = option_map f (k2 g s)) ->
    forall s acc,
      Re.dotstar_cap k1 acc s = option_map f (Re.dotstar_cap k2 acc s).
Proof.
  intros k1 k2 H. induction s as [|c s IH]; intros acc; simpl; [apply H|].
  destruct (Py.isnewline c); [apply H|].
  rewrite IH. destruct (Re.dotstar_cap k2 _ s); [reflexivity | apply H].
Qed.

Lemma class0_map :
  forall C (k1 : string -> @Re.cont B) (k2 : string -> @Re.cont A),
    (forall g s, k1 g s = option_map f (k2 g s)) ->
    forall s acc,
      Re.class0 C k1 acc s = option_map f (Re.class0 C k2 acc s).
Proof.
  intros C k1 k2 H. induction s as [|c s IH]; intros acc; simpl; [apply H|].
  destruct (C c); [|apply H].
  rewrite IH. destruct (Re.class0 C k2 _ s); [reflexivity | apply H].
Qed.

Lemma class1_map :
  forall C (k1 : string -> @Re.cont B) (k2 : string -> @Re.cont A),
    (forall g s, k1 g s = option_map f (k2 g s)) ->
    forall s, Re.class1 C k1 s = option_map f (Re.class1 C k2 s).
Proof.
  intros C k1 k2 H [|c s]; simpl; [reflexivity|].
  destruct (C c); [apply class0_map; exact H | reflexivity].
Qed.

Lemma any1_map :
  forall (k1 : @Re.cont B) (k2 : @Re.cont A),
    (forall s, k1 s = option_map f (k2 s)) ->
    forall s, Re.any1 k1 s = option_map f (Re.any1 k2 s).
Proof.
  intros k1 k2 H [|c s]; simpl; [reflexivity|].
  destruct (Py.isnewline c); [reflexivity | apply H].
Qed.

End Naturality.

Section WithTimestamp.

(** [line] is the stripped line with a timestamp, [text] the stripped
    legacy line. *)
Variables (line ts text : string).
Hypothesis Hprefix : timestamp_prefix line = Some (ts, text).
Hypothesis Hlegacy : timestamp_prefix text = None.

Lemma cov_with_timestamp :
  LIBFUZZER_COV_LINE_PTRN line
  = option_map (fun g => match g with (a, b, c) => (ts, a, b, c) end)
      (OLD_LIBFUZZER_COV_LINE_PTRN text).
Proof.
  unfold LIBFUZZER_COV_LINE_PTRN, OLD_LIBFUZZER_COV_LINE_PTRN.
  rewrite digits1_space, Hprefix. unfold COV_BODY.
  apply lit_map. unfold Re.digits1. apply class1_map. intros g1.
  apply dotstar_map. apply lit_map. apply class1_map. intros g2.
  apply lit_map. apply class1_map. intros g3 s3. reflexivity.
Qed.

Lemma crash_with_timestamp :
  LIBFUZZER_CRASH_LINE_PTRN line
  = option_map (fun g => (ts, g)) (OLD_LIBFUZZER_CRASH_LINE_PTRN text).
Proof.
  unfold LIBFUZZER_CRASH_LINE_PTRN, OLD_LIBFUZZER_CRASH_LINE_PTRN.
  rewrite digits1_space, Hprefix. unfold CRASH_BODY.
  apply lit_map. intros s. apply dotstar_cap_map. intros g s'. reflexivity.
Qed.

Lemma artifact_with_timestamp :
  CRASH_ARTIFACT_LINE_PTRN line
  = option_map (fun g => (ts, g)) (OLD_CRASH_ARTIFACT_LINE_PTRN text).
Proof.
  unfold CRASH_ARTIFACT_LINE_PTRN, OLD_CRASH_ARTIFACT_LINE_PTRN.
  rewrite digits1_space, Hprefix. unfold ARTIFACT_BODY.
  apply lit_map. apply dotstar_map. apply lit_map. apply dotstar_map.
  apply lit_map. apply lit_map. apply class1_map. intros g s'. reflexivity.
Qed.

Lemma start_with_timestamp :
  FUZZ_START_LINE_PTRN line = None \/ FUZZ_START_LINE_PTRN line = Some ts.
Proof.
  unfold FUZZ_START_LINE_PTRN. rewrite digits1_space, Hprefix.
  assert (H : FUZZ_START_BODY (fun _ => Some ts) text
              = option_map (fun _ : unit => ts)
                  (FUZZ_START_BODY (fun _ => Some tt) text)).
  { unfold FUZZ_START_BODY. apply lit_map. apply any1_map. apply lit_map.
    apply any1_map. intros s. reflexivity. }
  rewrite H. destruct (FUZZ_START_BODY (fun _ => Some tt) text); auto.
Qed.

Lemma old_patterns_with_timestamp :
  OLD_LIBFUZZER_COV_LINE_PTRN line = None
  /\ OLD_LIBFUZZER_CRASH_LINE_PTRN line = None
  /\ OLD_CRASH_ARTIFACT_LINE_PTRN line = None.
Proof.
  destruct (timestamp_prefix_head _ _ _ Hprefix) as (c & s' & Heq & Hc).
  destruct (digit_head_not_special c Hc) as (_ & H1 & H2 & H3 & _).
  rewrite Heq. repeat split.
  - destruct (OLD_LIBFUZZER_COV_LINE_PTRN (String c s')) eqn:E;
      [|reflexivity].
    apply lit_head in E. inversion E. contradiction.
  - destruct (OLD_LIBFUZZER_CRASH_LINE_PTRN (String c s')) eqn:E;
      [|reflexivity].
    apply lit_head in E. inversion E. contradiction.
  - destruct (OLD_CRASH_ARTIFACT_LINE_PTRN (String c s')) eqn:E;
      [|reflexivity].
    apply lit_head in E. inversion E. contradiction.
Qed.

Lemma new_patterns_without_timestamp :
  FUZZ_START_LINE_PTRN text = None
  /\ LIBFUZZER_COV_LINE_PTRN text = None
  /\ LIBFUZZER_CRASH_LINE_PTRN text = None
  /\ CRASH_ARTIFACT_LINE_PTRN text = None.
Proof.
  unfold FUZZ_START_LINE_PTRN, LIBFUZZER_COV_LINE_PTRN,
    LIBFUZZER_CRASH_LINE_PTRN, CRASH_ARTIFACT_LINE_PTRN.
  rewrite !digits1_space, Hlegacy. repeat split.
Qed.

Variable v : Z.
Hypothesis Hint : Py.int ts = Ok v.

Lemma parse_cov_with_timestamp :
  forall t,
    _parse_cov_line line t
    = match _parse_cov_line text None with
      | Ok (Some (roundno, _, cov, ft)) =>
          Ok (Some (roundno, elapsed v t, cov, ft))
      | Ok None => Ok None
      | Raise e => Raise e
      end.
Proof.
  intros t. unfold _parse_cov_line.
  destruct new_patterns_without_timestamp as (_ & -> & _).
  destruct old_patterns_with_timestamp as (-> & _).
  rewrite cov_with_timestamp.
  destruct (OLD_LIBFUZZER_COV_LINE_PTRN text) as [[[g1 g2] g3]|];
    [|reflexivity].
  cbn [option_map]. rewrite Hint. cbn [rbind].
  destruct (Py.int g1); cbn [rbind]; [|reflexivity].
  destruct (Py.int g2); cbn [rbind]; [|reflexivity].
  destruct (Py.int g3); cbn [rbind]; reflexivity.
Qed.

Lemma parse_crash_with_timestamp :
  forall t,
    _parse_crash_line line t
    = match _parse_crash_line text None with
      | Ok (Some (_, crash)) => Ok (Some (elapsed v t, crash))
      | Ok None => Ok None
      | Raise e => Raise e
      end.
Proof.
  intros t. unfold _parse_crash_line.
  destruct new_patterns_without_timestamp as (_ & _ & -> & _).
  destruct old_patterns_with_timestamp as (_ & -> & _).
  rewrite crash_with_timestamp.
  destruct (OLD_LIBFUZZER_CRASH_LINE_PTRN text); [|reflexivity].
  cbn [option_map]. rewrite Hint. reflexivity.
Qed.

Lemma parse_artifact_with_timestamp :
  forall t,
    _parse_artifact_line line t
    = match _parse_artifact_line text None with
      | Ok (Some (_, artifact)) => Ok (Some (elapsed v t, artifact))
      | Ok None => Ok None
      | Raise e => Raise e
      end.
Proof.
  intros t. unfold _parse_artifact_line.
  destruct new_patterns_without_timestamp as (_ & _ & _ & ->).
  destruct old_patterns_with_timestamp as (_ & _ & ->).
  rewrite artifact_with_timestamp.
  destruct (OLD_CRASH_ARTIFACT_LINE_PTRN text); [|reflexivity].
  cbn [option_map]. rewrite Hint. reflexivity.
Qed.

End WithTimestamp.

Lemma exit_marker_skip :
  forall c s,
    c <> "@"%char ->
    Py.str_in JAZZER_EXIT_LOG (String c s) = Py.str_in JAZZER_EXIT_LOG s.
Proof.
  intros c s H. unfold JAZZER_EXIT_LOG. cbn [Py.str_in Py.startswith].
  destruct (Ascii.eqb "@" c) eqn:E; [|reflexivity].
  apply Ascii.eqb_eq in E. subst. contradiction.
Qed.

Lemma exit_marker_after_digits :
  forall ts s,
    all_digits ts = true ->
    Py.str_in JAZZER_EXIT_LOG (ts ++ s) = Py.str_in JAZZER_EXIT_LOG s.
Proof.
  induction ts as [|c ts IH]; intros s H; simpl in H; [reflexivity|].
  apply andb_true_iff in H. destruct H as [Hc Hts].
  change (String c ts ++ s)%string with (String c (ts ++ s)).
  rewrite exit_marker_skip by (apply (digit_head_not_special c Hc)).
  apply IH; exact Hts.
Qed.

Lemma int_valid_timestamp :
  forall ts, valid_timestamp ts -> Py.int ts = Ok (timestamp_value ts).
Proof.
  intros ts (_ & _ & Hl). unfold Py.int.
  replace (Py.int_max_str_digits <? String.length ts)%nat with false
    by (symmetry; apply Nat.ltb_ge; exact Hl).
  reflexivity.
Qed.

(** ** The two runs side by side *)

Lemma parse_cov_no_baseline :
  forall s roundno e cov ft,
    _parse_cov_line s None = Ok (Some (roundno, e, cov, ft)) -> e = None.
Proof.
  intros s roundno e cov ft. unfold _parse_cov_line, rbind, elapsed.
  repeat break_match; intros H; inversion H; reflexivity.
Qed.

Lemma parse_crash_no_baseline :
  forall s e crash, _parse_crash_line s None = Ok (Some (e, crash)) -> e = None.
Proof.
  intros s e crash. unfold _parse_crash_line, rbind, elapsed.
  repeat break_match; intros H; inversion H; reflexivity.
Qed.

Lemma parse_artifact_no_baseline :
  forall s e a, _parse_artifact_line s None = Ok (Some (e, a)) -> e = None.
Proof.
  intros s e a. unfold _parse_artifact_line, rbind, elapsed.
  repeat break_match; intros H; inversion H; reflexivity.
Qed.

Lemma same_but_time_later :
  forall now v l t, now <= v -> same_but_time now l t -> same_but_time v l t.
Proof.
  intros now v l t Hle H. destruct H. constructor; try assumption.
  intros p c Hin Hc. destruct (stamped_pending0 p c Hin Hc) as (t0 & H0 & H1).
  exists t0. split; [exact H0 | lia].
Qed.

Ltac same_fields H :=
  destruct H as [Hf Hpe Hse Hba Hin Hlc Hlf Hlr Hla Hlt Hlp Hno];
  unfold non_time in Hf;
  injection Hf as Hcov Hft Hcr Har Htr Hrd Hlco Hlft Hmco Hmft Hfd.

Lemma scan_all_eligible :
  forall e a rest st,
    (forall p, In p rest -> eligible e (crash_time_of p) = true) ->
    scan_pending e a rest st = fold_left (triage_one a) rest st
    /\ filter (ineligible e) rest = [].
Proof.
  induction rest as [|p rest IH]; intros st H; simpl; [auto|].
  unfold ineligible at 1. rewrite (H p (or_introl eq_refl)). simpl.
  apply IH. intros q Hq. apply H. right. exact Hq.
Qed.

Lemma triage_one_same :
  forall v a l t p q,
    pending_text p = pending_text q ->
    crash_time_of p = None ->
    same_but_time v l t ->
    same_but_time v (triage_one a l p) (triage_one a t q).
Proof.
  intros v a l t [[ct cr] sa] [[ct' cr'] sa'] Heq Hct H.
  simpl in Heq, Hct. inversion Heq; subst. unfold triage_one.
  assert (Hb : not_seen_or_sinkpoint l sa' = not_seen_or_sinkpoint t sa')
    by (unfold not_seen_or_sinkpoint; rewrite (same_seen _ _ _ H); reflexivity).
  rewrite Hb. destruct (not_seen_or_sinkpoint t sa'); [|exact H].
  same_fields H. constructor; cbn; try assumption.
  - unfold non_time. cbn. rewrite !map_app. cbn. congruence.
  - congruence.
  - apply Forall_app. split; [assumption | repeat constructor].
Qed.

Lemma fold_triage_same :
  forall v a pl pt l t,
    map pending_text pl = map pending_text pt ->
    Forall (fun p => crash_time_of p = None) pl ->
    same_but_time v l t ->
    same_but_time v (fold_left (triage_one a) pl l)
      (fold_left (triage_one a) pt t).
Proof.
  induction pl as [|p pl IH]; intros [|q pt] l t Hmap Hall H;
    simpl in Hmap; try discriminate; simpl; [exact H|].
  inversion Hmap. inversion Hall; subst.
  apply IH; try assumption. apply triage_one_same; assumption.
Qed.

Lemma set_pending_nil_same :
  forall v l t,
    same_but_time v l t ->
    same_but_time v (set_pending_crashes [] l) (set_pending_crashes [] t).
Proof.
  intros v l t H. same_fields H. constructor; cbn; try assumption.
  - unfold non_time. cbn. congruence.
  - reflexivity.
  - constructor.
  - intros p c [].
Qed.

Lemma same_sync_dump :
  forall v l t,
    same_but_time v l t ->
    same_but_time v (step_dump (sync_result l)) (step_dump (sync_result t)).
Proof.
  intros v l t H. same_fields H.
  unfold step_dump, dump_fuzz_data, fuzz_data_view, sync_result. cbn.
  destruct (need_dump l), (need_dump t); constructor; cbn; try assumption;
    unfold non_time; cbn; congruence.
Qed.

Section OneLine.

Variables (sink_mode line ts text : string) (v : Z).
Hypothesis Hprefix : timestamp_prefix line = Some (ts, text).
Hypothesis Hlegacy : timestamp_prefix text = None.
Hypothesis Hint : Py.int ts = Ok v.

Lemma same_start :
  forall l t,
    same_but_time v l t ->
    step_start l text = Done l
    /\ exists t', step_start t line = Done t' /\ same_but_time v l t'.
Proof.
  intros l t H. split.
  - unfold step_start.
    destruct (new_patterns_without_timestamp text Hlegacy) as (-> & _).
    destruct (initial_timestamp l); reflexivity.
  - unfold step_start. destruct (initial_timestamp t) as [t0|] eqn:E0;
      [exists t; auto|].
    destruct (start_with_timestamp line ts text Hprefix) as [-> | ->];
      [exists t; auto|].
    rewrite Hint. eexists. split; [reflexivity|].
    same_fields H. constructor; try assumption.
    + unfold non_time. cbn. congruence.
    + intros p c Hp Hc. cbn in Hp.
      destruct (Hno p c Hp Hc) as (t0 & H0 & _). congruence.
Qed.

Lemma same_cov :
  forall l t,
    same_but_time v l t ->
    same_outcome v (step_cov l text) (step_cov t line).
Proof.
  intros l t H. unfold step_cov.
  rewrite (parse_cov_with_timestamp line ts text Hprefix Hlegacy v Hint).
  rewrite (legacy_no_baseline _ _ _ H).
  destruct (_parse_cov_line text None) as [[[[[r e] c] f]|]|err] eqn:E;
    cbn [same_outcome]; [| exact H | reflexivity].
  apply parse_cov_no_baseline in E. subst e.
  same_fields H. constructor; cbn; try assumption.
  - unfold non_time. cbn. rewrite !map_app. cbn. congruence.
  - apply Forall_app. split; [assumption | repeat constructor].
  - apply Forall_app. split; [assumption | repeat constructor].
Qed.

Lemma same_crash :
  forall l t,
    same_but_time v l t ->
    same_outcome v (step_crash sink_mode l text) (step_crash sink_mode t line).
Proof.
  intros l t H. unfold step_crash.
  rewrite (parse_crash_with_timestamp line ts text Hprefix Hlegacy v Hint).
  rewrite (legacy_no_baseline _ _ _ H).
  destruct (_parse_crash_line text None) as [[[e crash]|]|err] eqn:E;
    cbn [same_outcome]; [| exact H | reflexivity].
  apply parse_crash_no_baseline in E. subst e.
  unfold not_seen_or_sinkpoint. cbn [seen_sanitizers set_log_crash_over_time].
  rewrite (same_seen _ _ _ H).
  same_fields H.
  destruct (crash_2_sanitizer sink_mode crash) as [[sa|]|err];
    [| |reflexivity].
  - destruct (negb (set_mem string_dec sa (seen_sanitizers t))
              || String.eqb sa SINKPOINT);
      constructor; cbn; try assumption.
    + unfold non_time. cbn. rewrite !map_app. cbn. congruence.
    + rewrite !map_app. cbn. congruence.
    + apply Forall_app. split; [assumption | repeat constructor].
    + apply Forall_app. split; [assumption | repeat constructor].
    + intros p c Hp Hc. apply in_app_or in Hp. destruct Hp as [Hp|[<-|[]]].
      * apply (Hno p c Hp Hc).
      * cbn in Hc. unfold elapsed in Hc.
        destruct (initial_timestamp t) as [t0|] eqn:E0; [|discriminate].
        inversion Hc; subst. exists t0. split; [exact E0 | lia].
    + unfold non_time. cbn. rewrite !map_app. cbn. congruence.
    + apply Forall_app. split; [assumption | repeat constructor].
  - constructor; cbn; try assumption.
    + unfold non_time. cbn. rewrite !map_app. cbn. congruence.
    + apply Forall_app. split; [assumption | repeat constructor].
Qed.

Lemma same_artifact :
  forall l t,
    same_but_time v l t ->
    same_outcome v (step_artifact l text) (step_artifact t line).
Proof.
  intros l t H. unfold step_artifact.
  rewrite (parse_artifact_with_timestamp line ts text Hprefix Hlegacy v Hint).
  rewrite (legacy_no_baseline _ _ _ H).
  destruct (_parse_artifact_line text None) as [[[e a]|]|err] eqn:E;
    cbn [same_outcome]; [| exact H | reflexivity].
  apply parse_artifact_no_baseline in E. subst e.
  rewrite !check_pending_all.
  set (l1 := set_artifact_over_time (artifact_over_time l ++ [(None, a)]) l).
  set (t1 := set_artifact_over_time
               (artifact_over_time t ++ [(elapsed v (initial_timestamp t), a)])
               t).
  assert (H1 : same_but_time v l1 t1).
  { same_fields H. constructor; cbn; try assumption.
    - unfold non_time. cbn. rewrite !map_app. cbn. congruence.
    - apply Forall_app. split; [assumption | repeat constructor]. }
  destruct (scan_all_eligible None a (pending_crashes l1) l1) as [-> ->];
    [intros; reflexivity|].
  destruct (scan_all_eligible (elapsed v (initial_timestamp t)) a
              (pending_crashes t1) t1) as [-> ->].
  { intros p Hp. destruct (crash_time_of p) as [c|] eqn:Hc.
    - destruct (stamped_pending _ _ _ H1 p c Hp Hc) as (t0 & H0 & Hle).
      cbn in H0. rewrite H0. cbn. apply Z.leb_le. lia.
    - destruct (elapsed v (initial_timestamp t)); reflexivity. }
  apply set_pending_nil_same. apply fold_triage_same.
  - exact (same_pending _ _ _ H1).
  - exact (legacy_pending _ _ _ H1).
  - exact H1.
Qed.

Hypothesis Hexit :
  Py.str_in JAZZER_EXIT_LOG line = Py.str_in JAZZER_EXIT_LOG text.

Lemma same_exit :
  forall l t,
    same_but_time v l t ->
    same_but_time v (step_exit l text) (step_exit t line).
Proof.
  intros l t H. unfold step_exit. rewrite Hexit.
  destruct (Py.str_in JAZZER_EXIT_LOG text); [|exact H].
  same_fields H.
  repeat match goal with
         | |- context [if ?b then _ else _] => destruct b
         end;
    constructor; cbn; try assumption; unfold non_time; cbn; congruence.
Qed.

Lemma same_line :
  forall l t,
    same_but_time v l t ->
    same_outcome v
      (st <~ extract_and_triage sink_mode l text ;;
       Done (step_dump (sync_result st)))
      (st <~ extract_and_triage sink_mode t line ;;
       Done (step_dump (sync_result st))).
Proof.
  intros l t H. unfold extract_and_triage.
  destruct (same_start l t H) as (-> & t1 & -> & H1). cbn [and_then].
  pose proof (same_cov l t1 H1) as H2.
  destruct (step_cov l text) as [l2|? ?], (step_cov t1 line) as [t2|? ?];
    cbn [same_outcome and_then] in *; try contradiction; [|exact H2].
  pose proof (same_crash l2 t2 H2) as H3.
  destruct (step_crash sink_mode l2 text) as [l3|? ?],
    (step_crash sink_mode t2 line) as [t3|? ?];
    cbn [same_outcome and_then] in *; try contradiction; [|exact H3].
  pose proof (same_artifact l3 t3 H3) as H4.
  destruct (step_artifact l3 text) as [l4|? ?],
    (step_artifact t3 line) as [t4|? ?];
    cbn [same_outcome and_then] in *; try contradiction; [|exact H4].
  apply same_sync_dump. apply same_exit. exact H4.
Qed.

End OneLine.

Lemma loop_body_blank_line :
  forall sink_mode st raw,
    Py.strip raw = EmptyString ->
    loop_body sink_mode st raw = Done (step_dump (sync_result st)).
Proof.
  intros sink_mode st raw E. unfold loop_body. rewrite E.
  rewrite extract_other_line by (cbv; discriminate). reflexivity.
Qed.

Lemma loop_body_bare_timestamp :
  forall sink_mode st raw ts,
    Py.strip raw = ts -> ts <> EmptyString -> all_digits ts = true ->
    loop_body sink_mode st raw = Done (step_dump (sync_result st)).
Proof.
  intros sink_mode st raw ts E Hne Hd. unfold loop_body. rewrite E.
  assert (Hs : exists c, shape ts = Some c /\ Py.isdigit c = true).
  { unfold shape. rewrite (timestamp_prefix_digits ts Hd).
    destruct ts as [|c ts]; [contradiction|]. simpl in Hd.
    apply andb_true_iff in Hd. exists c. split; [reflexivity | apply Hd]. }
  destruct Hs as (c & Hs & Hc).
  destruct (digit_head_not_special c Hc) as (_ & H1 & H2 & H3 & H4).
  rewrite extract_other_line by (rewrite Hs; congruence).
  cbn [and_then]. unfold step_exit.
  replace (Py.str_in JAZZER_EXIT_LOG ts) with false; [reflexivity|].
  rewrite <- (string_app_nil_r ts).
  rewrite (exit_marker_after_digits ts EmptyString Hd). reflexivity.
Qed.

Lemma same_loop_body :
  forall sink_mode now ts raw l t,
    valid_timestamp ts -> legacy_line raw -> now <= timestamp_value ts ->
    same_but_time now l t ->
    same_outcome (timestamp_value ts) (loop_body sink_mode l raw)
      (loop_body sink_mode t (with_timestamp ts raw)).
Proof.
  intros sink_mode now ts raw l t Hv Hl Hle H.
  apply (same_but_time_later now (timestamp_value ts) l t Hle) in H.
  destruct Hv as (Hne & Hd & Hlen).
  pose proof (strip_with_timestamp ts raw Hne Hd) as Es.
  destruct (Py.strip raw) as [|c s] eqn:E.
  - rewrite (loop_body_blank_line _ _ _ E).
    rewrite (loop_body_bare_timestamp _ _ _ ts Es Hne Hd).
    cbn [same_outcome]. apply same_sync_dump. exact H.
  - unfold loop_body. rewrite Es, E. unfold legacy_line in Hl. rewrite E in Hl.
    apply (same_line sink_mode _ ts (String c s) (timestamp_value ts)).
    + apply timestamp_prefix_with; assumption.
    + exact Hl.
    + apply int_valid_timestamp. repeat split; assumption.
    + rewrite (exit_marker_after_digits ts _ Hd).
      apply exit_marker_skip. discriminate.
    + exact H.
Qed.

Lemma same_for_lines :
  forall sink_mode ls now l t,
    stamps_from now ls ->
    same_but_time now l t ->
    match for_lines sink_mode l (legacy_stream ls),
          for_lines sink_mode t (timestamped_stream ls) with
    | Done a, Done b => exists v, same_but_time v a b
    | Raised e a, Raised e' b => e = e' /\ exists v, same_but_time v a b
    | _, _ => False
    end.
Proof.
  induction ls as [|[ts raw] ls IH]; intros now l t Hst H.
  - simpl. exists now. exact H.
  - destruct Hst as (Hv & Hl & Hle & Hrest). simpl.
    pose proof (same_loop_body sink_mode now ts raw l t Hv Hl Hle H) as Hb.
    destruct (loop_body sink_mode l raw) as [l1|e l1] eqn:El,
      (loop_body sink_mode t (with_timestamp ts raw)) as [t1|e' t1] eqn:Et;
      cbn [same_outcome] in Hb; try contradiction.
    + apply (IH (timestamp_value ts)); assumption.
    + split; [exact Hb|].
      apply loop_body_raised in El. apply loop_body_raised in Et. subst.
      exists now. exact H.
Qed.

Lemma initial_same : forall now, same_but_time now initial_state initial_state.
Proof.
  intros now. constructor; try reflexivity; try constructor.
  intros p c [].
Qed.

Lemma after_loop_non_time :
  forall st,
    non_time (after_loop st) = non_time st
    /\ times_of (after_loop st) = times_of st.
Proof.
  intros st. unfold after_loop.
  destruct (0 <? List.length (fuzz_statuses st))%nat; split; reflexivity.
Qed.

Lemma same_times_unknown :
  forall v l t,
    same_but_time v l t -> Forall (fun x => x = None) (times_of l).
Proof.
  intros v l t H. destruct H. unfold times_of.
  repeat (apply Forall_app; split);
    apply Forall_forall; intros x Hx; apply in_map_iff in Hx;
    destruct Hx as (y & <- & Hy).
  - rewrite Forall_forall in legacy_cov0. apply (legacy_cov0 y Hy).
  - rewrite Forall_forall in legacy_ft0. apply (legacy_ft0 y Hy).
  - rewrite Forall_forall in legacy_crashes0. apply (legacy_crashes0 y Hy).
  - rewrite Forall_forall in legacy_artifacts0. apply (legacy_artifacts0 y Hy).
  - rewrite Forall_forall in legacy_triaged0. apply (legacy_triaged0 y Hy).
Qed.

Lemma stamps_from_sorted :
  forall ls now,
    Forall legacy_line (legacy_stream ls) ->
    Forall valid_timestamp (map fst ls) ->
    StronglySorted Z.le (map timestamp_value (map fst ls)) ->
    Forall (fun p => now <= timestamp_value (fst p)) ls ->
    stamps_from now ls.
Proof.
  induction ls as [|[ts raw] ls IH]; intros now Hl Hv Hs Hn; simpl; [exact I|].
  simpl in *. inversion Hl; inversion Hv; inversion Hn; subst.
  inversion Hs as [|? ? Hs' Hf]; subst.
  split; [assumption|]. split; [assumption|]. split; [assumption|].
  apply IH; try assumption.
  apply Forall_forall. intros p Hp. rewrite Forall_forall in Hf. apply Hf.
  apply in_map. apply in_map. exact Hp.
Qed.

Lemma stamps_from_zero :
  forall ls,
    Forall legacy_line (legacy_stream ls) ->
    stamps_from 0 (map (fun p => ("0", snd p)) ls).
Proof.
  induction ls as [|[ts raw] ls IH]; intros Hl; simpl; [exact I|].
  simpl in Hl. inversion Hl; subst.
  split; [repeat split; [discriminate | unfold Py.int_max_str_digits; simpl; lia]|].
  split; [assumption|]. split; [reflexivity|]. apply IH; assumption.
Qed.

Lemma legacy_stream_zero :
  forall ls : stamped_stream,
    legacy_stream (map (fun p => ("0", snd p)) ls) = legacy_stream ls.
Proof.
  intros ls. unfold legacy_stream. rewrite map_map. reflexivity.
Qed.

(** C8, as stated, fails.  With a run-start line the elapsed times of the
    timestamped stream are known, and an artifact line stamped earlier than
    the pending crash is not matched with it: the legacy stream triages the
    crash, the timestamped stream does not. *)
Lemma timestamps_change_the_triage :
  Forall legacy_line (legacy_stream out_of_order)
  /\ map triaged_text
       (log_triage_crash_over_time
          (final (parse_log_in_stream EmptyString
                    (legacy_stream out_of_order))))
     = [("FuzzerSecurityIssueHigh: SQL Injection", sql_crash_line,
         "crash-abc123")]
  /\ log_triage_crash_over_time
       (final (parse_log_in_stream EmptyString
                 (timestamped_stream out_of_order))) = []
  /\ non_time
       (final (parse_log_in_stream EmptyString (legacy_stream out_of_order)))
     <> non_time
          (final (parse_log_in_stream EmptyString
                    (timestamped_stream out_of_order))).
Proof.
  split; [repeat constructor|].
  split; [vm_compute; reflexivity|].
  split; [vm_compute; reflexivity|].
  intros H. apply (f_equal nt_triaged) in H. vm_compute in H. discriminate H.
Qed.

(** C8, amended.  A stream of legacy-format lines is processed with every
    elapsed time of the summary unknown.  When the timestamps put before
    its lines are well formed (digits, no more than [int] converts) and do
    not decrease in arrival order, the corresponding timestamped stream
    ends in the same way (normally or with the same error) and with the
    same non-time fields: coverage and feature values, crash texts, classes
    and artifact names of the triaged crashes, round counter, last and
    maximal values, and the synced integers. *)
Theorem legacy_stream_same_but_time :
  forall sink_mode ls,
    Forall legacy_line (legacy_stream ls) ->
    let rl := parse_log_in_stream sink_mode (legacy_stream ls) in
    Forall (fun x => x = None) (times_of (final rl))
    /\ (Forall valid_timestamp (map fst ls) ->
        StronglySorted Z.le (map timestamp_value (map fst ls)) ->
        let rt := parse_log_in_stream sink_mode (timestamped_stream ls) in
        logged rl = logged rt /\ non_time (final rl) = non_time (final rt)).
Proof.
  intros sink_mode ls Hl rl. split.
  - pose proof (same_for_lines sink_mode _ 0 initial_state initial_state
                  (stamps_from_zero ls Hl) (initial_same 0)) as H.
    rewrite legacy_stream_zero in H. unfold rl, parse_log_in_stream.
    destruct (for_lines sink_mode initial_state (legacy_stream ls))
      as [a|e a];
      destruct (for_lines sink_mode initial_state
                  (timestamped_stream (map (fun p => ("0", snd p)) ls)))
      as [b|e' b]; try contradiction; cbn [final].
    + destruct H as (v & H).
      rewrite (proj2 (after_loop_non_time a)).
      eapply same_times_unknown; exact H.
    + destruct H as (_ & v & H). eapply same_times_unknown; exact H.
  - intros Hv Hs rt.
    set (now := match ls with
                | [] => 0
                | p :: _ => timestamp_value (fst p)
                end).
    assert (Hst : stamps_from now ls).
    { apply stamps_from_sorted; try assumption.
      destruct ls as [|p ls]; [constructor|].
      simpl in Hs. inversion Hs as [|? ? Hs' Hf]; subst.
      constructor; [simpl; lia|].
      apply Forall_forall. intros q Hq. rewrite Forall_forall in Hf.
      apply Hf. apply in_map. apply in_map. exact Hq. }
    pose proof (same_for_lines sink_mode ls now initial_state initial_state
                  Hst (initial_same now)) as H.
    unfold rl, rt, parse_log_in_stream.
    destruct (for_lines sink_mode initial_state (legacy_stream ls))
      as [a|e a];
      destruct (for_lines sink_mode initial_state (timestamped_stream ls))
      as [b|e' b]; try contradiction; cbn [final logged].
    + destruct H as (v & H). split; [reflexivity|].
      rewrite (proj1 (after_loop_non_time a)), (proj1 (after_loop_non_time b)).
      exact (same_fields _ _ _ H).
    + destruct H as (-> & v & H). split; [reflexivity|].
      exact (same_fields _ _ _ H).
Qed.

(** ** The theorems at sample inputs *)

Lemma round_counter_across_runs_witness :
  engine_run first_run 2 /\ engine_run second_run 3
  /\ exit_marker_line sample_exit_line
  /\ ttl_round_trace EmptyString initial_state
       (first_run ++ sample_exit_line :: second_run)
     = map Z.of_nat (seq 1 2) ++ [Z.of_nat 2]
       ++ map (fun j => Z.of_nat 2 + Z.of_nat j) (seq 1 3).
Proof.
  assert (H1 : engine_run first_run 2).
  { split; [reflexivity|]. simpl. repeat split; try reflexivity;
      intros t; eexists _, _, _; cbv; reflexivity. }
  assert (H2 : engine_run second_run 3).
  { split; [reflexivity|]. simpl. repeat split; try reflexivity;
      intros t; eexists _, _, _; cbv; reflexivity. }
  assert (H3 : exit_marker_line sample_exit_line)
    by (repeat split; reflexivity).
  split; [exact H1|]. split; [exact H2|]. split; [exact H3|].
  exact (proj1 (round_counter_across_runs EmptyString first_run second_run
                  sample_exit_line 2 3 H1 H2 H3)).
Defined.

Lemma legacy_stream_same_but_time_witness :
  Forall legacy_line (legacy_stream in_order)
  /\ Forall valid_timestamp (map fst in_order)
  /\ StronglySorted Z.le (map timestamp_value (map fst in_order))
  /\ non_time
       (final (parse_log_in_stream EmptyString (legacy_stream in_order)))
     = non_time
         (final (parse_log_in_stream EmptyString
                   (timestamped_stream in_order))).
Proof.
  assert (H1 : Forall legacy_line (legacy_stream in_order))
    by (repeat constructor).
  assert (H2 : Forall valid_timestamp (map fst in_order)).
  { repeat constructor; try discriminate;
      unfold Py.int_max_str_digits; simpl; lia. }
  assert (H3 : StronglySorted Z.le (map timestamp_value (map fst in_order))).
  { vm_compute map. repeat constructor; lia. }
  split; [exact H1|]. split; [exact H2|]. split; [exact H3|].
  exact (proj2 (proj2 (legacy_stream_same_but_time EmptyString in_order H1)
                  H2 H3)).
Defined.

Lemma at_most_one_triaged_per_class_witness :
  "FuzzerSecurityIssueHigh: SQL Injection" <> SINKPOINT
  /\ (count_class "FuzzerSecurityIssueHigh: SQL Injection"
        (log_triage_crash_over_time
           (final (parse_log_in_stream EmptyString
                     [sql_crash_line; sample_artifact_line;
                      sql_crash_line; sample_artifact_line]))) <= 1)%nat.
Proof.
  split; [discriminate|].
  apply (at_most_one_triaged_per_class EmptyString
           [sql_crash_line; sample_artifact_line;
            sql_crash_line; sample_artifact_line]
           "FuzzerSecurityIssueHigh: SQL Injection").
  discriminate.
Defined.

Lemma artifact_removes_exactly_eligible_witness :
  _parse_artifact_line late_artifact_line (initial_timestamp two_pending)
  = Ok (Some (Some 10, "crash-abc123"))
  /\ pending_crashes two_pending
     = [ (Some 20, sql_crash_line, "FuzzerSecurityIssueHigh: SQL Injection");
         (Some 5, ldap_crash_text,
          "FuzzerSecurityIssueCritical: LDAP Injection") ]
  /\ exists st',
      step_artifact two_pending late_artifact_line = Done st'
      /\ pending_crashes st'
         = [ (Some 20, sql_crash_line,
              "FuzzerSecurityIssueHigh: SQL Injection") ]
      /\ log_triage_crash_over_time st'
         = [ (Some 5, "FuzzerSecurityIssueCritical: LDAP Injection",
              ldap_crash_text, "crash-abc123") ].
Proof.
  split; [vm_compute; reflexivity|]. split; [vm_compute; reflexivity|].
  destruct (artifact_removes_exactly_eligible two_pending late_artifact_line
              (Some 10) "crash-abc123") as (st' & H1 & H2 & _ & H4 & _).
  - vm_compute; reflexivity.
  - exists st'. split; [exact H1|]. split.
    + rewrite H2. vm_compute. reflexivity.
    + rewrite H4. vm_compute. reflexivity.
Defined.

Lemma classification_first_matching_label_witness :
  is_of_jazzer_sink EmptyString sql_crash_line = false
  /\ is_interesting_crash sql_crash_line = Ok true
  /\ exists r,
      crash_2_sanitizer EmptyString sql_crash_line = Ok (Some r)
      /\ ((exists pre post,
             SANITIZERS = pre ++ r :: post
             /\ label_matches sql_crash_line r = true
             /\ forall x, In x pre -> label_matches sql_crash_line x = false)
          \/ (r = UNKNOWN_SANITIZER
              /\ forall x, In x SANITIZERS ->
                           label_matches sql_crash_line x = false)).
Proof.
  split; [reflexivity|]. split; [reflexivity|].
  apply (classification_first_matching_label EmptyString sql_crash_line);
    reflexivity.
Defined.

Lemma crash_queued_unless_seen_witness :
  _parse_crash_line sql_crash_line (initial_timestamp initial_state)
  = Ok (Some (None, sql_crash_line))
  /\ crash_2_sanitizer EmptyString sql_crash_line
     = Ok (Some "FuzzerSecurityIssueHigh: SQL Injection")
  /\ exists st',
      step_crash EmptyString initial_state sql_crash_line = Done st'
      /\ log_crash_over_time st' = [(None, sql_crash_line)].
Proof.
  split; [reflexivity|]. split; [reflexivity|].
  destruct (crash_queued_unless_seen EmptyString initial_state sql_crash_line
              None sql_crash_line "FuzzerSecurityIssueHigh: SQL Injection")
    as (st' & H1 & H2 & _); [reflexivity | reflexivity |].
  exists st'. split; [exact H1 | exact H2].
Defined.

Lemma start_line_counts_once_witness :
  (initial_timestamp initial_state = None
   /\ FUZZ_START_LINE_PTRN (Py.strip start_line_1000) = Some "1000"
   /\ Py.int "1000" = Ok 1000
   /\ exists st1 st' d,
       extract_and_triage EmptyString initial_state (Py.strip start_line_1000)
       = Done st1
       /\ need_dump st1 = true
       /\ loop_body EmptyString initial_state start_line_1000 = Done st'
       /\ initial_timestamp st' = Some 1000
       /\ dumps st' = dumps initial_state ++ [d])
  /\ (initial_timestamp after_first_start = Some 1000
      /\ FUZZ_START_LINE_PTRN (Py.strip start_line_2000) = Some "2000"
      /\ exists st1 st',
          extract_and_triage EmptyString after_first_start
            (Py.strip start_line_2000) = Done st1
          /\ need_dump st1 = need_dump after_first_start
          /\ loop_body EmptyString after_first_start start_line_2000 = Done st'
          /\ initial_timestamp st' = Some 1000
          /\ (need_dump after_first_start = false ->
              dumps st' = dumps after_first_start)).
Proof.
  split.
  - split; [reflexivity|]. split; [vm_compute; reflexivity|].
    split; [reflexivity|].
    apply (proj1 start_line_counts_once EmptyString initial_state
             start_line_1000 "1000" 1000);
      [reflexivity | vm_compute; reflexivity | reflexivity].
  - split; [vm_compute; reflexivity|]. split; [vm_compute; reflexivity|].
    apply (proj2 start_line_counts_once EmptyString after_first_start
             start_line_2000 "2000" 1000);
      vm_compute; reflexivity.
Defined.

Lemma extracted_crash_classifies_witness :
  _parse_crash_line ("1015 " ++ sql_crash_line)%string (Some 1000)
  = Ok (Some (Some 15, sql_crash_line))
  /\ exists r, crash_2_sanitizer EmptyString sql_crash_line = Ok r.
Proof.
  split; [vm_compute; reflexivity|].
  exact (proj2 (proj2 (proj2 (proj2
           (extracted_crash_classifies EmptyString
              ("1015 " ++ sql_crash_line)%string (Some 1000) (Some 15)
              sql_crash_line ltac:(vm_compute; reflexivity)))))).
Defined.


(** * Further properties of the processor *)

(** ** Invariants of the loop *)

Lemma step_artifact_done :
  forall st line st',
    step_artifact st line = Done st' ->
    st' = st
    \/ exists e a,
        _parse_artifact_line line (initial_timestamp st) = Ok (Some (e, a))
        /\ st' = set_pending_crashes
                   (filter (ineligible e) (pending_crashes st))
                   (scan_pending e a (pending_crashes st)
                      (set_artifact_over_time
                         (artifact_over_time st ++ [(e, a)]) st)).
Proof.
  intros st line st'. unfold step_artifact.
  destruct (_parse_artifact_line line (initial_timestamp st))
    as [[[e a]|]|err]; intros H; inversion H as [H1]; [|left; reflexivity].
  right. exists e, a. split; [reflexivity|].
  exact (check_pending_all e a
           (set_artifact_over_time (artifact_over_time st ++ [(e, a)]) st)).
Qed.

Section Invariants.

Variable sink_mode : string.
Variable P : state -> Prop.

Hypothesis P_start :
  forall st line st', P st -> step_start st line = Done st' -> P st'.
Hypothesis P_cov :
  forall st line st', P st -> step_cov st line = Done st' -> P st'.
Hypothesis P_crash :
  forall st line st', P st -> step_crash sink_mode st line = Done st' -> P st'.
Hypothesis P_artifact :
  forall st line st', P st -> step_artifact st line = Done st' -> P st'.
Hypothesis P_exit : forall st line, P st -> P (step_exit st line).

Lemma extract_and_triage_invariant :
  forall st line st',
    P st -> extract_and_triage sink_mode st line = Done st' -> P st'.
Proof.
  intros st line st' H E. unfold extract_and_triage in E.
  destruct (step_start st line) as [s1|] eqn:E1; cbn [and_then] in E;
    [|discriminate].
  destruct (step_cov s1 line) as [s2|] eqn:E2; cbn [and_then] in E;
    [|discriminate].
  destruct (step_crash sink_mode s2 line) as [s3|] eqn:E3;
    cbn [and_then] in E; [|discriminate].
  destruct (step_artifact s3 line) as [s4|] eqn:E4; cbn [and_then] in E;
    [|discriminate].
  inversion E; subst. apply P_exit.
  apply (P_artifact s3 line _ (P_crash s2 line _ (P_cov s1 line _
           (P_start st line _ H E1) E2) E3) E4).
Qed.

Hypothesis P_sync : forall st, P st -> P (step_dump (sync_result st)).

Lemma loop_body_invariant :
  forall st raw st', P st -> loop_body sink_mode st raw = Done st' -> P st'.
Proof.
  intros st raw st' H E. unfold loop_body in E.
  destruct (extract_and_triage sink_mode st (Py.strip raw)) as [s1|] eqn:E1;
    cbn [and_then] in E; [|discriminate].
  inversion E; subst. apply P_sync.
  exact (extract_and_triage_invariant st (Py.strip raw) s1 H E1).
Qed.

Lemma for_lines_invariant :
  forall file_obj st,
    P st -> P (outcome_state (for_lines sink_mode st file_obj)).
Proof.
  induction file_obj as [|raw rest IH]; intros st H; simpl; [exact H|].
  destruct (loop_body sink_mode st raw) as [st1|e st1] eqn:E.
  - apply IH. exact (loop_body_invariant st raw st1 H E).
  - apply loop_body_raised in E. subst. exact H.
Qed.

Hypothesis P_after : forall st, P st -> P (after_loop st).

Lemma parse_invariant :
  forall file_obj,
    P initial_state -> P (final (parse_log_in_stream sink_mode file_obj)).
Proof.
  intros file_obj H. unfold parse_log_in_stream.
  pose proof (for_lines_invariant file_obj initial_state H) as H1.
  destruct (for_lines sink_mode initial_state file_obj);
    cbn [outcome_state final] in *; [apply P_after|]; exact H1.
Qed.

End Invariants.

(** ** One event per line *)

(** X1. The cases 1 to 4 of the loop body exclude each other: a line is a
    run-start line, a coverage line, a crash line or an artifact line, never
    two of them (a parser that raises on the line counts as matching). *)
Theorem one_event_kind_per_line :
  forall line t,
    let is_start := FUZZ_START_LINE_PTRN line <> None in
    let is_cov := _parse_cov_line line t <> Ok None in
    let is_crash := _parse_crash_line line t <> Ok None in
    let is_artifact := _parse_artifact_line line t <> Ok None in
    (is_start -> ~ is_cov /\ ~ is_crash /\ ~ is_artifact)
    /\ (is_cov -> ~ is_crash /\ ~ is_artifact)
    /\ (is_crash -> ~ is_artifact).
Proof.
  intros line t is_start is_cov is_crash is_artifact.
  unfold is_start, is_cov, is_crash, is_artifact.
  split; [|split].
  - intros H. destruct (FUZZ_START_LINE_PTRN line) eqn:E; [|congruence].
    apply start_shape in E.
    repeat split; intros H'.
    + apply cov_is_shape in H'. congruence.
    + apply crash_is_shape in H'. congruence.
    + apply artifact_is_shape in H'. congruence.
  - intros H. apply cov_is_shape in H. split; intros H'.
    + apply crash_is_shape in H'. congruence.
    + apply artifact_is_shape in H'. congruence.
  - intros H. apply crash_is_shape in H. intros H'.
    apply artifact_is_shape in H'. congruence.
Qed.

(** ** Errors of the classifier *)

Lemma split_field_1 :
  forall s,
    nth_error (Py.split ":"%char s) 1 = None <-> Py.str_in ":" s = false.
Proof.
  induction s as [|c s IH]; [split; reflexivity|].
  assert (Hin : Py.str_in ":" (String c s)
                = Ascii.eqb c ":"%char || Py.str_in ":" s).
  { cbn [Py.str_in Py.startswith]. rewrite (Ascii.eqb_sym ":"%char c).
    destruct (Ascii.eqb c ":"%char); reflexivity. }
  rewrite Hin. cbn [Py.split].
  destruct (Ascii.eqb c ":"%char) eqn:E.
  - destruct (Py.split ":"%char s) eqn:Es;
      [elim (split_nonempty _ _ Es)|].
    split; discriminate.
  - destruct (Py.split ":"%char s) as [|f fs] eqn:Es;
      [elim (split_nonempty _ _ Es)|].
    exact IH.
Qed.

Lemma is_interesting_crash_result :
  forall crash,
    match nth_error (Py.split ":"%char crash) 1 with
    | None => is_interesting_crash crash = Raise IndexError
    | Some field =>
        is_interesting_crash crash
        = Ok (Py.str_in "code_intelligence" field
              && negb (Py.str_in "Stack overflow (use " crash)
              && negb (Py.str_in "Out of memory" crash))
    end.
Proof.
  intros crash. unfold is_interesting_crash, checkers, run_checkers, rbind.
  destruct (nth_error (Py.split ":"%char crash) 1) as [field|];
    [|reflexivity].
  destruct (Py.str_in "code_intelligence" field),
    (Py.str_in "Stack overflow (use " crash),
    (Py.str_in "Out of memory" crash); reflexivity.
Qed.

(** X2. [is_interesting_crash] raises [IndexError] exactly on a text
    without a colon; [crash_2_sanitizer] raises nothing else, and raises
    exactly on a text without a colon that is not a sink hit. *)
Theorem classifier_raises_without_colon :
  forall sink_mode crash,
    (is_interesting_crash crash = Raise IndexError
     <-> Py.str_in ":" crash = false)
    /\ (crash_2_sanitizer sink_mode crash = Raise IndexError
        <-> is_of_jazzer_sink sink_mode crash = false
            /\ Py.str_in ":" crash = false)
    /\ (forall e, crash_2_sanitizer sink_mode crash = Raise e -> e = IndexError).
Proof.
  intros sink_mode crash.
  pose proof (is_interesting_crash_result crash) as Hi.
  pose proof (split_field_1 crash) as Hs.
  unfold crash_2_sanitizer.
  destruct (nth_error (Py.split ":"%char crash) 1) as [field|].
  - assert (Hc : Py.str_in ":" crash = true).
    { destruct (Py.str_in ":" crash); [reflexivity|].
      destruct Hs as [_ Hs]. discriminate (Hs eq_refl). }
    rewrite Hi, Hc. cbn [rbind].
    split; [split; discriminate|]. split.
    + split; [|intros [_ H]; discriminate].
      destruct (is_of_jazzer_sink sink_mode crash); [discriminate|].
      repeat break_match; discriminate.
    + intros e. destruct (is_of_jazzer_sink sink_mode crash); [discriminate|].
      repeat break_match; discriminate.
  - destruct Hs as [Hs _]. rewrite Hi, (Hs eq_refl). cbn [rbind].
    split; [split; reflexivity|].
    destruct (is_of_jazzer_sink sink_mode crash); split.
    + split; [discriminate | intros [H _]; discriminate].
    + intros e H; discriminate.
    + split; auto.
    + intros e H. inversion H. reflexivity.
Qed.

Lemma step_exit_lists :
  forall st line,
    let st' := step_exit st line in
    cov_over_time st' = cov_over_time st
    /\ ft_over_time st' = ft_over_time st
    /\ log_crash_over_time st' = log_crash_over_time st
    /\ artifact_over_time st' = artifact_over_time st
    /\ last_cov st' = last_cov st /\ last_ft st' = last_ft st
    /\ max_cov st' = max_cov st /\ max_ft st' = max_ft st.
Proof.
  intros. unfold st', step_exit. repeat break_match; repeat split; reflexivity.
Qed.

(** ** Crashes that are filtered out *)

(** X3. A crash line whose text is not a sink hit and mentions a stack
    overflow or an out-of-memory condition, or whose second colon-delimited
    field lacks [code_intelligence], is classified [None]: the line is
    recorded in [log_crash_over_time] and changes neither the pending queue,
    nor the triage list, nor the seen classes. *)
Theorem uninteresting_crash_not_queued :
  forall sink_mode st raw e crash,
    _parse_crash_line (Py.strip raw) (initial_timestamp st)
    = Ok (Some (e, crash)) ->
    is_of_jazzer_sink sink_mode crash = false ->
    Py.str_in "Stack overflow (use " crash = true
    \/ Py.str_in "Out of memory" crash = true
    \/ (exists field,
          nth_error (Py.split ":"%char crash) 1 = Some field
          /\ Py.str_in "code_intelligence" field = false) ->
    crash_2_sanitizer sink_mode crash = Ok None
    /\ exists st',
        loop_body sink_mode st raw = Done st'
        /\ log_crash_over_time st' = log_crash_over_time st ++ [(e, crash)]
        /\ pending_crashes st' = pending_crashes st
        /\ log_triage_crash_over_time st' = log_triage_crash_over_time st
        /\ seen_sanitizers st' = seen_sanitizers st.
Proof.
  intros sink_mode st raw e crash Hp Hsink Hwhy.
  assert (Hc : crash_2_sanitizer sink_mode crash = Ok None).
  { destruct (parse_crash_line_text _ _ _ _ Hp) as (g & Hg).
    destruct (banner_has_field_1 g) as (field & Hf). rewrite <- Hg in Hf.
    pose proof (is_interesting_crash_result crash) as Hi. rewrite Hf in Hi.
    unfold crash_2_sanitizer. rewrite Hsink, Hi. cbn [rbind].
    destruct Hwhy as [H|[H|(field' & Hf' & H)]].
    - rewrite H. rewrite andb_false_r. reflexivity.
    - rewrite H. rewrite andb_false_r. reflexivity.
    - rewrite Hf in Hf'. inversion Hf'; subst. rewrite H. reflexivity. }
  split; [exact Hc|].
  assert (Hs : shape (Py.strip raw) = Some "="%char)
    by (apply (crash_is_shape _ (initial_timestamp st)); rewrite Hp;
        discriminate).
  unfold loop_body. rewrite (extract_crash_line _ _ _ Hs).
  unfold step_crash. rewrite Hp, Hc. cbn [and_then].
  match goal with
  | |- context [step_exit ?s ?l] =>
      pose proof (step_exit_frame s l) as F; cbv zeta in F;
      destruct F as (Ft & Fs & Fp & _);
      pose proof (step_exit_lists s l) as L; cbv zeta in L;
      destruct L as (_ & _ & Lc & _);
      pose proof (sync_dump_frame (step_exit s l)) as G; cbv zeta in G;
      destruct G as (Gt & Gs & Gp & _ & _ & _ & _ & _ & Gc & _);
      exists (step_dump (sync_result (step_exit s l)))
  end.
  split; [reflexivity|].
  rewrite Gc, Gp, Gt, Gs, Lc, Fp, Ft, Fs. repeat split; reflexivity.
Qed.

(** ** The classes of the triaged crashes *)

Lemma crash_2_sanitizer_range :
  forall sink_mode crash c,
    crash_2_sanitizer sink_mode crash = Ok (Some c) ->
    class_in_range sink_mode c.
Proof.
  intros sink_mode crash c. unfold crash_2_sanitizer, class_in_range.
  destruct (is_of_jazzer_sink sink_mode crash) eqn:Hs.
  - intros H. inversion H; subst. left. split; [reflexivity|].
    unfold is_of_jazzer_sink in Hs. apply andb_true_iff in Hs.
    destruct Hs as [Hs _]. apply negb_true_iff in Hs.
    apply String.eqb_neq in Hs. exact Hs.
  - destruct (is_interesting_crash crash) as [b|]; cbn [rbind];
      [|discriminate].
    destruct (negb b); [discriminate|].
    destruct (scan_sanitizers SANITIZERS crash) as [r|] eqn:E; intros H;
      inversion H; subst.
    + right; right. apply scan_sanitizers_some in E.
      destruct E as (pre & post & -> & _). apply in_or_app. right. left.
      reflexivity.
    + right; left. reflexivity.
Qed.

Lemma scan_pending_classified :
  forall sink_mode e a rest st,
    Forall (fun p : pending_crash =>
              match p with
              | (_, crash, sanitizer) =>
                  crash_2_sanitizer sink_mode crash = Ok (Some sanitizer)
              end) rest ->
    Forall (fun t : triaged_crash =>
              match t with
              | (_, sanitizer, crash, _) =>
                  crash_2_sanitizer sink_mode crash = Ok (Some sanitizer)
              end) (log_triage_crash_over_time st) ->
    Forall (fun t : triaged_crash =>
              match t with
              | (_, sanitizer, crash, _) =>
                  crash_2_sanitizer sink_mode crash = Ok (Some sanitizer)
              end)
      (log_triage_crash_over_time (scan_pending e a rest st)).
Proof.
  induction rest as [|[[ct cr] sa] rest IH]; intros st Hr Ht; simpl;
    [exact Ht|].
  inversion Hr; subst.
  destruct (eligible e ct); [|apply IH; assumption].
  apply IH; [assumption|].
  destruct (not_seen_or_sinkpoint st sa); [|exact Ht].
  cbn. apply Forall_app. split; [exact Ht | repeat constructor; assumption].
Qed.

Lemma forall_filter :
  forall (A : Type) (P : A -> Prop) f (l : list A),
    Forall P l -> Forall P (filter f l).
Proof.
  intros A P f l H. apply Forall_forall. intros x Hx.
  apply filter_In in Hx. rewrite Forall_forall in H. apply H. apply Hx.
Qed.

Lemma classified_parse :
  forall sink_mode file_obj,
    classified sink_mode (final (parse_log_in_stream sink_mode file_obj)).
Proof.
  intros sink_mode file_obj.
  apply (parse_invariant sink_mode (classified sink_mode)).
  - intros st line st' H E. pose proof (step_start_frame st line) as F.
    rewrite E in F. cbv zeta in F. cbn [outcome_state] in F.
    destruct F as (Ft & _ & Fp & _). unfold classified.
    rewrite Ft, Fp. exact H.
  - intros st line st' H E. pose proof (step_cov_frame st line) as F.
    rewrite E in F. cbv zeta in F. cbn [outcome_state] in F.
    destruct F as (Ft & _ & Fp & _). unfold classified.
    rewrite Ft, Fp. exact H.
  - intros st line st' [Hp Ht] E. unfold step_crash in E.
    destruct (_parse_crash_line line (initial_timestamp st))
      as [[[e crash]|]|]; [| inversion E; subst; split; assumption
                           | discriminate].
    destruct (crash_2_sanitizer sink_mode crash) as [[sa|]|] eqn:Ec;
      [| inversion E; subst; split; assumption | discriminate].
    destruct (not_seen_or_sinkpoint _ sa); inversion E; subst;
      split; cbn; try assumption.
    apply Forall_app. split; [assumption | repeat constructor; assumption].
  - intros st line st' [Hp Ht] E.
    destruct (step_artifact_done st line st' E) as [->|(e & a & _ & ->)];
      [split; assumption|].
    split; cbn.
    + apply forall_filter. exact Hp.
    + apply scan_pending_classified; assumption.
  - intros st line H. pose proof (step_exit_frame st line) as F.
    cbv zeta in F. destruct F as (Ft & _ & Fp & _). unfold classified.
    rewrite Ft, Fp. exact H.
  - intros st H. pose proof (sync_dump_frame st) as F.
    cbv zeta in F. destruct F as (Ft & _ & Fp & _). unfold classified.
    rewrite Ft, Fp. exact H.
  - intros st H. pose proof (after_loop_frame st) as F.
    cbv zeta in F. destruct F as (Ft & _ & Fp & _). unfold classified.
    rewrite Ft, Fp. exact H.
  - split; constructor.
Qed.

(** X4. The class recorded with a triaged crash is the classification of
    the crash text recorded with it; it is SINKPOINT (only when the sink
    mode is set), UNKNOWN SANITIZER or a label of the catalog. *)
Theorem triaged_class_is_classification :
  forall sink_mode file_obj crash_time sanitizer crash artifact,
    In (crash_time, sanitizer, crash, artifact)
      (log_triage_crash_over_time
         (final (parse_log_in_stream sink_mode file_obj))) ->
    crash_2_sanitizer sink_mode crash = Ok (Some sanitizer)
    /\ class_in_range sink_mode sanitizer.
Proof.
  intros sink_mode file_obj ct sa cr ar Hin.
  destruct (classified_parse sink_mode file_obj) as [_ Ht].
  rewrite Forall_forall in Ht. pose proof (Ht _ Hin) as H. cbv beta iota in H.
  split; [exact H|]. eapply crash_2_sanitizer_range; exact H.
Qed.

Lemma count_class_in :
  forall c l, In c (map triaged_class l) -> (1 <= count_class c l)%nat.
Proof.
  induction l as [|t l IH]; intros H; [contradiction|].
  unfold count_class in *. simpl in *.
  destruct H as [H|H].
  - rewrite H, String.eqb_refl. simpl. lia.
  - destruct (String.eqb (triaged_class t) c); simpl; [lia | auto].
Qed.

Lemma count_class_nodup :
  forall l,
    (forall c, In c (map triaged_class l) -> (count_class c l <= 1)%nat) ->
    NoDup (map triaged_class l).
Proof.
  induction l as [|t l IH]; intros H; simpl; constructor.
  - intros Hin. pose proof (count_class_in _ _ Hin) as H1.
    pose proof (H (triaged_class t) (or_introl eq_refl)) as H2.
    unfold count_class in *. simpl in H2.
    rewrite String.eqb_refl in H2. simpl in H2. lia.
  - apply IH. intros c Hc. pose proof (H c (or_intror Hc)) as H1.
    unfold count_class in *. simpl in H1.
    destruct (String.eqb (triaged_class t) c); simpl in H1; lia.
Qed.

(** X5. When JAZZER_SINK_MODE is unset no triaged crash has the class
    SINKPOINT, the classes of the triage list are pairwise distinct, and the
    list has at most thirteen entries (the twelve labels of the catalog and
    UNKNOWN SANITIZER), however long the stream is. *)
Theorem triage_bounded_without_sink_mode :
  forall file_obj,
    let triaged :=
      log_triage_crash_over_time
        (final (parse_log_in_stream EmptyString file_obj)) in
    ~ In SINKPOINT (map triaged_class triaged)
    /\ NoDup (map triaged_class triaged)
    /\ (List.length triaged <= 13)%nat.
Proof.
  intros file_obj triaged.
  assert (Hrange : forall c, In c (map triaged_class triaged) ->
                             In c (UNKNOWN_SANITIZER :: SANITIZERS)).
  { intros c Hc. apply in_map_iff in Hc.
    destruct Hc as ([[[ct sa] cr] ar] & <- & Hin).
    destruct (classified_parse EmptyString file_obj) as [_ Ht].
    rewrite Forall_forall in Ht. pose proof (Ht _ Hin) as H. cbv beta iota in H.
    apply crash_2_sanitizer_range in H. cbn [triaged_class].
    destruct H as [[_ H]|[H|H]]; [elim H; reflexivity | left; auto | right; auto]. }
  assert (Hno : ~ In SINKPOINT (map triaged_class triaged)).
  { intros H. apply Hrange in H. simpl in H.
    repeat (destruct H as [H|H]; [discriminate H|]). exact H. }
  assert (Hdedup : dedup_inv (final (parse_log_in_stream EmptyString file_obj))).
  { unfold parse_log_in_stream.
    pose proof (for_lines_dedup EmptyString file_obj initial_state
                  initial_dedup) as H.
    destruct (for_lines EmptyString initial_state file_obj);
      cbn [final outcome_state] in *; [|exact H].
    apply (dedup_inv_ext st); [| |exact H];
      apply (after_loop_frame st). }
  assert (Hnd : NoDup (map triaged_class triaged)).
  { apply count_class_nodup. intros c Hc. apply Hdedup.
    intros ->. exact (Hno Hc). }
  split; [exact Hno|]. split; [exact Hnd|].
  rewrite <- (length_map triaged_class).
  apply (NoDup_incl_length Hnd (l' := UNKNOWN_SANITIZER :: SANITIZERS)).
  exact Hrange.
Qed.

(** ** What the artifact scan leaves alone *)

Lemma triage_one_frame :
  forall a st p,
    let st' := triage_one a st p in
    cov_over_time st' = cov_over_time st
    /\ ft_over_time st' = ft_over_time st
    /\ log_crash_over_time st' = log_crash_over_time st
    /\ artifact_over_time st' = artifact_over_time st
    /\ initial_timestamp st' = initial_timestamp st
    /\ dumps st' = dumps st
    /\ last_cov st' = last_cov st /\ last_ft st' = last_ft st
    /\ max_cov st' = max_cov st /\ max_ft st' = max_ft st.
Proof.
  intros a st [[ct cr] sa]. unfold triage_one.
  destruct (not_seen_or_sinkpoint st sa); repeat split; reflexivity.
Qed.

Lemma scan_pending_frame :
  forall e a rest st,
    let st' := scan_pending e a rest st in
    cov_over_time st' = cov_over_time st
    /\ ft_over_time st' = ft_over_time st
    /\ log_crash_over_time st' = log_crash_over_time st
    /\ artifact_over_time st' = artifact_over_time st
    /\ initial_timestamp st' = initial_timestamp st
    /\ dumps st' = dumps st
    /\ last_cov st' = last_cov st /\ last_ft st' = last_ft st
    /\ max_cov st' = max_cov st /\ max_ft st' = max_ft st.
Proof.
  induction rest as [|p rest IH]; intros st; cbv zeta; simpl;
    [repeat split; reflexivity|].
  destruct (eligible e (crash_time_of p)); [|apply IH].
  pose proof (IH (triage_one a st p)) as H1. cbv zeta in H1.
  pose proof (triage_one_frame a st p) as H2. cbv zeta in H2.
  destruct H1 as (A1 & A2 & A3 & A4 & A5 & A6 & A7 & A8 & A9 & A10).
  destruct H2 as (B1 & B2 & B3 & B4 & B5 & B6 & B7 & B8 & B9 & B10).
  repeat split; congruence.
Qed.

Lemma step_artifact_frame :
  forall st line st',
    step_artifact st line = Done st' ->
    cov_over_time st' = cov_over_time st
    /\ ft_over_time st' = ft_over_time st
    /\ log_crash_over_time st' = log_crash_over_time st
    /\ initial_timestamp st' = initial_timestamp st
    /\ dumps st' = dumps st
    /\ last_cov st' = last_cov st /\ last_ft st' = last_ft st
    /\ max_cov st' = max_cov st /\ max_ft st' = max_ft st.
Proof.
  intros st line st' E.
  destruct (step_artifact_done st line st' E) as [->|(e & a & _ & ->)];
    [repeat split; reflexivity|].
  match goal with
  | |- context [scan_pending e a ?r ?s] =>
      pose proof (scan_pending_frame e a r s) as H; cbv zeta in H;
      destruct H as (A1 & A2 & A3 & A4 & A5 & A6 & A7 & A8 & A9 & A10)
  end.
  cbn. cbn in A1, A2, A3, A5, A6, A7, A8, A9, A10.
  repeat split; assumption.
Qed.

Lemma step_done_frames :
  forall sink_mode st line,
    (forall st', step_start st line = Done st' ->
                 dumps st' = dumps st
                 /\ cov_over_time st' = cov_over_time st
                 /\ ft_over_time st' = ft_over_time st
                 /\ log_crash_over_time st' = log_crash_over_time st
                 /\ artifact_over_time st' = artifact_over_time st
                 /\ last_cov st' = last_cov st /\ last_ft st' = last_ft st
                 /\ max_cov st' = max_cov st /\ max_ft st' = max_ft st)
    /\ (forall st', step_cov st line = Done st' ->
                    dumps st' = dumps st
                    /\ log_crash_over_time st' = log_crash_over_time st
                    /\ artifact_over_time st' = artifact_over_time st)
    /\ (forall st', step_crash sink_mode st line = Done st' ->
                    dumps st' = dumps st
                    /\ cov_over_time st' = cov_over_time st
                    /\ ft_over_time st' = ft_over_time st
                    /\ artifact_over_time st' = artifact_over_time st
                    /\ last_cov st' = last_cov st /\ last_ft st' = last_ft st
                    /\ max_cov st' = max_cov st /\ max_ft st' = max_ft st).
Proof.
  intros sink_mode st line. split; [|split]; intros st'.
  - unfold step_start. repeat break_match; intros H; inversion H;
      repeat split; reflexivity.
  - unfold step_cov. repeat break_match; intros H; inversion H;
      repeat split; reflexivity.
  - unfold step_crash. repeat break_match; intros H; inversion H;
      repeat split; reflexivity.
Qed.

(** ** The baseline *)

Lemma for_lines_baseline :
  forall sink_mode file_obj st t,
    initial_timestamp st = Some t ->
    initial_timestamp (outcome_state (for_lines sink_mode st file_obj))
    = Some t.
Proof.
  intros sink_mode file_obj st t H.
  apply (for_lines_invariant sink_mode
           (fun s => initial_timestamp s = Some t)); try exact H; clear.
  - intros st line st' H. unfold step_start. rewrite H.
    intros E; inversion E; subst; exact H.
  - intros st line st' H E. pose proof (step_cov_frame st line) as F.
    rewrite E in F. cbv zeta in F. cbn [outcome_state] in F.
    destruct F as (_ & _ & _ & Fi & _). congruence.
  - intros st line st' H E.
    pose proof (step_crash_frame sink_mode st line) as F.
    rewrite E in F. cbv zeta in F. cbn [outcome_state] in F.
    destruct F as (_ & _ & Fi & _). congruence.
  - intros st line st' H E.
    destruct (step_artifact_frame st line st' E) as (_ & _ & _ & Fi & _).
    congruence.
  - intros st line H. pose proof (step_exit_frame st line) as F.
    cbv zeta in F. destruct F as (_ & _ & _ & Fi & _). congruence.
  - intros st H. pose proof (sync_dump_frame st) as F.
    cbv zeta in F. destruct F as (_ & _ & _ & Fi & _). congruence.
Qed.

(** X6. The baseline is set at most once: when it is [t] after some prefix
    of a stream, it is [t] at the end of the stream, whatever lines follow
    (further run-start lines included). *)
Theorem baseline_never_reset :
  forall sink_mode pre post st t,
    for_lines sink_mode initial_state pre = Done st ->
    initial_timestamp st = Some t ->
    initial_timestamp (final (parse_log_in_stream sink_mode (pre ++ post)))
    = Some t.
Proof.
  intros sink_mode pre post st t Hpre Ht. unfold parse_log_in_stream.
  rewrite (for_lines_app _ _ _ _ _ Hpre).
  pose proof (for_lines_baseline sink_mode post st t Ht) as H.
  destruct (for_lines sink_mode st post) as [s|e s];
    cbn [outcome_state final] in *; [|exact H].
  unfold after_loop. destruct (0 <? List.length (fuzz_statuses s))%nat;
    exact H.
Qed.

(** ** The series only grow *)

Lemma prefix_of_refl : forall (A : Type) (l : list A), prefix_of l l.
Proof. intros A l. exists []. rewrite app_nil_r. reflexivity. Qed.

Lemma prefix_of_app :
  forall (A : Type) (l0 l more : list A),
    prefix_of l0 l -> prefix_of l0 (l ++ more).
Proof.
  intros A l0 l more [m ->]. exists (m ++ more). rewrite app_assoc.
  reflexivity.
Qed.

Lemma for_lines_extends :
  forall sink_mode file_obj st0 st,
    extends st0 st ->
    extends st0 (outcome_state (for_lines sink_mode st file_obj)).
Proof.
  intros sink_mode file_obj st0 st H.
  apply (for_lines_invariant sink_mode (extends st0)); try exact H; clear.
  - intros st line st'. unfold step_start, extends.
    repeat break_match; intros H E; inversion E; subst; exact H.
  - intros st line st'. unfold step_cov, extends.
    repeat break_match; intros (H1 & H2 & H3 & H4 & H5 & H6) E;
      inversion E; subst; cbn; repeat split;
      try assumption; apply prefix_of_app; assumption.
  - intros st line st'. unfold step_crash, extends.
    repeat break_match; intros (H1 & H2 & H3 & H4 & H5 & H6) E;
      inversion E; subst; cbn; repeat split;
      try assumption; apply prefix_of_app; assumption.
  - intros st line st' (H1 & H2 & H3 & H4 & H5 & H6) E.
    destruct (step_artifact_done st line st' E) as [->|(e & a & _ & ->)];
      [repeat split; assumption|].
    match goal with
    | |- context [scan_pending e a ?r ?s] =>
        pose proof (scan_pending_frame e a r s) as F; cbv zeta in F;
        destruct F as (A1 & A2 & A3 & A4 & _ & A6 & _);
        destruct (scan_pending_emitted e a r s) as (em & Hem & _)
    end.
    unfold extends. cbn. rewrite A1, A2, A3, A4, A6, Hem. cbn.
    repeat split; try assumption; apply prefix_of_app; assumption.
  - intros st line. unfold step_exit, extends.
    repeat break_match; intros H; exact H.
  - intros st (H1 & H2 & H3 & H4 & H5 & H6).
    unfold step_dump, dump_fuzz_data, fuzz_data_view, sync_result, extends.
    cbn. destruct (need_dump st); cbn; repeat split; try assumption.
    apply prefix_of_app; assumption.
Qed.

(** X7. The series are append-only: whatever lines are processed from a
    state, the coverage, feature, crash, artifact and triage lists and the
    list of dumps of that state are prefixes of the lists afterwards; no
    entry is ever removed or changed. *)
Theorem series_only_grow :
  forall sink_mode st file_obj,
    extends st (outcome_state (for_lines sink_mode st file_obj)).
Proof.
  intros sink_mode st file_obj. apply for_lines_extends.
  repeat split; apply prefix_of_refl.
Qed.

(** ** Running values *)

Lemma fold_max_snoc :
  forall l x a, fold_left Z.max (l ++ [x]) a = Z.max (fold_left Z.max l a) x.
Proof. intros. rewrite fold_left_app. reflexivity. Qed.

Lemma running_values_parse :
  forall sink_mode file_obj,
    running_values (final (parse_log_in_stream sink_mode file_obj)).
Proof.
  intros sink_mode file_obj.
  apply (parse_invariant sink_mode running_values).
  - intros st line st'. unfold step_start, running_values.
    repeat break_match; intros H E; inversion E; subst; exact H.
  - intros st line st'. unfold step_cov, running_values.
    destruct (_parse_cov_line line (initial_timestamp st))
      as [[[[[r e] c] f]|]|]; intros (H1 & H2 & H3 & H4 & H5 & H6 & H7) E;
      inversion E; subst; [|repeat split; assumption].
    cbn. rewrite !map_app. cbn [map fst snd].
    rewrite !fold_max_snoc, !last_last.
    unfold Py.max. rewrite <- H1, <- H2, H5.
    repeat split; lia.
  - intros st line st' H E.
    destruct (step_done_frames sink_mode st line) as (_ & _ & F).
    destruct (F st' E) as (_ & A1 & A2 & _ & A3 & A4 & A5 & A6).
    unfold running_values in *. rewrite A1, A2, A3, A4, A5, A6. exact H.
  - intros st line st' H E.
    destruct (step_artifact_frame st line st' E)
      as (A1 & A2 & _ & _ & _ & A3 & A4 & A5 & A6).
    unfold running_values in *. rewrite A1, A2, A3, A4, A5, A6. exact H.
  - intros st line H. pose proof (step_exit_lists st line) as F.
    cbv zeta in F. destruct F as (A1 & A2 & _ & _ & A3 & A4 & A5 & A6).
    unfold running_values in *. rewrite A1, A2, A3, A4, A5, A6. exact H.
  - intros st H. pose proof (sync_dump_frame st) as F. cbv zeta in F.
    destruct F as (_ & _ & _ & _ & _ & _ & A1 & A2 & _ & _ & A3 & A4 & A5
                   & A6 & _).
    unfold running_values in *. rewrite A1, A2, A3, A4, A5, A6. exact H.
  - intros st H. unfold after_loop.
    destruct (0 <? List.length (fuzz_statuses st))%nat; exact H.
  - unfold running_values. cbn. repeat split; lia.
Qed.

(** X8. At the end of every stream [max_cov] and [max_ft] are the largest
    values of the coverage and feature series (0 when they are empty),
    [last_cov] and [last_ft] are their last values (0 when empty), the two
    series carry the same elapsed times, and the last values do not exceed
    the maxima. *)
Theorem running_values_match_series :
  forall sink_mode file_obj,
    let st := final (parse_log_in_stream sink_mode file_obj) in
    max_cov st = fold_left Z.max (map snd (cov_over_time st)) 0
    /\ max_ft st = fold_left Z.max (map snd (ft_over_time st)) 0
    /\ last_cov st = last (map snd (cov_over_time st)) 0
    /\ last_ft st = last (map snd (ft_over_time st)) 0
    /\ map fst (cov_over_time st) = map fst (ft_over_time st)
    /\ last_cov st <= max_cov st
    /\ last_ft st <= max_ft st.
Proof.
  intros sink_mode file_obj. exact (running_values_parse sink_mode file_obj).
Qed.

(** ** Where the triaged crashes come from *)

Lemma scan_pending_provenance :
  forall e a rest st,
    (forall ct cr sa, In (ct, cr, sa) rest ->
                      In (ct, cr) (log_crash_over_time st)) ->
    (exists e', In (e', a) (artifact_over_time st)) ->
    (forall ct sa cr ar,
        In (ct, sa, cr, ar) (log_triage_crash_over_time st) ->
        In (ct, cr) (log_crash_over_time st)
        /\ exists e', In (e', ar) (artifact_over_time st)) ->
    forall ct sa cr ar,
      In (ct, sa, cr, ar)
        (log_triage_crash_over_time (scan_pending e a rest st)) ->
      In (ct, cr) (log_crash_over_time st)
      /\ exists e', In (e', ar) (artifact_over_time st).
Proof.
  induction rest as [|[[ct0 cr0] sa0] rest IH]; intros st Hr Ha Ht; simpl;
    [exact Ht|].
  assert (Hr' : forall ct cr sa, In (ct, cr, sa) rest ->
                                 In (ct, cr) (log_crash_over_time st))
    by (intros ct cr sa H; apply (Hr ct cr sa); right; exact H).
  destruct (eligible e ct0); [|apply IH; assumption].
  destruct (not_seen_or_sinkpoint st sa0); [|apply IH; assumption].
  intros ct sa cr ar Hin.
  match type of Hin with
  | In _ (log_triage_crash_over_time (scan_pending _ _ _ ?s)) =>
      apply (IH s) in Hin
  end; [exact Hin | exact Hr' | exact Ha |].
  cbn. intros ct' sa' cr' ar' H. apply in_app_or in H.
  destruct H as [H|[H|[]]]; [exact (Ht ct' sa' cr' ar' H)|].
  inversion H; subst. split; [|exact Ha]. apply (Hr ct' cr' sa'). left.
  reflexivity.
Qed.

Lemma provenance_parse :
  forall sink_mode file_obj,
    provenance (final (parse_log_in_stream sink_mode file_obj)).
Proof.
  intros sink_mode file_obj.
  apply (parse_invariant sink_mode provenance).
  - intros st line st'. unfold step_start, provenance.
    repeat break_match; intros H E; inversion E; subst; exact H.
  - intros st line st'. unfold step_cov, provenance.
    repeat break_match; intros H E; inversion E; subst; exact H.
  - intros st line st' [Hp Ht]. unfold step_crash.
    destruct (_parse_crash_line line (initial_timestamp st))
      as [[[e crash]|]|]; [| intros E; inversion E; subst; split; assumption
                           | discriminate].
    assert (Hgrow : forall x, In x (log_crash_over_time st) ->
                              In x (log_crash_over_time st ++ [(e, crash)]))
      by (intros; apply in_or_app; left; assumption).
    destruct (crash_2_sanitizer sink_mode crash) as [[sa|]|];
      [| |discriminate].
    + destruct (not_seen_or_sinkpoint _ sa); intros E; inversion E; subst;
        split; cbn.
      * intros ct cr sa' H. apply in_app_or in H.
        destruct H as [H|[H|[]]]; [apply Hgrow; eapply Hp; exact H|].
        inversion H; subst. apply in_or_app. right. left. reflexivity.
      * intros ct sa' cr ar H. destruct (Ht _ _ _ _ H). split; auto.
      * intros ct cr sa' H. apply Hgrow. eapply Hp; exact H.
      * intros ct sa' cr ar H. destruct (Ht _ _ _ _ H). split; auto.
    + intros E; inversion E; subst. split; cbn.
      * intros ct cr sa' H. apply Hgrow. eapply Hp; exact H.
      * intros ct sa' cr ar H. destruct (Ht _ _ _ _ H). split; auto.
  - intros st line st' [Hp Ht] E.
    destruct (step_artifact_done st line st' E) as [->|(e & a & _ & ->)];
      [split; assumption|].
    set (st1 := set_artifact_over_time (artifact_over_time st ++ [(e, a)]) st).
    set (S := scan_pending e a (pending_crashes st) st1).
    pose proof (scan_pending_frame e a (pending_crashes st) st1) as F.
    cbv zeta in F. destruct F as (_ & _ & A3 & A4 & _). fold S in A3, A4.
    split.
    + intros ct cr sa H.
      change (In (ct, cr, sa) (filter (ineligible e) (pending_crashes st)))
        in H.
      apply filter_In in H. destruct H as [H _].
      change (In (ct, cr) (log_crash_over_time S)). rewrite A3.
      exact (Hp _ _ _ H).
    + intros ct sa cr ar H.
      change (In (ct, sa, cr, ar) (log_triage_crash_over_time S)) in H.
      change (In (ct, cr) (log_crash_over_time S)
              /\ exists e', In (e', ar) (artifact_over_time S)).
      rewrite A3, A4. revert ct sa cr ar H.
      apply (scan_pending_provenance e a _ st1).
      * exact Hp.
      * exists e. apply in_or_app. right. left. reflexivity.
      * intros ct sa cr ar H. destruct (Ht _ _ _ _ H) as (H1 & e' & H2).
        split; [exact H1|]. exists e'. apply in_or_app. left. exact H2.
  - intros st line. unfold step_exit, provenance.
    repeat break_match; intros H; exact H.
  - intros st. unfold step_dump, dump_fuzz_data, fuzz_data_view, sync_result,
      provenance.
    cbn. destruct (need_dump st); intros H; exact H.
  - intros st. unfold after_loop, provenance.
    destruct (0 <? List.length (fuzz_statuses st))%nat; intros H; exact H.
  - split; intros; contradiction.
Qed.

(** X9. Every triaged crash of the final summary was read from the stream:
    its elapsed time and text are an entry of [log_crash_over_time], and
    its artifact name is the name of an entry of [artifact_over_time]. *)
Theorem triaged_crashes_were_read :
  forall sink_mode file_obj crash_time sanitizer crash artifact,
    let st := final (parse_log_in_stream sink_mode file_obj) in
    In (crash_time, sanitizer, crash, artifact)
      (log_triage_crash_over_time st) ->
    In (crash_time, crash) (log_crash_over_time st)
    /\ exists e, In (e, artifact) (artifact_over_time st).
Proof.
  intros sink_mode file_obj ct sa cr ar st H.
  exact (proj2 (provenance_parse sink_mode file_obj) ct sa cr ar H).
Qed.

(** ** The synced summary and the dumps *)

Lemma for_lines_synced_or_same :
  forall sink_mode file_obj st,
    outcome_state (for_lines sink_mode st file_obj) = st
    \/ synced (outcome_state (for_lines sink_mode st file_obj)).
Proof.
  induction file_obj as [|raw rest IH]; intros st; simpl; [left; reflexivity|].
  destruct (loop_body sink_mode st raw) as [st1|e st1] eqn:E.
  - right. destruct (IH st1) as [->|H]; [|exact H].
    eapply loop_body_synced; exact E.
  - left. apply loop_body_raised in E. exact E.
Qed.

(** X10. At the end of every stream the [fuzz_data] dict is in step with
    the locals: either no line was processed completely and the dict is
    still empty, or its ten keys hold exactly the current lists and
    integers, also when the stream ended with an error. *)
Theorem summary_in_step_with_locals :
  forall sink_mode file_obj,
    let st := final (parse_log_in_stream sink_mode file_obj) in
    (st = initial_state /\ fuzz_data_view st = None)
    \/ fuzz_data_view st = Some (summary_of st).
Proof.
  intros sink_mode file_obj. cbv zeta. unfold parse_log_in_stream.
  pose proof (for_lines_synced_or_same sink_mode file_obj initial_state) as H.
  destruct (for_lines sink_mode initial_state file_obj) as [s|e s];
    cbn [outcome_state final] in *.
  - destruct H as [->|H]; [left; split; reflexivity|].
    right. unfold synced in H. unfold after_loop, fuzz_data_view, summary_of.
    destruct (0 <? List.length (fuzz_statuses s))%nat; cbn; rewrite H;
      reflexivity.
  - destruct H as [->|H]; [left; split; reflexivity|].
    right. unfold synced in H. unfold fuzz_data_view, summary_of.
    rewrite H. reflexivity.
Qed.

Lemma last_dump_triage_snoc :
  forall ds d,
    last_dump_triage (ds ++ [d]) = d_log_triage_crash_over_time d.
Proof. intros. unfold last_dump_triage. rewrite rev_unit. reflexivity. Qed.

Lemma scan_pending_dump_pending :
  forall e a rest st,
    dump_pending st -> dump_pending (scan_pending e a rest st).
Proof.
  induction rest as [|[[ct cr] sa] rest IH]; intros st H; simpl; [exact H|].
  destruct (eligible e ct); [|apply IH; exact H].
  apply IH. destruct (not_seen_or_sinkpoint st sa); [|exact H].
  left. reflexivity.
Qed.

Lemma scan_pending_dumps_paid :
  forall e a rest st,
    dumps_paid st -> dumps_paid (scan_pending e a rest st).
Proof.
  induction rest as [|[[ct cr] sa] rest IH]; intros st H; simpl; [exact H|].
  destruct (eligible e ct); [|apply IH; exact H].
  apply IH. destruct (not_seen_or_sinkpoint st sa); [|exact H].
  unfold dumps_paid, baseline_set in *. cbn. rewrite length_app. cbn.
  destruct (need_dump st); cbn in *; lia.
Qed.

Lemma dumps_paid_parse :
  forall sink_mode file_obj,
    dumps_paid (final (parse_log_in_stream sink_mode file_obj)).
Proof.
  intros sink_mode file_obj.
  apply (parse_invariant sink_mode dumps_paid).
  - intros st line st' H. unfold step_start.
    destruct (initial_timestamp st) eqn:Ei;
      [intros E; inversion E; subst; exact H|].
    destruct (FUZZ_START_LINE_PTRN line) as [g|];
      [|intros E; inversion E; subst; exact H].
    destruct (Py.int g); intros E; inversion E; subst.
    unfold dumps_paid, baseline_set in *. rewrite Ei in H. cbn.
    destruct (need_dump st); cbn in *; lia.
  - intros st line st' H. unfold step_cov.
    repeat break_match; intros E; inversion E; subst; exact H.
  - intros st line st' H. unfold step_crash.
    repeat break_match; intros E; inversion E; subst; exact H.
  - intros st line st' H E.
    destruct (step_artifact_done st line st' E) as [->|(e & a & _ & ->)];
      [exact H|].
    assert (Hd : dumps_paid
                   (scan_pending e a (pending_crashes st)
                      (set_artifact_over_time
                         (artifact_over_time st ++ [(e, a)]) st)))
      by (apply scan_pending_dumps_paid; exact H).
    exact Hd.
  - intros st line H. unfold step_exit.
    repeat break_match; exact H.
  - intros st H. unfold step_dump, dump_fuzz_data, fuzz_data_view, sync_result.
    unfold dumps_paid, baseline_set in *. cbn.
    destruct (need_dump st) eqn:Hn; cbn in *; [|rewrite Hn; exact H].
    rewrite length_app. cbn. lia.
  - intros st. unfold after_loop, dumps_paid.
    destruct (0 <? List.length (fuzz_statuses st))%nat; intros H; exact H.
  - unfold dumps_paid. cbn. lia.
Qed.

(** X12. Dumps are written at milestones only: at the end of every stream
    the number of dumps written is at most the number of triaged crashes,
    plus one when the baseline was set by a run-start line. *)
Theorem dumps_are_gated :
  forall sink_mode file_obj,
    let st := final (parse_log_in_stream sink_mode file_obj) in
    (List.length (dumps st)
     <= flag (baseline_set st)
        + List.length (log_triage_crash_over_time st))%nat.
Proof.
  intros sink_mode file_obj. cbv zeta.
  pose proof (dumps_paid_parse sink_mode file_obj) as H.
  unfold dumps_paid in H. lia.
Qed.

(** ** The seen classes *)

Lemma scan_pending_seen :
  forall e a rest st,
    seen_are_triaged st -> seen_are_triaged (scan_pending e a rest st).
Proof.
  induction rest as [|[[ct cr] sa] rest IH]; intros st H; simpl; [exact H|].
  destruct (eligible e ct); [|apply IH; exact H].
  apply IH. destruct (not_seen_or_sinkpoint st sa); [|exact H].
  intros c. cbn. rewrite map_app, in_app_iff. cbn.
  unfold set_In. rewrite set_add_iff. rewrite <- (H c). unfold set_In.
  intuition congruence.
Qed.

Lemma seen_are_triaged_parse :
  forall sink_mode file_obj,
    seen_are_triaged (final (parse_log_in_stream sink_mode file_obj)).
Proof.
  intros sink_mode file_obj.
  apply (parse_invariant sink_mode seen_are_triaged).
  - intros st line st' H E. pose proof (step_start_frame st line) as F.
    rewrite E in F. cbv zeta in F. cbn [outcome_state] in F.
    destruct F as (Ft & Fs & _). unfold seen_are_triaged.
    rewrite Ft, Fs. exact H.
  - intros st line st' H E. pose proof (step_cov_frame st line) as F.
    rewrite E in F. cbv zeta in F. cbn [outcome_state] in F.
    destruct F as (Ft & Fs & _). unfold seen_are_triaged.
    rewrite Ft, Fs. exact H.
  - intros st line st' H E.
    pose proof (step_crash_frame sink_mode st line) as F.
    rewrite E in F. cbv zeta in F. cbn [outcome_state] in F.
    destruct F as (Ft & Fs & _). unfold seen_are_triaged.
    rewrite Ft, Fs. exact H.
  - intros st line st' H E.
    destruct (step_artifact_done st line st' E) as [->|(e & a & _ & ->)];
      [exact H|].
    assert (Hd : seen_are_triaged
                   (scan_pending e a (pending_crashes st)
                      (set_artifact_over_time
                         (artifact_over_time st ++ [(e, a)]) st)))
      by (apply scan_pending_seen; exact H).
    exact Hd.
  - intros st line H. pose proof (step_exit_frame st line) as F.
    cbv zeta in F. destruct F as (Ft & Fs & _). unfold seen_are_triaged.
    rewrite Ft, Fs. exact H.
  - intros st H. pose proof (sync_dump_frame st) as F.
    cbv zeta in F. destruct F as (Ft & Fs & _). unfold seen_are_triaged.
    rewrite Ft, Fs. exact H.
  - intros st H. pose proof (after_loop_frame st) as F.
    cbv zeta in F. destruct F as (Ft & Fs & _). unfold seen_are_triaged.
    rewrite Ft, Fs. exact H.
  - intros c. cbn. split; intros [].
Qed.

(** X13. [seen_sanitizers] is the set of the classes of the triaged
    crashes, SINKPOINT included once a sink hit was triaged: a class is in
    it exactly when the final triage list has an entry of that class. *)
Theorem seen_classes_are_the_triaged_ones :
  forall sink_mode file_obj c,
    let st := final (parse_log_in_stream sink_mode file_obj) in
    set_In c (seen_sanitizers st)
    <-> In c (map triaged_class (log_triage_crash_over_time st)).
Proof.
  intros sink_mode file_obj c.
  exact (seen_are_triaged_parse sink_mode file_obj c).
Qed.

(** ** What a pattern match says about the line *)

Lemma string_length_app :
  forall a b : string,
    String.length (a ++ b) = (String.length a + String.length b)%nat.
Proof. induction a; simpl; intros; [reflexivity | rewrite IHa; reflexivity]. Qed.

Lemma class0_inv :
  forall (R : Type) C (k : string -> @Re.cont R) s acc x,
    Re.class0 C k acc s = Some x ->
    exists g r,
      s = (g ++ r)%string /\ all_in C g = true
      /\ k (acc ++ g)%string r = Some x.
Proof.
  induction s as [|c s IH]; intros acc x H; simpl in H.
  - exists EmptyString, EmptyString. repeat split; rewrite ?string_app_nil_r; auto.
  - destruct (C c) eqn:Hc.
    + destruct (Re.class0 C k (acc ++ String c EmptyString)%string s) eqn:E.
      * inversion H; subst. destruct (IH _ _ E) as (g & r & -> & Hg & Hk).
        exists (String c g), r. rewrite string_app_assoc in Hk.
        simpl. rewrite Hc, Hg. auto.
      * exists EmptyString, (String c s). repeat split; rewrite ?string_app_nil_r; auto.
    + exists EmptyString, (String c s). repeat split; rewrite ?string_app_nil_r; auto.
Qed.

Lemma class1_inv :
  forall (R : Type) C (k : string -> @Re.cont R) s x,
    Re.class1 C k s = Some x ->
    exists g r,
      s = (g ++ r)%string /\ all_in C g = true /\ g <> EmptyString
      /\ k g r = Some x.
Proof.
  intros R C k [|c s] x H; simpl in H; [discriminate|].
  destruct (C c) eqn:Hc; [|discriminate].
  apply class0_inv in H. destruct H as (g & r & -> & Hg & Hk).
  exists (String c g), r. simpl. rewrite Hc, Hg.
  repeat split; [discriminate | exact Hk].
Qed.

Lemma dotstar_inv :
  forall (R : Type) (k : @Re.cont R) s x,
    Re.dotstar k s = Some x ->
    exists a r, s = (a ++ r)%string /\ k r = Some x.
Proof.
  induction s as [|c s IH]; intros x H; simpl in H.
  - exists EmptyString, EmptyString. auto.
  - destruct (Py.isnewline c); [exists EmptyString, (String c s); auto|].
    destruct (Re.dotstar k s) as [y|] eqn:E.
    + inversion H; subst. destruct (IH x eq_refl) as (a & r & -> & Hk).
      exists (String c a), r. auto.
    + exists EmptyString, (String c s). auto.
Qed.



(** The layout of a line the coverage pattern matches. *)
Lemma cov_body_inv :
  forall (R : Type) (k : string -> string -> string -> option R) s x,
    COV_BODY k s = Some x ->
    exists g1 a g2 g3 r,
      s = ("#" ++ g1 ++ a ++ "cov: " ++ g2 ++ " ft: " ++ g3 ++ r)%string
      /\ all_in Py.isdigit g1 = true /\ g1 <> EmptyString
      /\ all_in Py.isdigit g2 = true /\ g2 <> EmptyString
      /\ all_in Py.isdigit g3 = true /\ g3 <> EmptyString
      /\ k g1 g2 g3 = Some x.
Proof.
  intros R k s x H. unfold COV_BODY, Re.digits1 in H.
  apply lit_inv in H. destruct H as (s1 & -> & H).
  apply class1_inv in H. destruct H as (g1 & s2 & -> & D1 & N1 & H).
  apply dotstar_inv in H. destruct H as (a & s3 & -> & H).
  apply lit_inv in H. destruct H as (s4 & -> & H).
  apply class1_inv in H. destruct H as (g2 & s5 & -> & D2 & N2 & H).
  apply lit_inv in H. destruct H as (s6 & -> & H).
  apply class1_inv in H. destruct H as (g3 & r & -> & D3 & N3 & H).
  exists g1, a, g2, g3, r. repeat split; assumption.
Qed.

Lemma artifact_body_inv :
  forall (R : Type) (k : string -> option R) s x,
    ARTIFACT_BODY k s = Some x ->
    exists a b g r,
      s = ("artifact_prefix=" ++ a ++ "; Test unit written to " ++ b
           ++ "/artifacts/" ++ "crash-" ++ g ++ r)%string
      /\ all_in Py.islower_or_digit g = true /\ g <> EmptyString
      /\ k ("crash-" ++ g)%string = Some x.
Proof.
  intros R k s x H. unfold ARTIFACT_BODY in H.
  apply lit_inv in H. destruct H as (s1 & -> & H).
  apply dotstar_inv in H. destruct H as (a & s2 & -> & H).
  apply lit_inv in H. destruct H as (s3 & -> & H).
  apply dotstar_inv in H. destruct H as (b & s4 & -> & H).
  apply lit_inv in H. destruct H as (s5 & -> & H).
  apply lit_inv in H. destruct H as (s6 & -> & H).
  apply class1_inv in H. destruct H as (g & r & -> & D & N & H).
  exists a, b, g, r. repeat split; assumption.
Qed.

Lemma span_digits_inv :
  forall s d r,
    span_digits s = (d, r) ->
    s = (d ++ r)%string /\ all_in Py.isdigit d = true.
Proof.
  induction s as [|c s IH]; intros d r H; simpl in H.
  - inversion H; subst. auto.
  - destruct (Py.isdigit c) eqn:Hc.
    + destruct (span_digits s) as [d' r'] eqn:E. inversion H; subst.
      destruct (IH _ _ eq_refl) as (-> & Hd). simpl. rewrite Hc, Hd. auto.
    + inversion H; subst. auto.
Qed.

Lemma timestamp_prefix_inv :
  forall s d r,
    timestamp_prefix s = Some (d, r) ->
    exists c,
      s = (d ++ String c r)%string /\ Py.isspace c = true
      /\ all_in Py.isdigit d = true /\ d <> EmptyString.
Proof.
  intros s d r H. unfold timestamp_prefix in H.
  destruct (span_digits s) as [d' r'] eqn:E.
  apply span_digits_inv in E. destruct E as (-> & Hd).
  destruct d' as [|c0 d']; [discriminate|].
  destruct r' as [|c r']; [discriminate|].
  destruct (Py.isspace c) eqn:Hc; [|discriminate].
  inversion H; subst. exists c. repeat split; try assumption. discriminate.
Qed.

(** ** Which lines can raise *)

Lemma int_raise :
  forall g e,
    Py.int g = Raise e ->
    e = ValueError /\ (Py.int_max_str_digits < String.length g)%nat.
Proof.
  intros g e. unfold Py.int.
  destruct (Py.int_max_str_digits <? String.length g)%nat eqn:E;
    intros H; inversion H.
  split; [reflexivity | apply Nat.ltb_lt; exact E].
Qed.

Lemma start_group_short :
  forall line g,
    FUZZ_START_LINE_PTRN line = Some g ->
    (String.length g <= String.length line)%nat.
Proof.
  intros line g H. unfold FUZZ_START_LINE_PTRN in H.
  rewrite digits1_space in H.
  destruct (timestamp_prefix line) as [[d r]|] eqn:E; [|discriminate].
  apply timestamp_prefix_inv in E. destruct E as (c & -> & _).
  unfold FUZZ_START_BODY in H.
  apply lit_inv in H. destruct H as (s1 & _ & H).
  unfold Re.any1 in H. destruct s1 as [|c1 s1]; [discriminate|].
  destruct (Py.isnewline c1); [discriminate|].
  apply lit_inv in H. destruct H as (s2 & _ & H).
  destruct s2 as [|c2 s2]; [discriminate|].
  destruct (Py.isnewline c2); [discriminate|]. inversion H; subst.
  rewrite string_length_app. lia.
Qed.

Lemma cov_groups_short :
  forall line g1 g2 g3 g4,
    LIBFUZZER_COV_LINE_PTRN line = Some (g1, g2, g3, g4) ->
    (String.length g1 <= String.length line
     /\ String.length g2 <= String.length line
     /\ String.length g3 <= String.length line
     /\ String.length g4 <= String.length line)%nat.
Proof.
  intros line g1 g2 g3 g4 H. unfold LIBFUZZER_COV_LINE_PTRN in H.
  rewrite digits1_space in H.
  destruct (timestamp_prefix line) as [[d r]|] eqn:E; [|discriminate].
  apply timestamp_prefix_inv in E. destruct E as (c & -> & _).
  apply cov_body_inv in H.
  destruct H as (h1 & a & h2 & h3 & r' & -> & _ & _ & _ & _ & _ & _ & H).
  inversion H; subst.
  repeat (rewrite string_length_app || simpl String.length). lia.
Qed.

Lemma old_cov_groups_short :
  forall line g1 g2 g3,
    OLD_LIBFUZZER_COV_LINE_PTRN line = Some (g1, g2, g3) ->
    (String.length g1 <= String.length line
     /\ String.length g2 <= String.length line
     /\ String.length g3 <= String.length line)%nat.
Proof.
  intros line g1 g2 g3 H. unfold OLD_LIBFUZZER_COV_LINE_PTRN in H.
  apply cov_body_inv in H.
  destruct H as (h1 & a & h2 & h3 & r' & -> & _ & _ & _ & _ & _ & _ & H).
  inversion H; subst.
  repeat (rewrite string_length_app || simpl String.length). lia.
Qed.

Lemma crash_group_short :
  forall line g1 crash,
    LIBFUZZER_CRASH_LINE_PTRN line = Some (g1, crash) ->
    (String.length g1 <= String.length line)%nat.
Proof.
  intros line g1 crash H. unfold LIBFUZZER_CRASH_LINE_PTRN in H.
  rewrite digits1_space in H.
  destruct (timestamp_prefix line) as [[d r]|] eqn:E; [|discriminate].
  apply timestamp_prefix_inv in E. destruct E as (c & -> & _).
  apply crash_body_inv in H. destruct H as (g & H). inversion H; subst.
  rewrite string_length_app. lia.
Qed.

Lemma artifact_group_short :
  forall line g1 a,
    CRASH_ARTIFACT_LINE_PTRN line = Some (g1, a) ->
    (String.length g1 <= String.length line)%nat.
Proof.
  intros line g1 a H. unfold CRASH_ARTIFACT_LINE_PTRN in H.
  rewrite digits1_space in H.
  destruct (timestamp_prefix line) as [[d r]|] eqn:E; [|discriminate].
  apply timestamp_prefix_inv in E. destruct E as (c & -> & _).
  apply artifact_body_inv in H. destruct H as (x & b & g & r' & _ & _ & _ & H).
  inversion H; subst. rewrite string_length_app. lia.
Qed.

Ltac int_step H g :=
  let I := fresh "I" in
  destruct (Py.int g) eqn:I; cbn [rbind] in H;
  [| inversion H; subst; apply int_raise in I; destruct I;
     split; [assumption | lia]].

Lemma parse_cov_raise :
  forall line t e,
    _parse_cov_line line t = Raise e ->
    e = ValueError /\ (Py.int_max_str_digits < String.length line)%nat.
Proof.
  intros line t e H. unfold _parse_cov_line in H.
  destruct (LIBFUZZER_COV_LINE_PTRN line) as [[[[g1 g2] g3] g4]|] eqn:E1.
  - apply cov_groups_short in E1. destruct E1 as (L1 & L2 & L3 & L4).
    int_step H g1. int_step H g2. int_step H g3. int_step H g4.
    discriminate.
  - destruct (OLD_LIBFUZZER_COV_LINE_PTRN line) as [[[g1 g2] g3]|] eqn:E2;
      [|discriminate].
    apply old_cov_groups_short in E2. destruct E2 as (L1 & L2 & L3).
    int_step H g1. int_step H g2. int_step H g3. discriminate.
Qed.

Lemma parse_crash_raise :
  forall line t e,
    _parse_crash_line line t = Raise e ->
    e = ValueError /\ (Py.int_max_str_digits < String.length line)%nat.
Proof.
  intros line t e H. unfold _parse_crash_line in H.
  destruct (LIBFUZZER_CRASH_LINE_PTRN line) as [[g1 c]|] eqn:E1.
  - apply crash_group_short in E1. int_step H g1. discriminate.
  - destruct (OLD_LIBFUZZER_CRASH_LINE_PTRN line); discriminate.
Qed.

Lemma parse_artifact_raise :
  forall line t e,
    _parse_artifact_line line t = Raise e ->
    e = ValueError /\ (Py.int_max_str_digits < String.length line)%nat.
Proof.
  intros line t e H. unfold _parse_artifact_line in H.
  destruct (CRASH_ARTIFACT_LINE_PTRN line) as [[g1 c]|] eqn:E1.
  - apply artifact_group_short in E1. int_step H g1. discriminate.
  - destruct (OLD_CRASH_ARTIFACT_LINE_PTRN line); discriminate.
Qed.

Lemma extract_and_triage_raise :
  forall sink_mode st line e st',
    extract_and_triage sink_mode st line = Raised e st' ->
    e = ValueError /\ (Py.int_max_str_digits < String.length line)%nat.
Proof.
  intros sink_mode st line e st' H. unfold extract_and_triage in H.
  destruct (step_start st line) as [s1|e1 s1] eqn:E1; cbn [and_then] in H.
  2:{ inversion H; subst. unfold step_start in E1.
      destruct (initial_timestamp st); [discriminate|].
      destruct (FUZZ_START_LINE_PTRN line) as [g|] eqn:Eg; [|discriminate].
      apply start_group_short in Eg.
      destruct (Py.int g) eqn:Ei; [discriminate|]. inversion E1; subst.
      apply int_raise in Ei. split; [apply Ei | lia]. }
  destruct (step_cov s1 line) as [s2|e2 s2] eqn:E2; cbn [and_then] in H.
  2:{ inversion H; subst. unfold step_cov in E2.
      destruct (_parse_cov_line line (initial_timestamp s1))
        as [[[[[? ?] ?] ?]|]|err] eqn:Ep; try discriminate.
      inversion E2; subst. eapply parse_cov_raise; exact Ep. }
  destruct (step_crash sink_mode s2 line) as [s3|e3 s3] eqn:E3;
    cbn [and_then] in H.
  2:{ inversion H; subst. unfold step_crash in E3.
      destruct (_parse_crash_line line (initial_timestamp s2))
        as [[[el crash]|]|err] eqn:Ep; try discriminate.
      - destruct (parse_crash_line_text _ _ _ _ Ep) as (g & ->).
        destruct (banner_text_classifies sink_mode g) as (_ & r & Hr).
        rewrite Hr in E3. destruct r as [sa|]; [|discriminate].
        destruct (not_seen_or_sinkpoint _ sa); discriminate.
      - inversion E3; subst. eapply parse_crash_raise; exact Ep. }
  destruct (step_artifact s3 line) as [s4|e4 s4] eqn:E4; cbn [and_then] in H;
    [discriminate|].
  inversion H; subst. unfold step_artifact in E4.
  destruct (_parse_artifact_line line (initial_timestamp s3))
    as [[[? ?]|]|err] eqn:Ep; try discriminate.
  inversion E4; subst. eapply parse_artifact_raise; exact Ep.
Qed.

Lemma lstrip_length :
  forall s, (String.length (Py.lstrip s) <= String.length s)%nat.
Proof.
  induction s as [|c s IH]; simpl; [lia|].
  destruct (Py.isspace c); simpl; lia.
Qed.

Lemma rstrip_length :
  forall s, (String.length (Py.rstrip s) <= String.length s)%nat.
Proof.
  induction s as [|c s IH]; simpl; [lia|].
  destruct (Py.rstrip s); [destruct (Py.isspace c)|]; simpl in *; lia.
Qed.

Lemma strip_length :
  forall s, (String.length (Py.strip s) <= String.length s)%nat.
Proof.
  intros s. unfold Py.strip.
  pose proof (rstrip_length (Py.lstrip s)). pose proof (lstrip_length s). lia.
Qed.

(** ** Artifact names *)

Lemma startswith_app :
  forall p r, Py.startswith p (p ++ r) = true.
Proof.
  induction p as [|c p IH]; intros r; simpl; [reflexivity|].
  rewrite Ascii.eqb_refl, IH. reflexivity.
Qed.

Lemma parse_artifact_name :
  forall line t e a,
    _parse_artifact_line line t = Ok (Some (e, a)) ->
    artifact_name_ok a /\ Py.str_in ("/artifacts/" ++ a) line = true.
Proof.
  intros line t e a H. unfold _parse_artifact_line in H.
  assert (Hbody : forall s x,
             ARTIFACT_BODY (fun g => Some g) s = Some x ->
             artifact_name_ok x /\ Py.str_in ("/artifacts/" ++ x) s = true).
  { intros s x Hb. apply artifact_body_inv in Hb.
    destruct Hb as (p & b & g & r & -> & D & N & Hk). inversion Hk; subst.
    split; [exists g; auto|].
    change ("artifact_prefix=" ++ p ++ "; Test unit written to " ++ b
            ++ "/artifacts/" ++ "crash-" ++ g ++ r)%string
      with ("artifact_prefix=" ++ (p ++ ("; Test unit written to "
            ++ (b ++ ("/artifacts/" ++ ("crash-" ++ (g ++ r)))))))%string.
    apply str_in_app_r. apply str_in_app_r. apply str_in_app_r.
    apply str_in_app_r. simpl. rewrite startswith_app. reflexivity. }
  destruct (CRASH_ARTIFACT_LINE_PTRN line) as [[g1 x]|] eqn:E1.
  - destruct (Py.int g1); cbn [rbind] in H; [|discriminate].
    inversion H; subst. unfold CRASH_ARTIFACT_LINE_PTRN in E1.
    rewrite digits1_space in E1.
    destruct (timestamp_prefix line) as [[d r]|] eqn:E; [|discriminate].
    apply timestamp_prefix_inv in E. destruct E as (c & -> & _).
    assert (Hb : ARTIFACT_BODY (fun g => Some g) r = Some a).
    { assert (Hm : ARTIFACT_BODY (fun g2 => Some (d, g2)) r
                   = option_map (fun g => (d, g))
                       (ARTIFACT_BODY (fun g => Some g) r)).
      { unfold ARTIFACT_BODY. apply lit_map. apply dotstar_map.
        apply lit_map. apply dotstar_map. apply lit_map. apply lit_map.
        apply class1_map. intros g s'. reflexivity. }
      rewrite Hm in E1.
      destruct (ARTIFACT_BODY (fun g => Some g) r); inversion E1.
      reflexivity. }
    destruct (Hbody r a Hb) as (H1 & H2). split; [exact H1|].
    apply str_in_app_r.
    change (String c r) with (String c EmptyString ++ r)%string.
    apply str_in_app_r. exact H2.
  - destruct (OLD_CRASH_ARTIFACT_LINE_PTRN line) as [x|] eqn:E2;
      [|discriminate].
    inversion H; subst. apply Hbody. exact E2.
Qed.

Lemma artifact_names_parse :
  forall sink_mode file_obj,
    Forall (fun x : option Z * string => artifact_name_ok (snd x))
      (artifact_over_time (final (parse_log_in_stream sink_mode file_obj))).
Proof.
  intros sink_mode file_obj.
  apply (parse_invariant sink_mode
           (fun st => Forall (fun x : option Z * string =>
                                artifact_name_ok (snd x))
                        (artifact_over_time st))).
  - intros st line st' H E.
    destruct (step_done_frames sink_mode st line) as (F & _).
    destruct (F st' E) as (_ & _ & _ & _ & A & _). rewrite A. exact H.
  - intros st line st' H E.
    destruct (step_done_frames sink_mode st line) as (_ & F & _).
    destruct (F st' E) as (_ & _ & A). rewrite A. exact H.
  - intros st line st' H E.
    destruct (step_done_frames sink_mode st line) as (_ & _ & F).
    destruct (F st' E) as (_ & _ & _ & A & _). rewrite A. exact H.
  - intros st line st' H E.
    destruct (step_artifact_done st line st' E) as [->|(e & a & Hp & ->)];
      [exact H|].
    pose proof (scan_pending_frame e a (pending_crashes st)
                  (set_artifact_over_time
                     (artifact_over_time st ++ [(e, a)]) st)) as F.
    cbv zeta in F. destruct F as (_ & _ & _ & A & _).
    change (Forall (fun x : option Z * string => artifact_name_ok (snd x))
              (artifact_over_time
                 (scan_pending e a (pending_crashes st)
                    (set_artifact_over_time
                       (artifact_over_time st ++ [(e, a)]) st)))).
    rewrite A. cbn [artifact_over_time set_artifact_over_time].
    apply Forall_app. split; [exact H|]. constructor; [|constructor].
    apply parse_artifact_name in Hp. apply Hp.
  - intros st line H. pose proof (step_exit_lists st line) as F.
    cbv zeta in F. destruct F as (_ & _ & _ & A & _). rewrite A. exact H.
  - intros st H. pose proof (sync_dump_frame st) as F. cbv zeta in F.
    destruct F as (_ & _ & _ & _ & _ & _ & _ & _ & _ & A & _).
    rewrite A. exact H.
  - intros st H. unfold after_loop.
    destruct (0 <? List.length (fuzz_statuses st))%nat; exact H.
  - constructor.
Qed.

(** X15. An artifact name the parser returns is [crash-] followed by one or
    more lower-case letters or digits, and it stands in the line right
    after [/artifacts/]; every artifact name of the final summary has that
    form. *)
Theorem artifact_names_well_formed :
  (forall line t e a,
      _parse_artifact_line line t = Ok (Some (e, a)) ->
      artifact_name_ok a /\ Py.str_in ("/artifacts/" ++ a) line = true)
  /\ (forall sink_mode file_obj e a,
         In (e, a)
           (artifact_over_time
              (final (parse_log_in_stream sink_mode file_obj))) ->
         artifact_name_ok a).
Proof.
  split; [exact parse_artifact_name|].
  intros sink_mode file_obj e a Hin.
  pose proof (artifact_names_parse sink_mode file_obj) as H.
  rewrite Forall_forall in H. exact (H (e, a) Hin).
Qed.

(** ** The two formats *)

Lemma timestamp_prefix_valid :
  forall ts text,
    valid_timestamp ts ->
    timestamp_prefix (ts ++ String " " text) = Some (ts, text).
Proof.
  intros ts text (Hne & Hd & _). apply timestamp_prefix_with; assumption.
Qed.

(** X16. The current format is the legacy format behind a timestamp: for a
    well-formed timestamp [ts] and a text without a timestamp prefix, the
    three parsers return on [ts text] what they return on [text], with the
    elapsed time [ts - baseline] when the baseline is set and with no
    elapsed time when it is not. *)
Theorem current_format_is_stamped_legacy :
  forall ts text initial_timestamp,
    valid_timestamp ts ->
    timestamp_prefix text = None ->
    let line := (ts ++ String " " text)%string in
    let e := elapsed (timestamp_value ts) initial_timestamp in
    _parse_cov_line line initial_timestamp
    = match _parse_cov_line text None with
      | Ok (Some (roundno, _, cov, ft)) => Ok (Some (roundno, e, cov, ft))
      | Ok None => Ok None
      | Raise err => Raise err
      end
    /\ _parse_crash_line line initial_timestamp
       = match _parse_crash_line text None with
         | Ok (Some (_, crash)) => Ok (Some (e, crash))
         | Ok None => Ok None
         | Raise err => Raise err
         end
    /\ _parse_artifact_line line initial_timestamp
       = match _parse_artifact_line text None with
         | Ok (Some (_, artifact)) => Ok (Some (e, artifact))
         | Ok None => Ok None
         | Raise err => Raise err
         end
    /\ (initial_timestamp = None ->
        _parse_cov_line line None = _parse_cov_line text None
        /\ _parse_crash_line line None = _parse_crash_line text None
        /\ _parse_artifact_line line None = _parse_artifact_line text None).
Proof.
  intros ts text t0 Hv Hl line e.
  pose proof (timestamp_prefix_valid ts text Hv) as Hp.
  pose proof (int_valid_timestamp ts Hv) as Hi.
  pose proof (parse_cov_with_timestamp line ts text Hp Hl _ Hi) as Hc.
  pose proof (parse_crash_with_timestamp line ts text Hp Hl _ Hi) as Hr.
  pose proof (parse_artifact_with_timestamp line ts text Hp Hl _ Hi) as Ha.
  split; [apply Hc|]. split; [apply Hr|]. split; [apply Ha|].
  intros _. rewrite (Hc None), (Hr None), (Ha None). cbn [elapsed].
  split; [|split].
  - destruct (_parse_cov_line text None) as [[[[[r el] c] f]|]|] eqn:E;
      try reflexivity.
    apply parse_cov_no_baseline in E. subst. reflexivity.
  - destruct (_parse_crash_line text None) as [[[el c]|]|] eqn:E;
      try reflexivity.
    apply parse_crash_no_baseline in E. subst. reflexivity.
  - destruct (_parse_artifact_line text None) as [[[el c]|]|] eqn:E;
      try reflexivity.
    apply parse_artifact_no_baseline in E. subst. reflexivity.
Qed.

(** ** Coverage values *)

Lemma int_ok :
  forall g v, Py.int g = Ok v -> v = Py.digits_value 0 g.
Proof.
  intros g v. unfold Py.int.
  destruct (Py.int_max_str_digits <? String.length g)%nat; intros H;
    inversion H. reflexivity.
Qed.

Lemma digits_value_nonneg :
  forall g acc,
    all_in Py.isdigit g = true -> 0 <= acc -> 0 <= Py.digits_value acc g.
Proof.
  induction g as [|c g IH]; intros acc H Hacc;
    cbn [all_in Py.digits_value] in *; [exact Hacc|].
  apply andb_true_iff in H. destruct H as [Hc Hg]. apply IH; [exact Hg|].
  unfold Py.isdigit in Hc. cbv zeta in Hc.
  apply andb_true_iff in Hc. destruct Hc as [Hc _].
  apply Nat.leb_le in Hc. unfold Py.digit_value. lia.
Qed.

Lemma parse_cov_fields :
  forall line t roundno e cov ft,
    _parse_cov_line line t = Ok (Some (roundno, e, cov, ft)) ->
    exists pre g1 mid g2 g3 rest,
      line = (pre ++ "#" ++ g1 ++ mid ++ "cov: " ++ g2 ++ " ft: " ++ g3
              ++ rest)%string
      /\ (all_in Py.isdigit g1 = true /\ g1 <> EmptyString)
      /\ (all_in Py.isdigit g2 = true /\ g2 <> EmptyString)
      /\ (all_in Py.isdigit g3 = true /\ g3 <> EmptyString)
      /\ roundno = Py.digits_value 0 g1
      /\ cov = Py.digits_value 0 g2
      /\ ft = Py.digits_value 0 g3
      /\ ((pre = EmptyString /\ e = None)
          \/ exists ts c,
              pre = (ts ++ String c EmptyString)%string
              /\ all_in Py.isdigit ts = true /\ Py.isspace c = true
              /\ e = elapsed (Py.digits_value 0 ts) t).
Proof.
  intros line t roundno e cov ft H. unfold _parse_cov_line in H.
  destruct (LIBFUZZER_COV_LINE_PTRN line) as [[[[g1 g2] g3] g4]|] eqn:E1.
  - unfold LIBFUZZER_COV_LINE_PTRN in E1. rewrite digits1_space in E1.
    destruct (timestamp_prefix line) as [[d r]|] eqn:E; [|discriminate].
    apply timestamp_prefix_inv in E. destruct E as (c & -> & Hc & Hd & _).
    apply cov_body_inv in E1.
    destruct E1 as (h1 & a & h2 & h3 & r' & -> & D1 & N1 & D2 & N2 & D3
                    & N3 & Hk).
    inversion Hk; subst.
    destruct (Py.int g1) eqn:I1; cbn [rbind] in H; [|discriminate].
    destruct (Py.int g2) eqn:I2; cbn [rbind] in H; [|discriminate].
    destruct (Py.int g3) eqn:I3; cbn [rbind] in H; [|discriminate].
    destruct (Py.int g4) eqn:I4; cbn [rbind] in H; [|discriminate].
    inversion H; subst.
    apply int_ok in I1, I2, I3, I4. subst.
    exists (g1 ++ String c EmptyString)%string, g2, a, g3, g4, r'.
    split; [rewrite string_app_assoc; reflexivity|].
    repeat split; try assumption.
    right. exists g1, c. repeat split; assumption.
  - destruct (OLD_LIBFUZZER_COV_LINE_PTRN line) as [[[g1 g2] g3]|] eqn:E2;
      [|discriminate].
    unfold OLD_LIBFUZZER_COV_LINE_PTRN in E2. apply cov_body_inv in E2.
    destruct E2 as (h1 & a & h2 & h3 & r' & -> & D1 & N1 & D2 & N2 & D3
                    & N3 & Hk).
    inversion Hk; subst.
    destruct (Py.int g1) eqn:I1; cbn [rbind] in H; [|discriminate].
    destruct (Py.int g2) eqn:I2; cbn [rbind] in H; [|discriminate].
    destruct (Py.int g3) eqn:I3; cbn [rbind] in H; [|discriminate].
    inversion H; subst.
    apply int_ok in I1, I2, I3. subst.
    exists EmptyString, g1, a, g2, g3, r'.
    repeat split; try assumption. left. split; reflexivity.
Qed.

Lemma parse_cov_nonneg :
  forall line t roundno e cov ft,
    _parse_cov_line line t = Ok (Some (roundno, e, cov, ft)) ->
    0 <= roundno /\ 0 <= cov /\ 0 <= ft.
Proof.
  intros line t roundno e cov ft H. apply parse_cov_fields in H.
  destruct H as (pre & g1 & mid & g2 & g3 & rest & _ & (D1 & _) & (D2 & _)
                 & (D3 & _) & -> & -> & -> & _).
  repeat split; apply digits_value_nonneg; (assumption || lia).
Qed.

Lemma scan_pending_rounds :
  forall e a rest st,
    ttl_roundno_base (scan_pending e a rest st) = ttl_roundno_base st
    /\ ttl_round (scan_pending e a rest st) = ttl_round st.
Proof.
  induction rest as [|[[ct cr] sa] rest IH]; intros st; simpl;
    [split; reflexivity|].
  destruct (eligible e ct); [|apply IH].
  destruct (IH (if not_seen_or_sinkpoint st sa
                then set_need_dump true
                       (set_seen_sanitizers
                          (set_add string_dec sa (seen_sanitizers st))
                          (set_log_triage_crash_over_time
                             (log_triage_crash_over_time st
                              ++ [(ct, sa, cr, a)]) st))
                else st)) as (B1 & B2).
  rewrite B1, B2.
  destruct (not_seen_or_sinkpoint st sa); split; reflexivity.
Qed.

Lemma counters_ok_parse :
  forall sink_mode file_obj,
    counters_ok (final (parse_log_in_stream sink_mode file_obj)).
Proof.
  intros sink_mode file_obj.
  apply (parse_invariant sink_mode counters_ok).
  - intros st line st' H. unfold step_start.
    repeat break_match; intros E; inversion E; subst; exact H.
  - intros st line st' H. unfold step_cov.
    destruct (_parse_cov_line line (initial_timestamp st))
      as [[[[[r e] c] f]|]|] eqn:Ep; intros E; inversion E; subst;
      [|exact H].
    apply parse_cov_nonneg in Ep. destruct Ep as (Hr & Hc & Hf).
    destruct H as ((H1 & H2) & H3 & H4 & H5 & H6).
    unfold counters_ok. cbn.
    repeat split; try lia; apply Forall_app; split; try assumption;
      repeat constructor; assumption.
  - intros st line st' H. unfold step_crash.
    repeat break_match; intros E; inversion E; subst; exact H.
  - intros st line st' H E.
    destruct (step_artifact_frame st line st' E)
      as (A1 & A2 & _ & _ & _ & A3 & A4 & _).
    destruct (step_artifact_done st line st' E) as [->|(e & a & _ & Hs)];
      [exact H|].
    assert (Hb : ttl_roundno_base st' = ttl_roundno_base st
                 /\ ttl_round st' = ttl_round st).
    { rewrite Hs.
      exact (scan_pending_rounds e a (pending_crashes st)
               (set_artifact_over_time
                  (artifact_over_time st ++ [(e, a)]) st)). }
    destruct Hb as (B1 & B2). unfold counters_ok in *.
    rewrite A1, A2, A3, A4, B1, B2. exact H.
  - intros st line H. pose proof (step_exit_lists st line) as F.
    cbv zeta in F. destruct F as (A1 & A2 & _ & _ & A3 & A4 & _).
    pose proof (step_exit_frame st line) as G. cbv zeta in G.
    destruct G as (_ & _ & _ & _ & _ & Gr).
    unfold counters_ok in *. rewrite A1, A2, A3, A4, Gr.
    destruct H as ((H1 & H2) & H3).
    split; [|exact H3]. unfold step_exit.
    repeat break_match; cbn; lia.
  - intros st H. pose proof (sync_dump_frame st) as F. cbv zeta in F.
    destruct F as (_ & _ & _ & _ & Fr & Fb & A1 & A2 & _ & _ & A3 & A4 & _).
    unfold counters_ok in *. rewrite A1, A2, A3, A4, Fr, Fb. exact H.
  - intros st H. unfold after_loop.
    destruct (0 <? List.length (fuzz_statuses st))%nat; exact H.
  - unfold counters_ok. cbn. repeat split; try lia; constructor.
Qed.

(** X18. Nothing in the summary is negative but, possibly, elapsed times:
    at the end of every stream the round base and the round counter satisfy
    [0 <= ttl_roundno_base <= ttl_round], and every value of the coverage
    and feature series and the last values are at least 0. *)
Theorem counters_are_not_negative :
  forall sink_mode file_obj,
    let st := final (parse_log_in_stream sink_mode file_obj) in
    0 <= ttl_roundno_base st <= ttl_round st
    /\ Forall (fun x : option Z * Z => 0 <= snd x) (cov_over_time st)
    /\ Forall (fun x : option Z * Z => 0 <= snd x) (ft_over_time st)
    /\ 0 <= last_cov st /\ 0 <= last_ft st.
Proof.
  intros sink_mode file_obj. exact (counters_ok_parse sink_mode file_obj).
Qed.

(** ** The crash text *)

Lemma dotstar_cap_whole :
  forall (R : Type) (f : string -> R) s acc,
    all_in not_newline s = true ->
    Re.dotstar_cap (fun g _ => Some (f g)) acc s = Some (f (acc ++ s)%string).
Proof.
  induction s as [|c s IH]; intros acc H; simpl in *.
  - rewrite string_app_nil_r. reflexivity.
  - apply andb_true_iff in H. destruct H as [Hc Hs].
    unfold not_newline in Hc. apply negb_true_iff in Hc. rewrite Hc.
    rewrite (IH _ Hs), string_app_assoc. reflexivity.
Qed.

Lemma lit_app :
  forall (R : Type) p (k : @Re.cont R) s, Re.lit p k (p ++ s) = k s.
Proof.
  induction p as [|a p IH]; intros k s; simpl; [reflexivity|].
  rewrite Ascii.eqb_refl. apply IH.
Qed.

Lemma old_crash_whole :
  forall g,
    all_in not_newline g = true ->
    OLD_LIBFUZZER_CRASH_LINE_PTRN ("== Java Exception:" ++ g)
    = Some ("== Java Exception:" ++ g)%string.
Proof.
  intros g H. unfold OLD_LIBFUZZER_CRASH_LINE_PTRN, CRASH_BODY.
  rewrite lit_app.
  rewrite (dotstar_cap_whole _ (fun g => ("== Java Exception:" ++ g)%string)
             g EmptyString H).
  reflexivity.
Qed.

(** X19. The crash extractor keeps the whole banner line: for a text [g]
    without a newline, the line [== Java Exception:g] is parsed as a crash
    whose text is the line itself, and the same line behind a well-formed
    timestamp is parsed as the same text with the elapsed time of the
    timestamp; nothing of the line is cut off. *)
Theorem crash_text_is_the_whole_line :
  forall g ts t,
    all_in not_newline g = true ->
    valid_timestamp ts ->
    let text := ("== Java Exception:" ++ g)%string in
    _parse_crash_line text t = Ok (Some (None, text))
    /\ _parse_crash_line (ts ++ String " " text) t
       = Ok (Some (elapsed (timestamp_value ts) t, text)).
Proof.
  intros g ts t Hg Hv text.
  assert (Hl : timestamp_prefix text = None) by reflexivity.
  assert (H0 : forall t', _parse_crash_line text t' = Ok (Some (None, text))).
  { intros t'. unfold _parse_crash_line.
    destruct (new_patterns_without_timestamp text Hl) as (_ & _ & -> & _).
    unfold text. rewrite (old_crash_whole g Hg). reflexivity. }
  split; [apply H0|].
  rewrite (parse_crash_with_timestamp _ ts text
             (timestamp_prefix_valid ts text Hv) Hl _
             (int_valid_timestamp ts Hv)).
  rewrite (H0 None). reflexivity.
Qed.

(** ** Known classes *)

Lemma is_known_sanitizer_in :
  forall c, is_known_sanitizer c = true <-> In c SANITIZERS.
Proof.
  intros c. unfold is_known_sanitizer. rewrite existsb_exists. split.
  - intros (x & Hx & E). apply String.eqb_eq in E. subst. exact Hx.
  - intros H. exists c. split; [exact H | apply String.eqb_refl].
Qed.

(** X20. [is_known_sanitizer] tells the labels of the catalog from the two
    special classes: a class returned by [crash_2_sanitizer] is not known
    exactly when it is SINKPOINT or UNKNOWN SANITIZER, and a known class is
    a label found in the crash text, verbatim or with its blanks removed. *)
Theorem known_classes_are_catalog_labels :
  forall sink_mode crash c,
    crash_2_sanitizer sink_mode crash = Ok (Some c) ->
    (is_known_sanitizer c = false <-> c = SINKPOINT \/ c = UNKNOWN_SANITIZER)
    /\ (is_known_sanitizer c = true ->
        In c SANITIZERS /\ label_matches crash c = true).
Proof.
  intros sink_mode crash c H.
  assert (Hsp : is_known_sanitizer SINKPOINT = false) by reflexivity.
  assert (Hun : is_known_sanitizer UNKNOWN_SANITIZER = false) by reflexivity.
  unfold crash_2_sanitizer in H.
  destruct (is_of_jazzer_sink sink_mode crash).
  { inversion H; subst. split; [split; auto|]. rewrite Hsp. discriminate. }
  destruct (is_interesting_crash crash) as [b|]; cbn [rbind] in H;
    [|discriminate].
  destruct (negb b); [discriminate|].
  destruct (scan_sanitizers SANITIZERS crash) as [r|] eqn:E;
    inversion H; subst.
  - apply scan_sanitizers_some in E. destruct E as (pre & post & E & Hm & _).
    assert (Hin : In c SANITIZERS)
      by (rewrite E; apply in_or_app; right; left; reflexivity).
    assert (Hk : is_known_sanitizer c = true)
      by (apply is_known_sanitizer_in; exact Hin).
    split; [|intros _; split; assumption].
    rewrite Hk. split; [discriminate|].
    intros [->| ->]; [rewrite Hsp in Hk | rewrite Hun in Hk]; discriminate.
  - split; [split; auto|]. rewrite Hun. discriminate.
Qed.

(** ** Coverage lines *)

Lemma all_in_digits : forall s, all_in Py.isdigit s = all_digits s.
Proof. induction s as [|c s IH]; simpl; [reflexivity | rewrite IH; reflexivity]. Qed.

Lemma digit_not_newline :
  forall c, Py.isdigit c = true -> Py.isnewline c = false.
Proof.
  intros c. destruct c as [[] [] [] [] [] [] [] []]; vm_compute;
    intros H; (reflexivity || discriminate H).
Qed.

Lemma space_not_digit : forall c, Py.isspace c = true -> Py.isdigit c = false.
Proof.
  intros c H. destruct (Py.isdigit c) eqn:E; [|reflexivity].
  apply digit_not_space in E. congruence.
Qed.

(** A greedy class takes the whole run when the rest of the pattern
    matches after it. *)
Lemma class0_max :
  forall (R : Type) C (k : string -> @Re.cont R) d r acc x,
    all_in C d = true -> starts_with C r = false ->
    k (acc ++ d)%string r = Some x ->
    Re.class0 C k acc (d ++ r)%string = Some x.
Proof.
  induction d as [|c d IH]; intros r acc x Hd Hr Hk.
  - rewrite string_app_nil_r in Hk. cbn [append].
    destruct r as [|c r]; cbn [Re.class0]; [exact Hk|].
    cbn [starts_with] in Hr. rewrite Hr. exact Hk.
  - cbn [all_in] in Hd. apply andb_true_iff in Hd. destruct Hd as [Hc Hd].
    cbn [append Re.class0]. rewrite Hc.
    rewrite (IH r (acc ++ String c EmptyString)%string x Hd Hr);
      [reflexivity|].
    rewrite string_app_assoc. exact Hk.
Qed.

Lemma class1_max :
  forall (R : Type) C (k : string -> @Re.cont R) d r x,
    all_in C d = true -> d <> EmptyString -> starts_with C r = false ->
    k d r = Some x ->
    Re.class1 C k (d ++ r)%string = Some x.
Proof.
  intros R C k [|c d] r x Hd Hne Hr Hk; [contradiction|].
  cbn [all_in] in Hd. apply andb_true_iff in Hd. destruct Hd as [Hc Hd].
  cbn [append Re.class1]. rewrite Hc.
  apply class0_max; assumption.
Qed.

Lemma class0_some :
  forall (R : Type) C (k : string -> @Re.cont R) s acc,
    (forall g r, k g r <> None) -> Re.class0 C k acc s <> None.
Proof.
  induction s as [|c s IH]; intros acc Hk; cbn [Re.class0]; [apply Hk|].
  destruct (C c); [|apply Hk].
  destruct (Re.class0 C k (acc ++ String c EmptyString)%string s);
    [discriminate | apply Hk].
Qed.

Lemma class0_none_short :
  forall (R : Type) C (k : string -> @Re.cont R) s acc,
    Re.class0 C k acc s = None -> k acc s = None.
Proof.
  intros R C k [|c s] acc H; cbn [Re.class0] in H; [exact H|].
  destruct (C c); [|exact H].
  destruct (Re.class0 C k (acc ++ String c EmptyString)%string s);
    [discriminate | exact H].
Qed.

(** What a greedy class took: the whole run, unless the rest of the
    pattern failed after a longer one. *)
Lemma class0_inv_max :
  forall (R : Type) C (k : string -> @Re.cont R) s acc x,
    Re.class0 C k acc s = Some x ->
    exists g r,
      s = (g ++ r)%string /\ all_in C g = true
      /\ k (acc ++ g)%string r = Some x
      /\ (starts_with C r = false
          \/ exists c r',
              r = String c r' /\ C c = true
              /\ Re.class0 C k ((acc ++ g) ++ String c EmptyString)%string r'
                 = None).
Proof.
  induction s as [|c s IH]; intros acc x H; cbn [Re.class0] in H.
  - exists EmptyString, EmptyString. rewrite (string_app_nil_r acc).
    split; [reflexivity|]. split; [reflexivity|]. split; [exact H|].
    left. reflexivity.
  - destruct (C c) eqn:Hc.
    + destruct (Re.class0 C k (acc ++ String c EmptyString)%string s)
        as [y|] eqn:E.
      * inversion H; subst y.
        destruct (IH _ _ E) as (g & r & -> & Hg & Hk & Hm).
        exists (String c g), r. cbn [all_in append]. rewrite Hc, Hg.
        rewrite string_app_assoc in Hk, Hm. cbn [append] in Hk, Hm.
        split; [reflexivity|]. split; [reflexivity|]. split; [exact Hk|].
        exact Hm.
      * exists EmptyString, (String c s). rewrite (string_app_nil_r acc).
        split; [reflexivity|]. split; [reflexivity|]. split; [exact H|].
        right. exists c, s. split; [reflexivity|]. split; [exact Hc|].
        exact E.
    + exists EmptyString, (String c s). rewrite (string_app_nil_r acc).
      split; [reflexivity|]. split; [reflexivity|]. split; [exact H|].
      left. exact Hc.
Qed.

Lemma class1_inv_max :
  forall (R : Type) C (k : string -> @Re.cont R) s x,
    Re.class1 C k s = Some x ->
    exists g r,
      s = (g ++ r)%string /\ all_in C g = true /\ g <> EmptyString
      /\ k g r = Some x
      /\ (starts_with C r = false
          \/ exists c r',
              r = String c r' /\ C c = true
              /\ Re.class0 C k (g ++ String c EmptyString)%string r' = None).
Proof.
  intros R C k [|c s] x H; cbn [Re.class1] in H; [discriminate|].
  destruct (C c) eqn:Hc; [|discriminate].
  apply class0_inv_max in H. destruct H as (g & r & -> & Hg & Hk & Hm).
  exists (String c g), r. cbn [all_in append] in *. rewrite Hc, Hg.
  split; [reflexivity|]. split; [reflexivity|]. split; [discriminate|].
  split; [exact Hk | exact Hm].
Qed.

(** [.*] fails when the rest of the pattern fails at every place it can
    reach, and only then. *)
Lemma dotstar_none :
  forall (R : Type) (k : @Re.cont R) s,
    (forall a r, s = (a ++ r)%string -> all_in not_newline a = true ->
                 k r = None) ->
    Re.dotstar k s = None.
Proof.
  induction s as [|c s IH]; intros H; cbn [Re.dotstar].
  - apply (H EmptyString EmptyString); reflexivity.
  - destruct (Py.isnewline c) eqn:Hc.
    + apply (H EmptyString (String c s)); reflexivity.
    + rewrite IH.
      * apply (H EmptyString (String c s)); reflexivity.
      * intros a r -> Ha. apply (H (String c a) r); [reflexivity|].
        cbn [all_in]. unfold not_newline at 1. rewrite Hc. exact Ha.
Qed.

Lemma dotstar_none_inv :
  forall (R : Type) (k : @Re.cont R) s,
    Re.dotstar k s = None ->
    forall a r, s = (a ++ r)%string -> all_in not_newline a = true ->
                k r = None.
Proof.
  induction s as [|c s IH]; intros H a r E Ha; cbn [Re.dotstar] in H.
  - destruct a; [|discriminate]. cbn [append] in E. subst r. exact H.
  - destruct a as [|c' a].
    + cbn [append] in E. subst r.
      destruct (Py.isnewline c); [exact H|].
      destruct (Re.dotstar k s); [discriminate | exact H].
    + cbn [append] in E. inversion E; subst c' s.
      cbn [all_in] in Ha. apply andb_true_iff in Ha. destruct Ha as [Hc Ha].
      unfold not_newline in Hc. apply negb_true_iff in Hc. rewrite Hc in H.
      destruct (Re.dotstar k (a ++ r)%string) eqn:D; [discriminate|].
      exact (IH eq_refl a r eq_refl Ha).
Qed.

(** [.*] stops at the last place it can reach where the rest of the
    pattern matches. *)
Lemma dotstar_inv_last :
  forall (R : Type) (k : @Re.cont R) s x,
    Re.dotstar k s = Some x ->
    exists a r,
      s = (a ++ r)%string /\ all_in not_newline a = true /\ k r = Some x
      /\ forall more r',
          r = (more ++ r')%string -> more <> EmptyString ->
          all_in not_newline more = true -> k r' = None.
Proof.
  induction s as [|c s IH]; intros x H; cbn [Re.dotstar] in H.
  - exists EmptyString, EmptyString. repeat split; auto.
    intros more r' E Hne _. destruct more; [contradiction | discriminate].
  - destruct (Py.isnewline c) eqn:Hc.
    + exists EmptyString, (String c s). repeat split; auto.
      intros more r' E Hne Hm. destruct more as [|c' more]; [contradiction|].
      cbn [append] in E. inversion E; subst c'.
      cbn [all_in] in Hm. unfold not_newline at 1 in Hm. rewrite Hc in Hm.
      discriminate.
    + destruct (Re.dotstar k s) as [y|] eqn:D.
      * inversion H; subst y.
        destruct (IH x eq_refl) as (a & r & -> & Ha & Hk & Hl).
        exists (String c a), r. cbn [all_in append].
        unfold not_newline at 1. rewrite Hc, Ha. repeat split; auto.
      * exists EmptyString, (String c s). repeat split; auto.
        intros more r' E Hne Hm. destruct more as [|c' more]; [contradiction|].
        cbn [append] in E. inversion E; subst c'.
        cbn [all_in] in Hm. apply andb_true_iff in Hm.
        destruct Hm as [_ Hm].
        exact (dotstar_none_inv R k s D more r' H2 Hm).
Qed.

Lemma dotstar_last :
  forall (R : Type) (k : @Re.cont R) mid tail x,
    all_in not_newline mid = true -> k tail = Some x ->
    (forall more r',
        tail = (more ++ r')%string -> more <> EmptyString ->
        all_in not_newline more = true -> k r' = None) ->
    Re.dotstar k (mid ++ tail)%string = Some x.
Proof.
  induction mid as [|c mid IH]; intros tail x Hm Hk Hl.
  - cbn [append]. destruct tail as [|c s]; cbn [Re.dotstar]; [exact Hk|].
    destruct (Py.isnewline c) eqn:Hc; [exact Hk|].
    rewrite dotstar_none; [exact Hk|].
    intros a r -> Ha. apply (Hl (String c a) r); [reflexivity|discriminate|].
    cbn [all_in]. unfold not_newline at 1. rewrite Hc. exact Ha.
  - cbn [all_in] in Hm. apply andb_true_iff in Hm. destruct Hm as [Hc Hm].
    unfold not_newline in Hc. apply negb_true_iff in Hc.
    cbn [append Re.dotstar]. rewrite Hc, (IH tail x Hm Hk Hl). reflexivity.
Qed.

Lemma cov_body_tail :
  forall (R : Type) (f : string -> string -> string -> R) s,
    COV_BODY (fun g1 g2 g3 => Some (f g1 g2 g3)) s
    = Re.lit "#" (Re.digits1 (fun g1 => Re.dotstar (COV_TAIL (f g1)))) s.
Proof. reflexivity. Qed.

Lemma digits_then_blank :
  forall g3 rest,
    starts_with Py.isdigit (" ft: " ++ g3 ++ rest)%string = false.
Proof. reflexivity. Qed.

Lemma cov_tail_exact :
  forall (R : Type) (f : string -> string -> R) g2 g3 rest,
    all_in Py.isdigit g2 = true -> g2 <> EmptyString ->
    all_in Py.isdigit g3 = true -> g3 <> EmptyString ->
    starts_with Py.isdigit rest = false ->
    COV_TAIL f ("cov: " ++ g2 ++ " ft: " ++ g3 ++ rest)%string
    = Some (f g2 g3).
Proof.
  intros R f g2 g3 rest D2 N2 D3 N3 Hr. unfold COV_TAIL, Re.digits1.
  rewrite lit_app.
  apply class1_max; [exact D2 | exact N2 | apply digits_then_blank |].
  rewrite lit_app.
  apply class1_max; [exact D3 | exact N3 | exact Hr | reflexivity].
Qed.

Lemma cov_tail_some :
  forall (R : Type) (f : string -> string -> R) s,
    cov_ft_here s -> exists y, COV_TAIL f s = Some y.
Proof.
  intros R f s (g2 & g3 & rest & -> & (D2 & N2) & (D3 & N3)).
  unfold COV_TAIL, Re.digits1. rewrite lit_app.
  destruct g3 as [|c g3]; [contradiction|].
  cbn [all_in] in D3. apply andb_true_iff in D3. destruct D3 as [Hc D3].
  destruct (Re.class0 Py.isdigit (fun g _ => Some (f g2 g))
              (String c EmptyString) (g3 ++ rest)%string) as [y|] eqn:E.
  - exists y.
    apply class1_max; [exact D2 | exact N2 | apply digits_then_blank |].
    rewrite lit_app. cbn [append Re.class1]. rewrite Hc. exact E.
  - exfalso. revert E. apply class0_some. intros g r. discriminate.
Qed.

Lemma cov_tail_inv :
  forall (R : Type) (f : string -> string -> R) s y,
    COV_TAIL f s = Some y ->
    exists g2 g3 rest,
      s = ("cov: " ++ g2 ++ " ft: " ++ g3 ++ rest)%string
      /\ (all_in Py.isdigit g2 = true /\ g2 <> EmptyString)
      /\ (all_in Py.isdigit g3 = true /\ g3 <> EmptyString)
      /\ starts_with Py.isdigit rest = false
      /\ y = f g2 g3.
Proof.
  intros R f s y H. unfold COV_TAIL, Re.digits1 in H.
  apply lit_inv in H. destruct H as (s1 & -> & H).
  apply class1_inv in H. destruct H as (g2 & s2 & -> & D2 & N2 & H).
  apply lit_inv in H. destruct H as (s3 & -> & H).
  apply class1_inv_max in H.
  destruct H as (g3 & rest & -> & D3 & N3 & H & Hm).
  exists g2, g3, rest. inversion H; subst y.
  repeat split; auto.
  destruct Hm as [Hm|(c & r' & _ & _ & Hm)]; [exact Hm|].
  exfalso. revert Hm. apply class0_some. intros g r. discriminate.
Qed.

Lemma cov_tail_here :
  forall (R : Type) (f : string -> string -> R) s y,
    COV_TAIL f s = Some y -> cov_ft_here s.
Proof.
  intros R f s y H. apply cov_tail_inv in H.
  destruct H as (g2 & g3 & rest & E & H2 & H3 & _).
  exists g2, g3, rest. auto.
Qed.

Lemma cov_tail_digit :
  forall (R : Type) (f : string -> string -> R) c s,
    Py.isdigit c = true -> COV_TAIL f (String c s) = None.
Proof.
  intros R f c s Hc. unfold COV_TAIL. cbn [Re.lit].
  destruct (Ascii.eqb "c" c) eqn:E; [|reflexivity].
  apply Ascii.eqb_eq in E. subst c. discriminate Hc.
Qed.

(** The coverage pattern on a text of the layout: the groups are those of
    the layout. *)
Lemma cov_body_exact :
  forall (R : Type) (f : string -> string -> string -> R)
         body g1 mid g2 g3 rest,
    cov_layout body g1 mid g2 g3 rest ->
    COV_BODY (fun a b c => Some (f a b c)) body = Some (f g1 g2 g3).
Proof.
  intros R f body g1 mid g2 g3 rest
         (-> & (D1 & N1) & (D2 & N2) & (D3 & N3) & Hm & Hn & Hr & Hl).
  rewrite cov_body_tail. rewrite lit_app. unfold Re.digits1.
  apply class1_max; [exact D1 | exact N1 | |].
  - destruct mid; [reflexivity | exact Hm].
  - apply dotstar_last; [exact Hn | |].
    + apply cov_tail_exact; assumption.
    + intros more r' E Hne Hmore.
      destruct (COV_TAIL (f g1) r') as [y|] eqn:K; [|reflexivity].
      exfalso. apply (Hl more r' E Hne Hmore).
      eapply cov_tail_here; exact K.
Qed.

(** A text the coverage pattern matches has the layout, and the groups
    are those of the layout. *)
Lemma cov_body_layout :
  forall (R : Type) (f : string -> string -> string -> R) body x,
    COV_BODY (fun a b c => Some (f a b c)) body = Some x ->
    exists g1 mid g2 g3 rest,
      cov_layout body g1 mid g2 g3 rest /\ x = f g1 g2 g3.
Proof.
  intros R f body x H. rewrite cov_body_tail in H.
  apply lit_inv in H. destruct H as (s1 & -> & H). unfold Re.digits1 in H.
  apply class1_inv_max in H.
  destruct H as (g1 & r & -> & D1 & N1 & H & Hmax).
  pose proof H as Hd.
  apply dotstar_inv_last in H.
  destruct H as (mid & tail & -> & Hn & Hk & Hl).
  apply cov_tail_inv in Hk.
  destruct Hk as (g2 & g3 & rest & -> & H2 & H3 & Hr & ->).
  exists g1, mid, g2, g3, rest. split; [|reflexivity].
  split; [reflexivity|]. split; [split; assumption|].
  split; [exact H2|]. split; [exact H3|]. split; [|split; [exact Hn|split]].
  - destruct Hmax as [Hmax|(c & r' & Er & Hc & Hnone)].
    + destruct mid; [reflexivity | exact Hmax].
    + exfalso. apply class0_none_short in Hnone.
      rewrite Er in Hd. cbn [Re.dotstar] in Hd.
      rewrite (digit_not_newline c Hc) in Hd.
      rewrite (cov_tail_digit _ (f g1) c r' Hc) in Hd.
      destruct (Re.dotstar (COV_TAIL (f g1)) r') as [y|] eqn:D;
        [|discriminate].
      apply dotstar_inv_last in D.
      destruct D as (a & r2 & -> & Ha & Hk2 & _).
      apply cov_tail_here in Hk2.
      destruct (cov_tail_some _
                  (f (g1 ++ String c EmptyString)%string) r2 Hk2)
        as (y2 & Hy2).
      rewrite (dotstar_none_inv _ _ _ Hnone a r2 eq_refl Ha) in Hy2.
      discriminate.
  - exact Hr.
  - intros more tail' E Hne Hmore Hhere.
    destruct (cov_tail_some _ (f g1) tail' Hhere) as (y & Hy).
    rewrite (Hl more tail' E Hne Hmore) in Hy. discriminate.
Qed.

Lemma timestamp_prefix_space :
  forall ts c s,
    all_in Py.isdigit ts = true -> ts <> EmptyString ->
    Py.isspace c = true ->
    timestamp_prefix (ts ++ String c s) = Some (ts, s).
Proof.
  intros ts c s Hd Hne Hc. unfold timestamp_prefix.
  rewrite all_in_digits in Hd.
  rewrite (span_digits_timestamp ts c s Hd (space_not_digit c Hc)).
  destruct ts; [contradiction|]. rewrite Hc. reflexivity.
Qed.

Lemma parse_cov_legacy_layout :
  forall body g1 mid g2 g3 rest t,
    cov_layout body g1 mid g2 g3 rest ->
    _parse_cov_line body t
    = (roundno <- Py.int g1 ;; cov <- Py.int g2 ;; ft <- Py.int g3 ;;
       Ok (Some (roundno, None, cov, ft))).
Proof.
  intros body g1 mid g2 g3 rest t L. unfold _parse_cov_line.
  assert (E1 : LIBFUZZER_COV_LINE_PTRN body = None).
  { destruct L as (-> & _). reflexivity. }
  rewrite E1. unfold OLD_LIBFUZZER_COV_LINE_PTRN.
  rewrite (cov_body_exact _ (fun a b c => (a, b, c)) _ _ _ _ _ _ L).
  reflexivity.
Qed.

Lemma parse_cov_stamped_layout :
  forall body g1 mid g2 g3 rest ts c t,
    cov_layout body g1 mid g2 g3 rest ->
    all_in Py.isdigit ts = true -> ts <> EmptyString ->
    Py.isspace c = true ->
    _parse_cov_line (ts ++ String c body) t
    = (timestamp <- Py.int ts ;; roundno <- Py.int g1 ;;
       cov <- Py.int g2 ;; ft <- Py.int g3 ;;
       Ok (Some (roundno, elapsed timestamp t, cov, ft))).
Proof.
  intros body g1 mid g2 g3 rest ts c t L Hd Hne Hc. unfold _parse_cov_line.
  unfold LIBFUZZER_COV_LINE_PTRN. rewrite digits1_space.
  rewrite (timestamp_prefix_space ts c body Hd Hne Hc).
  rewrite (cov_body_exact _ (fun a b d => (ts, a, b, d)) _ _ _ _ _ _ L).
  reflexivity.
Qed.

Lemma parse_cov_has_layout :
  forall line t,
    _parse_cov_line line t <> Ok None ->
    exists body g1 mid g2 g3 rest,
      cov_layout body g1 mid g2 g3 rest
      /\ (line = body
          \/ exists ts c,
              all_in Py.isdigit ts = true /\ ts <> EmptyString
              /\ Py.isspace c = true
              /\ line = (ts ++ String c body)%string).
Proof.
  intros line t H. unfold _parse_cov_line in H.
  destruct (LIBFUZZER_COV_LINE_PTRN line) as [[[[g1 g2] g3] g4]|] eqn:E1.
  - clear H. unfold LIBFUZZER_COV_LINE_PTRN in E1.
    rewrite digits1_space in E1.
    destruct (timestamp_prefix line) as [[d r]|] eqn:E; [|discriminate].
    apply timestamp_prefix_inv in E. destruct E as (c & -> & Hc & Hd & Hne).
    apply (cov_body_layout _ (fun a b e => (d, a, b, e))) in E1.
    destruct E1 as (h1 & mid & h2 & h3 & rest & L & _).
    exists r, h1, mid, h2, h3, rest. split; [exact L|].
    right. exists d, c. auto.
  - destruct (OLD_LIBFUZZER_COV_LINE_PTRN line) as [[[g1 g2] g3]|] eqn:E2;
      [|elim H; reflexivity].
    clear H. unfold OLD_LIBFUZZER_COV_LINE_PTRN in E2.
    apply (cov_body_layout _ (fun a b e => (a, b, e))) in E2.
    destruct E2 as (h1 & mid & h2 & h3 & rest & L & _).
    exists line, h1, mid, h2, h3, rest. split; [exact L | left; reflexivity].
Qed.

(** X17. The values of a coverage sample are read off its line.  A line
    the coverage parser does not pass over is an optional timestamp and
    white-space character followed by a text of the layout: [#] and the
    whole digit run after it, any text without a newline, the last [cov: ],
    digits, [ ft: ], digits the matcher can reach, with the whole of the
    last digit run.  On every line of that form the parser returns the
    [int] values of exactly these three digit runs, with the elapsed time
    of the timestamp, or none without a timestamp; it raises when [int]
    does. *)
Theorem coverage_values_come_from_the_line :
  forall line t,
    (forall body g1 mid g2 g3 rest,
        cov_layout body g1 mid g2 g3 rest ->
        (line = body ->
         _parse_cov_line line t
         = (roundno <- Py.int g1 ;; cov <- Py.int g2 ;; ft <- Py.int g3 ;;
            Ok (Some (roundno, None, cov, ft))))
        /\ (forall ts c,
               all_in Py.isdigit ts = true -> ts <> EmptyString ->
               Py.isspace c = true ->
               line = (ts ++ String c body)%string ->
               _parse_cov_line line t
               = (timestamp <- Py.int ts ;; roundno <- Py.int g1 ;;
                  cov <- Py.int g2 ;; ft <- Py.int g3 ;;
                  Ok (Some (roundno, elapsed timestamp t, cov, ft)))))
    /\ (_parse_cov_line line t <> Ok None ->
        exists body g1 mid g2 g3 rest,
          cov_layout body g1 mid g2 g3 rest
          /\ (line = body
              \/ exists ts c,
                  all_in Py.isdigit ts = true /\ ts <> EmptyString
                  /\ Py.isspace c = true
                  /\ line = (ts ++ String c body)%string)).
Proof.
  intros line t. split.
  - intros body g1 mid g2 g3 rest L. split.
    + intros ->. exact (parse_cov_legacy_layout _ _ _ _ _ _ t L).
    + intros ts c Hd Hne Hc ->.
      exact (parse_cov_stamped_layout _ _ _ _ _ _ ts c t L Hd Hne Hc).
  - exact (parse_cov_has_layout line t).
Qed.

(** ** The reads and writes of the loop *)

Lemma loop_body_io_quiet :
  forall sink_mode st raw,
    loop_body_io sink_mode st (quiet raw)
    = lift_outcome (loop_body sink_mode st raw).
Proof.
  intros sink_mode st raw. unfold loop_body_io, loop_body, quiet.
  cbn [tee_raises raw_line dump_raises].
  destruct (extract_and_triage sink_mode st (Py.strip raw)) as [s1|e s1];
    cbn [and_then lift_outcome]; [|reflexivity].
  unfold step_dump_io, step_dump.
  destruct (need_dump (sync_result s1)); reflexivity.
Qed.

Lemma for_lines_io_quiet :
  forall sink_mode file_obj st,
    for_lines_io sink_mode st (map quiet file_obj)
    = lift_outcome (for_lines sink_mode st file_obj).
Proof.
  induction file_obj as [|raw rest IH]; intros st; [reflexivity|].
  cbn [map for_lines_io for_lines]. rewrite loop_body_io_quiet.
  destruct (loop_body sink_mode st raw) as [s1|e s1]; cbn [lift_outcome];
    [apply IH | reflexivity].
Qed.

(** In a world where reads, writes and dump calls return, the processor
    with its reads and writes is the processor above. *)
Lemma parse_log_in_stream_io_quiet :
  forall sink_mode file_obj,
    parse_log_in_stream_io sink_mode (map quiet file_obj) None
    = mkRunIO (final (parse_log_in_stream sink_mode file_obj))
        (option_map Processing
           (logged (parse_log_in_stream sink_mode file_obj))).
Proof.
  intros sink_mode file_obj.
  unfold parse_log_in_stream_io, parse_log_in_stream.
  rewrite for_lines_io_quiet.
  destruct (for_lines sink_mode initial_state file_obj); reflexivity.
Qed.


(** Extraction and triage of a line that raises leave the state as they
    found it. *)
Lemma extract_and_triage_raised :
  forall sink_mode st raw e st',
    extract_and_triage sink_mode st (Py.strip raw) = Raised e st' ->
    st' = st.
Proof.
  intros sink_mode st raw e st' H.
  apply (loop_body_raised sink_mode st raw e st').
  unfold loop_body. rewrite H. reflexivity.
Qed.

(** What an iteration that fails leaves, by the statement that raised. *)
Lemma loop_body_io_failed :
  forall sink_mode st l e st_err,
    loop_body_io sink_mode st l = Failed e st_err ->
    match e with
    | ReadLine _ => False
    | TeeWrite name => tee_raises l = Some name /\ st_err = st
    | Processing x =>
        tee_raises l = None
        /\ extract_and_triage sink_mode st (Py.strip (raw_line l))
           = Raised x st
        /\ st_err = st
    | DumpCall name =>
        tee_raises l = None /\ dump_raises l = Some name
        /\ exists st1,
            extract_and_triage sink_mode st (Py.strip (raw_line l))
            = Done st1
            /\ need_dump st1 = true
            /\ st_err = sync_result st1
    end.
Proof.
  intros sink_mode st l e st_err H. unfold loop_body_io in H.
  destruct (tee_raises l) as [n|] eqn:Et.
  { inversion H; subst. split; reflexivity. }
  destruct (extract_and_triage sink_mode st (Py.strip (raw_line l)))
    as [s1|x s1] eqn:E.
  - unfold step_dump_io in H.
    destruct (need_dump (sync_result s1)) eqn:Hn; [|discriminate].
    destruct (dump_raises l) as [n|] eqn:Ed; [|discriminate].
    inversion H; subst. split; [reflexivity|]. split; [reflexivity|].
    exists s1. split; [reflexivity|]. split; [exact Hn | reflexivity].
  - inversion H; subst.
    pose proof (extract_and_triage_raised _ _ _ _ _ E) as ->.
    split; [reflexivity|]. split; [reflexivity | reflexivity].
Qed.

(** A read that raises ends the stream where the lines read so far left
    it. *)
Lemma read_error_ends_the_stream :
  forall sink_mode file_obj st name,
    for_lines_io sink_mode initial_state file_obj = Completed st ->
    parse_log_in_stream_io sink_mode file_obj (Some name)
    = mkRunIO st (Some (ReadLine name)).
Proof.
  intros sink_mode file_obj st name H. unfold parse_log_in_stream_io.
  rewrite H. reflexivity.
Qed.



(** ** Which errors can end a stream *)

Lemma for_lines_io_failed :
  forall sink_mode file_obj st e st',
    for_lines_io sink_mode st file_obj = Failed e st' ->
    Exists (raised_in e) file_obj.
Proof.
  induction file_obj as [|l rest IH]; intros st e st' H; simpl in H;
    [discriminate|].
  destruct (loop_body_io sink_mode st l) as [s1|e1 s1] eqn:E.
  - apply Exists_cons_tl. exact (IH _ _ _ H).
  - inversion H; subst. apply Exists_cons_hd.
    apply loop_body_io_failed in E.
    destruct e as [n|n|x|n]; cbn [raised_in].
    + exact E.
    + destruct E as (E & _). exact E.
    + destruct E as (_ & E & _). apply extract_and_triage_raise in E.
      destruct E as (He & Hlen). split; [exact He|].
      pose proof (strip_length (raw_line l)). lia.
    + destruct E as (_ & E & _). exact E.
Qed.

(** X14. An error that ends a stream was raised by the read of a line, by
    a tee write, by an [int] conversion or by a dump call: extraction and
    triage raise [ValueError] only, and only on a line longer than [int]
    converts (4300 characters).  A stream whose lines are all at most that
    long, in a world where the reads, the tee writes and the dump calls
    return, is processed to its end without an error. *)
Theorem errors_are_overlong_lines_or_io :
  forall sink_mode file_obj read_raises,
    let r := parse_log_in_stream_io sink_mode file_obj read_raises in
    (Forall (fun l =>
               (String.length (raw_line l) <= Py.int_max_str_digits)%nat
               /\ tee_raises l = None /\ dump_raises l = None) file_obj ->
     read_raises = None -> logged_io r = None)
    /\ (forall e,
           logged_io r = Some e ->
           match e with
           | ReadLine name => read_raises = Some name
           | TeeWrite name =>
               Exists (fun l => tee_raises l = Some name) file_obj
           | Processing x =>
               x = ValueError
               /\ Exists (fun l =>
                            (Py.int_max_str_digits
                             < String.length (raw_line l))%nat) file_obj
           | DumpCall name =>
               Exists (fun l => dump_raises l = Some name) file_obj
           end).
Proof.
  intros sink_mode file_obj read_raises. cbv zeta.
  unfold parse_log_in_stream_io.
  destruct (for_lines_io sink_mode initial_state file_obj) as [s|e s] eqn:E.
  - destruct read_raises as [n|]; cbn [logged_io].
    + split; [intros _ H; discriminate H|].
      intros e H. inversion H; subst. reflexivity.
    + split; [reflexivity | discriminate].
  - cbn [logged_io]. apply for_lines_io_failed in E.
    apply Exists_exists in E. destruct E as (l & Hin & Hl). split.
    + intros Hall _. rewrite Forall_forall in Hall.
      destruct (Hall l Hin) as (H1 & H2 & H3).
      destruct e as [n|n|x|n]; cbn [raised_in] in Hl;
        [contradiction | congruence | destruct Hl; lia | congruence].
    + intros e' H. inversion H; subst e'.
      destruct e as [n|n|x|n]; cbn [raised_in] in Hl.
      * contradiction.
      * apply Exists_exists. exists l. split; assumption.
      * destruct Hl as (Hx & Hlen). split; [exact Hx|].
        apply Exists_exists. exists l. split; assumption.
      * apply Exists_exists. exists l. split; assumption.
Qed.

(** ** The dumps and the needs-dump flag *)

Lemma extract_and_triage_dump_pending :
  forall sink_mode st line st',
    dumped st ->
    extract_and_triage sink_mode st line = Done st' -> dump_pending st'.
Proof.
  intros sink_mode st line st' H E1.
  apply (extract_and_triage_invariant sink_mode dump_pending)
    with (st := st) (line := line); try exact E1.
  - intros s l s'. unfold step_start, dump_pending.
    repeat break_match; intros Hs Es; inversion Es; subst;
      try exact Hs; left; reflexivity.
  - intros s l s'. unfold step_cov, dump_pending.
    repeat break_match; intros Hs Es; inversion Es; subst; exact Hs.
  - intros s l s'. unfold step_crash, dump_pending.
    repeat break_match; intros Hs Es; inversion Es; subst; exact Hs.
  - intros s l s' Hs Es.
    destruct (step_artifact_done s l s' Es) as [->|(e & a & _ & ->)];
      [exact Hs|].
    assert (Hd : dump_pending
                   (scan_pending e a (pending_crashes s)
                      (set_artifact_over_time
                         (artifact_over_time s ++ [(e, a)]) s)))
      by (apply scan_pending_dump_pending; exact Hs).
    exact Hd.
  - intros s l. unfold step_exit, dump_pending.
    repeat break_match; intros Hs; exact Hs.
  - right. apply H.
Qed.

Lemma for_lines_io_dumped :
  forall sink_mode file_obj st,
    dumped st -> dumped_or_failed (for_lines_io sink_mode st file_obj).
Proof.
  induction file_obj as [|l rest IH]; intros st H; simpl; [exact H|].
  destruct (loop_body_io sink_mode st l) as [s1|e s1] eqn:E.
  - apply IH. unfold loop_body_io in E.
    destruct (tee_raises l); [discriminate|].
    destruct (extract_and_triage sink_mode st (Py.strip (raw_line l)))
      as [s2|x s2] eqn:E1; [|discriminate].
    pose proof (extract_and_triage_dump_pending _ _ _ _ H E1) as Q.
    unfold step_dump_io in E.
    change (need_dump (sync_result s2)) with (need_dump s2) in E.
    destruct (need_dump s2) eqn:Hn.
    + destruct (dump_raises l); [discriminate|]. inversion E; subst.
      unfold dumped, dump_fuzz_data, fuzz_data_view, sync_result. cbn.
      split; [reflexivity|]. rewrite last_dump_triage_snoc. reflexivity.
    + inversion E; subst. unfold dumped, sync_result. cbn.
      split; [exact Hn|]. destruct Q as [Q|Q]; [congruence | exact Q].
  - apply loop_body_io_failed in E. destruct e as [n|n|x|n]; cbn.
    + contradiction.
    + destruct E as (_ & ->). exact H.
    + destruct E as (_ & _ & ->). exact H.
    + destruct E as (_ & _ & s2 & _ & Hn & ->). exact Hn.
Qed.

(** X11. A triaged crash waits for no later dump unless a dump call
    raised: at the end of every stream, either the needs-dump flag is down
    and the triage list of the last dump written is the complete triage
    list (both empty when nothing was dumped), or the flag is up and the
    stream was ended by an error of the dump call.  The flag is up at the
    end exactly when a dump call ended the stream: a stream that ends
    without an error, or with an error of another statement, leaves nothing
    undumped. *)
Theorem triaged_crashes_are_dumped :
  forall sink_mode file_obj read_raises,
    let r := parse_log_in_stream_io sink_mode file_obj read_raises in
    let st := final_io r in
    ((need_dump st = false
      /\ log_triage_crash_over_time st = last_dump_triage (dumps st))
     \/ (need_dump st = true
         /\ exists name, logged_io r = Some (DumpCall name)))
    /\ (need_dump st = true
        <-> exists name, logged_io r = Some (DumpCall name)).
Proof.
  intros sink_mode file_obj read_raises. cbv zeta.
  unfold parse_log_in_stream_io.
  assert (H0 : dumped initial_state) by (split; reflexivity).
  pose proof (for_lines_io_dumped sink_mode file_obj initial_state H0) as H.
  assert (Hd : forall s (o : option error),
             dumped s -> (forall n, o <> Some (DumpCall n)) ->
             (need_dump s = false
              /\ log_triage_crash_over_time s = last_dump_triage (dumps s)
              \/ need_dump s = true
                 /\ (exists name, o = Some (DumpCall name)))
             /\ (need_dump s = true <-> exists name, o = Some (DumpCall name))).
  { intros s o (Hn & Ht) Ho. split; [left; split; assumption|].
    rewrite Hn. split; [discriminate|].
    intros (n & Hx). elim (Ho n Hx). }
  destruct (for_lines_io sink_mode initial_state file_obj) as [s|e s];
    cbn [dumped_or_failed] in H.
  - destruct read_raises as [n|]; cbn [final_io logged_io].
    + apply Hd; [exact H | discriminate].
    + apply Hd; [|discriminate]. unfold after_loop, dumped.
      destruct (0 <? List.length (fuzz_statuses s))%nat; exact H.
  - cbn [final_io logged_io].
    destruct e as [n|n|x|n]; try (apply Hd; [exact H | discriminate]).
    split; [right; split; [exact H | exists n; reflexivity]|].
    split; [intros _; exists n; reflexivity | intros _; exact H].
Qed.

(** ** SINKPOINT crashes *)









(** ** The further properties at sample inputs *)

Lemma one_event_kind_per_line_witness :
  FUZZ_START_LINE_PTRN start_line_1000 <> None
  /\ ~ _parse_cov_line start_line_1000 None <> Ok None
  /\ ~ _parse_crash_line start_line_1000 None <> Ok None
  /\ ~ _parse_artifact_line start_line_1000 None <> Ok None.
Proof.
  assert (H : FUZZ_START_LINE_PTRN start_line_1000 <> None)
    by (vm_compute; discriminate).
  split; [exact H|].
  exact (proj1 (one_event_kind_per_line start_line_1000 None) H).
Defined.

Lemma classifier_raises_without_colon_witness :
  Py.str_in ":" "no banner here" = false
  /\ is_interesting_crash "no banner here" = Raise IndexError
  /\ crash_2_sanitizer EmptyString "no banner here" = Raise IndexError.
Proof.
  assert (H : Py.str_in ":" "no banner here" = false) by reflexivity.
  split; [exact H|]. split.
  - exact (proj2 (proj1 (classifier_raises_without_colon EmptyString
                           "no banner here")) H).
  - exact (proj2 (proj1 (proj2 (classifier_raises_without_colon EmptyString
                                  "no banner here")))
             (conj eq_refl H)).
Defined.

Lemma uninteresting_crash_not_queued_witness :
  _parse_crash_line (Py.strip out_of_memory_line)
    (initial_timestamp initial_state)
  = Ok (Some (None, out_of_memory_line))
  /\ is_of_jazzer_sink EmptyString out_of_memory_line = false
  /\ Py.str_in "Out of memory" out_of_memory_line = true
  /\ crash_2_sanitizer EmptyString out_of_memory_line = Ok None.
Proof.
  split; [reflexivity|]. split; [reflexivity|]. split; [reflexivity|].
  exact (proj1 (uninteresting_crash_not_queued EmptyString initial_state
                  out_of_memory_line None out_of_memory_line
                  eq_refl eq_refl (or_intror (or_introl eq_refl)))).
Defined.

Lemma triaged_class_is_classification_witness :
  In (Some 15, "FuzzerSecurityIssueHigh: SQL Injection", sql_crash_line,
      "crash-abc123")
    (log_triage_crash_over_time
       (final (parse_log_in_stream EmptyString scenario)))
  /\ crash_2_sanitizer EmptyString sql_crash_line
     = Ok (Some "FuzzerSecurityIssueHigh: SQL Injection").
Proof.
  assert (H : In (Some 15, "FuzzerSecurityIssueHigh: SQL Injection",
                  sql_crash_line, "crash-abc123")
                (log_triage_crash_over_time
                   (final (parse_log_in_stream EmptyString scenario))))
    by (vm_compute; left; reflexivity).
  split; [exact H|].
  exact (proj1 (triaged_class_is_classification EmptyString scenario _ _ _ _
                  H)).
Defined.

Lemma baseline_never_reset_witness :
  for_lines EmptyString initial_state [start_line_1000]
  = Done after_first_start
  /\ initial_timestamp after_first_start = Some 1000
  /\ initial_timestamp
       (final (parse_log_in_stream EmptyString
                 ([start_line_1000] ++ [start_line_2000; plain_cov_line])))
     = Some 1000.
Proof.
  assert (H1 : for_lines EmptyString initial_state [start_line_1000]
               = Done after_first_start) by (vm_compute; reflexivity).
  assert (H2 : initial_timestamp after_first_start = Some 1000)
    by (vm_compute; reflexivity).
  split; [exact H1|]. split; [exact H2|].
  exact (baseline_never_reset EmptyString [start_line_1000]
           [start_line_2000; plain_cov_line] after_first_start 1000 H1 H2).
Defined.

Lemma triaged_crashes_were_read_witness :
  In (Some 15, "FuzzerSecurityIssueHigh: SQL Injection", sql_crash_line,
      "crash-abc123")
    (log_triage_crash_over_time
       (final (parse_log_in_stream EmptyString scenario)))
  /\ In (Some 15, sql_crash_line)
       (log_crash_over_time
          (final (parse_log_in_stream EmptyString scenario))).
Proof.
  assert (H : In (Some 15, "FuzzerSecurityIssueHigh: SQL Injection",
                  sql_crash_line, "crash-abc123")
                (log_triage_crash_over_time
                   (final (parse_log_in_stream EmptyString scenario))))
    by (vm_compute; left; reflexivity).
  split; [exact H|].
  exact (proj1 (triaged_crashes_were_read EmptyString scenario _ _ _ _ H)).
Defined.

Lemma artifact_names_well_formed_witness :
  _parse_artifact_line sample_artifact_line None
  = Ok (Some (None, "crash-abc123"))
  /\ artifact_name_ok "crash-abc123"
  /\ Py.str_in ("/artifacts/" ++ "crash-abc123") sample_artifact_line = true.
Proof.
  assert (H : _parse_artifact_line sample_artifact_line None
              = Ok (Some (None, "crash-abc123"))) by reflexivity.
  split; [exact H|].
  exact (proj1 artifact_names_well_formed sample_artifact_line None None
           "crash-abc123" H).
Defined.

Lemma sample_timestamp_valid : valid_timestamp "1010".
Proof.
  split; [discriminate|]. split; [reflexivity|].
  apply Nat.leb_le. reflexivity.
Defined.

Lemma current_format_is_stamped_legacy_witness :
  valid_timestamp "1010"
  /\ timestamp_prefix "#5 NEW cov: 100 ft: 50" = None
  /\ _parse_cov_line ("1010" ++ String " " "#5 NEW cov: 100 ft: 50")
       (Some 1000)
     = match _parse_cov_line "#5 NEW cov: 100 ft: 50" None with
       | Ok (Some (roundno, _, cov, ft)) =>
           Ok (Some (roundno, elapsed (timestamp_value "1010") (Some 1000),
                     cov, ft))
       | Ok None => Ok None
       | Raise err => Raise err
       end.
Proof.
  split; [exact sample_timestamp_valid|]. split; [reflexivity|].
  exact (proj1 (current_format_is_stamped_legacy "1010"
                  "#5 NEW cov: 100 ft: 50" (Some 1000)
                  sample_timestamp_valid eq_refl)).
Defined.

Lemma crash_text_is_the_whole_line_witness :
  all_in not_newline " java.lang.RuntimeException: boom" = true
  /\ valid_timestamp "1010"
  /\ _parse_crash_line
       ("1010" ++ String " "
          ("== Java Exception:" ++ " java.lang.RuntimeException: boom"))
       (Some 1000)
     = Ok (Some (elapsed (timestamp_value "1010") (Some 1000),
                 ("== Java Exception:"
                  ++ " java.lang.RuntimeException: boom")%string)).
Proof.
  split; [reflexivity|]. split; [exact sample_timestamp_valid|].
  exact (proj2 (crash_text_is_the_whole_line
                  " java.lang.RuntimeException: boom" "1010" (Some 1000)
                  eq_refl sample_timestamp_valid)).
Defined.

Lemma known_classes_are_catalog_labels_witness :
  crash_2_sanitizer EmptyString sql_crash_line
  = Ok (Some "FuzzerSecurityIssueHigh: SQL Injection")
  /\ (is_known_sanitizer "FuzzerSecurityIssueHigh: SQL Injection" = true ->
      In "FuzzerSecurityIssueHigh: SQL Injection" SANITIZERS
      /\ label_matches sql_crash_line
           "FuzzerSecurityIssueHigh: SQL Injection" = true).
Proof.
  assert (H : crash_2_sanitizer EmptyString sql_crash_line
              = Ok (Some "FuzzerSecurityIssueHigh: SQL Injection"))
    by reflexivity.
  split; [exact H|].
  exact (proj2 (known_classes_are_catalog_labels EmptyString sql_crash_line
                  _ H)).
Defined.


Lemma errors_are_overlong_lines_or_io_witness :
  (Forall (fun l =>
             (String.length (raw_line l) <= Py.int_max_str_digits)%nat
             /\ tee_raises l = None /\ dump_raises l = None)
     (map quiet scenario)
   /\ logged_io (parse_log_in_stream_io EmptyString (map quiet scenario)
                   None)
      = None)
  /\ (logged_io (parse_log_in_stream_io EmptyString
                   [quiet overlong_cov_line] None)
      = Some (Processing ValueError)
      /\ Exists (fun l =>
                   (Py.int_max_str_digits < String.length (raw_line l))%nat)
           [quiet overlong_cov_line])
  /\ (logged_io (parse_log_in_stream_io EmptyString
                   [failing_dump_line start_line_1000] None)
      = Some (DumpCall "OSError")
      /\ Exists (fun l => dump_raises l = Some "OSError")
           [failing_dump_line start_line_1000]).
Proof.
  assert (H1 : Forall (fun l =>
                         (String.length (raw_line l)
                          <= Py.int_max_str_digits)%nat
                         /\ tee_raises l = None /\ dump_raises l = None)
                 (map quiet scenario)).
  { repeat apply Forall_cons; try apply Forall_nil;
      (split; [apply Nat.leb_le; vm_compute; reflexivity
              | split; reflexivity]). }
  assert (H2 : logged_io (parse_log_in_stream_io EmptyString
                            [quiet overlong_cov_line] None)
               = Some (Processing ValueError)) by (vm_compute; reflexivity).
  assert (H3 : logged_io (parse_log_in_stream_io EmptyString
                            [failing_dump_line start_line_1000] None)
               = Some (DumpCall "OSError")) by (vm_compute; reflexivity).
  split; [|split].
  - split; [exact H1|].
    exact (proj1 (errors_are_overlong_lines_or_io EmptyString
                    (map quiet scenario) None) H1 eq_refl).
  - split; [exact H2|].
    exact (proj2 (proj2 (errors_are_overlong_lines_or_io EmptyString
                           [quiet overlong_cov_line] None)
                    (Processing ValueError) H2)).
  - split; [exact H3|].
    exact (proj2 (errors_are_overlong_lines_or_io EmptyString
                    [failing_dump_line start_line_1000] None)
             (DumpCall "OSError") H3).
Defined.

Lemma triaged_crashes_are_dumped_witness :
  need_dump (final_io (parse_log_in_stream_io EmptyString
                         [failing_dump_line start_line_1000] None)) = true
  /\ exists name,
      logged_io (parse_log_in_stream_io EmptyString
                   [failing_dump_line start_line_1000] None)
      = Some (DumpCall name).
Proof.
  assert (H : need_dump (final_io (parse_log_in_stream_io EmptyString
                                     [failing_dump_line start_line_1000]
                                     None))
              = true) by (vm_compute; reflexivity).
  split; [exact H|].
  exact (proj1 (proj2 (triaged_crashes_are_dumped EmptyString
                         [failing_dump_line start_line_1000] None)) H).
Defined.


Lemma sample_cov_layout :
  cov_layout "#5 NEW cov: 100 ft: 50" "5" " NEW " "100" "50" EmptyString.
Proof.
  split; [reflexivity|]. split; [split; [reflexivity | discriminate]|].
  split; [split; [reflexivity | discriminate]|].
  split; [split; [reflexivity | discriminate]|].
  split; [reflexivity|]. split; [reflexivity|]. split; [reflexivity|].
  intros more tail E Hne _ (g2 & g3 & rest & -> & _).
  destruct more as [|c more]; [contradiction|].
  cbn [append] in E. injection E as _ E.
  repeat (destruct more as [|? more]; cbn [append] in E;
          [discriminate E | (injection E as _ E || discriminate E)]).
Defined.

Lemma coverage_values_come_from_the_line_witness :
  cov_layout "#5 NEW cov: 100 ft: 50" "5" " NEW " "100" "50" EmptyString
  /\ _parse_cov_line "#5 NEW cov: 100 ft: 50" (Some 1000)
     = Ok (Some (5, None, 100, 50))
  /\ _parse_cov_line "1010 #5 NEW cov: 100 ft: 50" (Some 1000)
     = Ok (Some (5, Some 10, 100, 50)).
Proof.
  split; [exact sample_cov_layout|]. split.
  - exact (proj1 (proj1 (coverage_values_come_from_the_line
                           "#5 NEW cov: 100 ft: 50" (Some 1000))
                    _ _ _ _ _ _ sample_cov_layout) eq_refl).
  - exact (proj2 (proj1 (coverage_values_come_from_the_line
                           "1010 #5 NEW cov: 100 ft: 50" (Some 1000))
                    _ _ _ _ _ _ sample_cov_layout)
             "1010" " "%char eq_refl ltac:(discriminate) eq_refl eq_refl).
Defined.
